(** * Medicine Quality Monitor: a shallow embedding of the React front end
      and of the verification engine's contract

    The repository holds the browser side of the application: [HomePage]
    (the batch-code form), [App] (routing and the admin flag), [AdminLogin]
    and [AdminDashboard].  Each component is embedded below as the functions
    it is made of, over an explicit component state and a trace of the
    effects its handlers perform (toasts, HTTP requests, callbacks).

    The FastAPI server that answers [/api/verify] and [/api/stats] is not
    among these sources; the module [Engine] and the summary of [Stats]
    are modelled from the written specification and are marked as such.

    A JavaScript string is the list of its UTF-16 code units.  [trim]
    strips the white space and line terminators of ECMAScript, all of them
    single code units.  [toUpperCase] applies the upper-case mappings of
    Unicode to the code points of the string; the mappings are listed in
    two tables. *)

From stdpp Require Import gmap strings list pretty.
From Stdlib Require Import Ascii String QArith Qminmax Sorted.

Close Scope Q_scope.
Local Open Scope string_scope.
Local Open Scope list_scope.

(** ** JavaScript strings *)

Module JsString.

Definition jsstring := list N.

(** The code units of a text written here as a UTF-8 literal. *)
Fixpoint utf16 (s : string) : jsstring :=
  match s with
  | EmptyString => []
  | String c r =>
      let n := N_of_ascii c in
      if (n <? 0x80)%N then n :: utf16 r
      else if (n <? 0xE0)%N then
        match r with
        | String c2 r' =>
            ((n - 0xC0) * 64 + (N_of_ascii c2 - 0x80))%N :: utf16 r'
        | _ => [0xFFFD%N]
        end
      else if (n <? 0xF0)%N then
        match r with
        | String c2 (String c3 r') =>
            ((n - 0xE0) * 4096 + (N_of_ascii c2 - 0x80) * 64
             + (N_of_ascii c3 - 0x80))%N :: utf16 r'
        | _ => [0xFFFD%N]
        end
      else
        match r with
        | String c2 (String c3 (String c4 r')) =>
            let v := ((n - 0xF0) * 262144 + (N_of_ascii c2 - 0x80) * 4096
                      + (N_of_ascii c3 - 0x80) * 64 + (N_of_ascii c4 - 0x80)
                      - 0x10000)%N in
            (0xD800 + v / 1024)%N :: (0xDC00 + v mod 1024)%N :: utf16 r'
        | _ => [0xFFFD%N]
        end
  end.

(** [a + b] on strings, and the pieces of a template literal. *)
Definition concat (a b : jsstring) : jsstring := a ++ b.

(** A property of an object literal. *)
Definition entry {V} (k : jsstring) (v : V) : jsstring * V := (k, v).

Fixpoint eqb (a b : jsstring) : bool :=
  match a, b with
  | [], [] => true
  | x :: a', y :: b' => (x =? y)%N && eqb a' b'
  | _, _ => false
  end.

(** [WhiteSpace] and [LineTerminator] of ECMAScript, the code units that
    [String.prototype.trim] strips: TAB, LF, VT, FF, CR, SPACE, NBSP,
    U+1680, U+2000 to U+200A, U+2028, U+2029, U+202F, U+205F, U+3000 and
    U+FEFF. *)
Definition isWhiteSpace (u : N) : bool :=
  ((9 <=? u) && (u <=? 13) || (u =? 32) || (u =? 0xA0) || (u =? 0x1680)
   || (0x2000 <=? u) && (u <=? 0x200A) || (u =? 0x2028) || (u =? 0x2029)
   || (u =? 0x202F) || (u =? 0x205F) || (u =? 0x3000) || (u =? 0xFEFF))%N.

(** The two halves of a code point above U+FFFF. *)
Definition isHighSurrogate (u : N) : bool := ((0xD800 <=? u) && (u <=? 0xDBFF))%N.
Definition isLowSurrogate (u : N) : bool := ((0xDC00 <=? u) && (u <=? 0xDFFF))%N.

Definition codePoint (high low : N) : N :=
  (0x10000 + (high - 0xD800) * 1024 + (low - 0xDC00))%N.

Definition surrogates (cp : N) : jsstring :=
  [(0xD800 + (cp - 0x10000) / 1024)%N; (0xDC00 + (cp - 0x10000) mod 1024)%N].

(** The code points of a string: a high surrogate followed by a low one
    is one code point, every other code unit stands for itself. *)
Fixpoint codePoints (s : jsstring) : list N :=
  match s with
  | [] => []
  | u :: rest =>
      match rest with
      | l :: rest' =>
          if isHighSurrogate u && isLowSurrogate l
          then codePoint u l :: codePoints rest'
          else u :: codePoints rest
      | [] => [u]
      end
  end.

Definition assoc {V} (k : N) (table : list (N * V)) : option V :=
  snd <$> find (fun kv => (fst kv =? k)%N) table.

(** The upper-case mappings of the Unicode Character Database, version
    14.0, that [String.prototype.toUpperCase] applies to each code point:
    the simple mappings of UnicodeData.txt together with the unconditional
    mappings of SpecialCasing.txt, which may give up to three code points
    (U+00DF to "SS").  This table has the code points up to U+FFFF, every
    one of them mapped inside that range; a code point that is not listed
    maps to itself. *)
Definition upperCaseMappings : list (N * list N) :=
  [
   (0x61, [0x41]); (0x62, [0x42]); (0x63, [0x43]); (0x64, [0x44]);
   (0x65, [0x45]); (0x66, [0x46]); (0x67, [0x47]); (0x68, [0x48]);
   (0x69, [0x49]); (0x6A, [0x4A]); (0x6B, [0x4B]); (0x6C, [0x4C]);
   (0x6D, [0x4D]); (0x6E, [0x4E]); (0x6F, [0x4F]); (0x70, [0x50]);
   (0x71, [0x51]); (0x72, [0x52]); (0x73, [0x53]); (0x74, [0x54]);
   (0x75, [0x55]); (0x76, [0x56]); (0x77, [0x57]); (0x78, [0x58]);
   (0x79, [0x59]); (0x7A, [0x5A]); (0xB5, [0x39C]); (0xDF, [0x53; 0x53]);
   (0xE0, [0xC0]); (0xE1, [0xC1]); (0xE2, [0xC2]); (0xE3, [0xC3]);
   (0xE4, [0xC4]); (0xE5, [0xC5]); (0xE6, [0xC6]); (0xE7, [0xC7]);
   (0xE8, [0xC8]); (0xE9, [0xC9]); (0xEA, [0xCA]); (0xEB, [0xCB]);
   (0xEC, [0xCC]); (0xED, [0xCD]); (0xEE, [0xCE]); (0xEF, [0xCF]);
   (0xF0, [0xD0]); (0xF1, [0xD1]); (0xF2, [0xD2]); (0xF3, [0xD3]);
   (0xF4, [0xD4]); (0xF5, [0xD5]); (0xF6, [0xD6]); (0xF8, [0xD8]);
   (0xF9, [0xD9]); (0xFA, [0xDA]); (0xFB, [0xDB]); (0xFC, [0xDC]);
   (0xFD, [0xDD]); (0xFE, [0xDE]); (0xFF, [0x178]); (0x101, [0x100]);
   (0x103, [0x102]); (0x105, [0x104]); (0x107, [0x106]); (0x109, [0x108]);
   (0x10B, [0x10A]); (0x10D, [0x10C]); (0x10F, [0x10E]); (0x111, [0x110]);
   (0x113, [0x112]); (0x115, [0x114]); (0x117, [0x116]); (0x119, [0x118]);
   (0x11B, [0x11A]); (0x11D, [0x11C]); (0x11F, [0x11E]); (0x121, [0x120]);
   (0x123, [0x122]); (0x125, [0x124]); (0x127, [0x126]); (0x129, [0x128]);
   (0x12B, [0x12A]); (0x12D, [0x12C]); (0x12F, [0x12E]); (0x131, [0x49]);
   (0x133, [0x132]); (0x135, [0x134]); (0x137, [0x136]); (0x13A, [0x139]);
   (0x13C, [0x13B]); (0x13E, [0x13D]); (0x140, [0x13F]); (0x142, [0x141]);
   (0x144, [0x143]); (0x146, [0x145]); (0x148, [0x147]);
   (0x149, [0x2BC; 0x4E]); (0x14B, [0x14A]); (0x14D, [0x14C]);
   (0x14F, [0x14E]); (0x151, [0x150]); (0x153, [0x152]); (0x155, [0x154]);
   (0x157, [0x156]); (0x159, [0x158]); (0x15B, [0x15A]); (0x15D, [0x15C]);
   (0x15F, [0x15E]); (0x161, [0x160]); (0x163, [0x162]); (0x165, [0x164]);
   (0x167, [0x166]); (0x169, [0x168]); (0x16B, [0x16A]); (0x16D, [0x16C]);
   (0x16F, [0x16E]); (0x171, [0x170]); (0x173, [0x172]); (0x175, [0x174]);
   (0x177, [0x176]); (0x17A, [0x179]); (0x17C, [0x17B]); (0x17E, [0x17D]);
   (0x17F, [0x53]); (0x180, [0x243]); (0x183, [0x182]); (0x185, [0x184]);
   (0x188, [0x187]); (0x18C, [0x18B]); (0x192, [0x191]); (0x195, [0x1F6]);
   (0x199, [0x198]); (0x19A, [0x23D]); (0x19E, [0x220]); (0x1A1, [0x1A0]);
   (0x1A3, [0x1A2]); (0x1A5, [0x1A4]); (0x1A8, [0x1A7]); (0x1AD, [0x1AC]);
   (0x1B0, [0x1AF]); (0x1B4, [0x1B3]); (0x1B6, [0x1B5]); (0x1B9, [0x1B8]);
   (0x1BD, [0x1BC]); (0x1BF, [0x1F7]); (0x1C5, [0x1C4]); (0x1C6, [0x1C4]);
   (0x1C8, [0x1C7]); (0x1C9, [0x1C7]); (0x1CB, [0x1CA]); (0x1CC, [0x1CA]);
   (0x1CE, [0x1CD]); (0x1D0, [0x1CF]); (0x1D2, [0x1D1]); (0x1D4, [0x1D3]);
   (0x1D6, [0x1D5]); (0x1D8, [0x1D7]); (0x1DA, [0x1D9]); (0x1DC, [0x1DB]);
   (0x1DD, [0x18E]); (0x1DF, [0x1DE]); (0x1E1, [0x1E0]); (0x1E3, [0x1E2]);
   (0x1E5, [0x1E4]); (0x1E7, [0x1E6]); (0x1E9, [0x1E8]); (0x1EB, [0x1EA]);
   (0x1ED, [0x1EC]); (0x1EF, [0x1EE]); (0x1F0, [0x4A; 0x30C]);
   (0x1F2, [0x1F1]); (0x1F3, [0x1F1]); (0x1F5, [0x1F4]); (0x1F9, [0x1F8]);
   (0x1FB, [0x1FA]); (0x1FD, [0x1FC]); (0x1FF, [0x1FE]); (0x201, [0x200]);
   (0x203, [0x202]); (0x205, [0x204]); (0x207, [0x206]); (0x209, [0x208]);
   (0x20B, [0x20A]); (0x20D, [0x20C]); (0x20F, [0x20E]); (0x211, [0x210]);
   (0x213, [0x212]); (0x215, [0x214]); (0x217, [0x216]); (0x219, [0x218]);
   (0x21B, [0x21A]); (0x21D, [0x21C]); (0x21F, [0x21E]); (0x223, [0x222]);
   (0x225, [0x224]); (0x227, [0x226]); (0x229, [0x228]); (0x22B, [0x22A]);
   (0x22D, [0x22C]); (0x22F, [0x22E]); (0x231, [0x230]); (0x233, [0x232]);
   (0x23C, [0x23B]); (0x23F, [0x2C7E]); (0x240, [0x2C7F]); (0x242, [0x241]);
   (0x247, [0x246]); (0x249, [0x248]); (0x24B, [0x24A]); (0x24D, [0x24C]);
   (0x24F, [0x24E]); (0x250, [0x2C6F]); (0x251, [0x2C6D]); (0x252, [0x2C70]);
   (0x253, [0x181]); (0x254, [0x186]); (0x256, [0x189]); (0x257, [0x18A]);
   (0x259, [0x18F]); (0x25B, [0x190]); (0x25C, [0xA7AB]); (0x260, [0x193]);
   (0x261, [0xA7AC]); (0x263, [0x194]); (0x265, [0xA78D]); (0x266, [0xA7AA]);
   (0x268, [0x197]); (0x269, [0x196]); (0x26A, [0xA7AE]); (0x26B, [0x2C62]);
   (0x26C, [0xA7AD]); (0x26F, [0x19C]); (0x271, [0x2C6E]); (0x272, [0x19D]);
   (0x275, [0x19F]); (0x27D, [0x2C64]); (0x280, [0x1A6]); (0x282, [0xA7C5]);
   (0x283, [0x1A9]); (0x287, [0xA7B1]); (0x288, [0x1AE]); (0x289, [0x244]);
   (0x28A, [0x1B1]); (0x28B, [0x1B2]); (0x28C, [0x245]); (0x292, [0x1B7]);
   (0x29D, [0xA7B2]); (0x29E, [0xA7B0]); (0x345, [0x399]); (0x371, [0x370]);
   (0x373, [0x372]); (0x377, [0x376]); (0x37B, [0x3FD]); (0x37C, [0x3FE]);
   (0x37D, [0x3FF]); (0x390, [0x399; 0x308; 0x301]); (0x3AC, [0x386]);
   (0x3AD, [0x388]); (0x3AE, [0x389]); (0x3AF, [0x38A]);
   (0x3B0, [0x3A5; 0x308; 0x301]); (0x3B1, [0x391]); (0x3B2, [0x392]);
   (0x3B3, [0x393]); (0x3B4, [0x394]); (0x3B5, [0x395]); (0x3B6, [0x396]);
   (0x3B7, [0x397]); (0x3B8, [0x398]); (0x3B9, [0x399]); (0x3BA, [0x39A]);
   (0x3BB, [0x39B]); (0x3BC, [0x39C]); (0x3BD, [0x39D]); (0x3BE, [0x39E]);
   (0x3BF, [0x39F]); (0x3C0, [0x3A0]); (0x3C1, [0x3A1]); (0x3C2, [0x3A3]);
   (0x3C3, [0x3A3]); (0x3C4, [0x3A4]); (0x3C5, [0x3A5]); (0x3C6, [0x3A6]);
   (0x3C7, [0x3A7]); (0x3C8, [0x3A8]); (0x3C9, [0x3A9]); (0x3CA, [0x3AA]);
   (0x3CB, [0x3AB]); (0x3CC, [0x38C]); (0x3CD, [0x38E]); (0x3CE, [0x38F]);
   (0x3D0, [0x392]); (0x3D1, [0x398]); (0x3D5, [0x3A6]); (0x3D6, [0x3A0]);
   (0x3D7, [0x3CF]); (0x3D9, [0x3D8]); (0x3DB, [0x3DA]); (0x3DD, [0x3DC]);
   (0x3DF, [0x3DE]); (0x3E1, [0x3E0]); (0x3E3, [0x3E2]); (0x3E5, [0x3E4]);
   (0x3E7, [0x3E6]); (0x3E9, [0x3E8]); (0x3EB, [0x3EA]); (0x3ED, [0x3EC]);
   (0x3EF, [0x3EE]); (0x3F0, [0x39A]); (0x3F1, [0x3A1]); (0x3F2, [0x3F9]);
   (0x3F3, [0x37F]); (0x3F5, [0x395]); (0x3F8, [0x3F7]); (0x3FB, [0x3FA]);
   (0x430, [0x410]); (0x431, [0x411]); (0x432, [0x412]); (0x433, [0x413]);
   (0x434, [0x414]); (0x435, [0x415]); (0x436, [0x416]); (0x437, [0x417]);
   (0x438, [0x418]); (0x439, [0x419]); (0x43A, [0x41A]); (0x43B, [0x41B]);
   (0x43C, [0x41C]); (0x43D, [0x41D]); (0x43E, [0x41E]); (0x43F, [0x41F]);
   (0x440, [0x420]); (0x441, [0x421]); (0x442, [0x422]); (0x443, [0x423]);
   (0x444, [0x424]); (0x445, [0x425]); (0x446, [0x426]); (0x447, [0x427]);
   (0x448, [0x428]); (0x449, [0x429]); (0x44A, [0x42A]); (0x44B, [0x42B]);
   (0x44C, [0x42C]); (0x44D, [0x42D]); (0x44E, [0x42E]); (0x44F, [0x42F]);
   (0x450, [0x400]); (0x451, [0x401]); (0x452, [0x402]); (0x453, [0x403]);
   (0x454, [0x404]); (0x455, [0x405]); (0x456, [0x406]); (0x457, [0x407]);
   (0x458, [0x408]); (0x459, [0x409]); (0x45A, [0x40A]); (0x45B, [0x40B]);
   (0x45C, [0x40C]); (0x45D, [0x40D]); (0x45E, [0x40E]); (0x45F, [0x40F]);
   (0x461, [0x460]); (0x463, [0x462]); (0x465, [0x464]); (0x467, [0x466]);
   (0x469, [0x468]); (0x46B, [0x46A]); (0x46D, [0x46C]); (0x46F, [0x46E]);
   (0x471, [0x470]); (0x473, [0x472]); (0x475, [0x474]); (0x477, [0x476]);
   (0x479, [0x478]); (0x47B, [0x47A]); (0x47D, [0x47C]); (0x47F, [0x47E]);
   (0x481, [0x480]); (0x48B, [0x48A]); (0x48D, [0x48C]); (0x48F, [0x48E]);
   (0x491, [0x490]); (0x493, [0x492]); (0x495, [0x494]); (0x497, [0x496]);
   (0x499, [0x498]); (0x49B, [0x49A]); (0x49D, [0x49C]); (0x49F, [0x49E]);
   (0x4A1, [0x4A0]); (0x4A3, [0x4A2]); (0x4A5, [0x4A4]); (0x4A7, [0x4A6]);
   (0x4A9, [0x4A8]); (0x4AB, [0x4AA]); (0x4AD, [0x4AC]); (0x4AF, [0x4AE]);
   (0x4B1, [0x4B0]); (0x4B3, [0x4B2]); (0x4B5, [0x4B4]); (0x4B7, [0x4B6]);
   (0x4B9, [0x4B8]); (0x4BB, [0x4BA]); (0x4BD, [0x4BC]); (0x4BF, [0x4BE]);
   (0x4C2, [0x4C1]); (0x4C4, [0x4C3]); (0x4C6, [0x4C5]); (0x4C8, [0x4C7]);
   (0x4CA, [0x4C9]); (0x4CC, [0x4CB]); (0x4CE, [0x4CD]); (0x4CF, [0x4C0]);
   (0x4D1, [0x4D0]); (0x4D3, [0x4D2]); (0x4D5, [0x4D4]); (0x4D7, [0x4D6]);
   (0x4D9, [0x4D8]); (0x4DB, [0x4DA]); (0x4DD, [0x4DC]); (0x4DF, [0x4DE]);
   (0x4E1, [0x4E0]); (0x4E3, [0x4E2]); (0x4E5, [0x4E4]); (0x4E7, [0x4E6]);
   (0x4E9, [0x4E8]); (0x4EB, [0x4EA]); (0x4ED, [0x4EC]); (0x4EF, [0x4EE]);
   (0x4F1, [0x4F0]); (0x4F3, [0x4F2]); (0x4F5, [0x4F4]); (0x4F7, [0x4F6]);
   (0x4F9, [0x4F8]); (0x4FB, [0x4FA]); (0x4FD, [0x4FC]); (0x4FF, [0x4FE]);
   (0x501, [0x500]); (0x503, [0x502]); (0x505, [0x504]); (0x507, [0x506]);
   (0x509, [0x508]); (0x50B, [0x50A]); (0x50D, [0x50C]); (0x50F, [0x50E]);
   (0x511, [0x510]); (0x513, [0x512]); (0x515, [0x514]); (0x517, [0x516]);
   (0x519, [0x518]); (0x51B, [0x51A]); (0x51D, [0x51C]); (0x51F, [0x51E]);
   (0x521, [0x520]); (0x523, [0x522]); (0x525, [0x524]); (0x527, [0x526]);
   (0x529, [0x528]); (0x52B, [0x52A]); (0x52D, [0x52C]); (0x52F, [0x52E]);
   (0x561, [0x531]); (0x562, [0x532]); (0x563, [0x533]); (0x564, [0x534]);
   (0x565, [0x535]); (0x566, [0x536]); (0x567, [0x537]); (0x568, [0x538]);
   (0x569, [0x539]); (0x56A, [0x53A]); (0x56B, [0x53B]); (0x56C, [0x53C]);
   (0x56D, [0x53D]); (0x56E, [0x53E]); (0x56F, [0x53F]); (0x570, [0x540]);
   (0x571, [0x541]); (0x572, [0x542]); (0x573, [0x543]); (0x574, [0x544]);
   (0x575, [0x545]); (0x576, [0x546]); (0x577, [0x547]); (0x578, [0x548]);
   (0x579, [0x549]); (0x57A, [0x54A]); (0x57B, [0x54B]); (0x57C, [0x54C]);
   (0x57D, [0x54D]); (0x57E, [0x54E]); (0x57F, [0x54F]); (0x580, [0x550]);
   (0x581, [0x551]); (0x582, [0x552]); (0x583, [0x553]); (0x584, [0x554]);
   (0x585, [0x555]); (0x586, [0x556]); (0x587, [0x535; 0x552]);
   (0x10D0, [0x1C90]); (0x10D1, [0x1C91]); (0x10D2, [0x1C92]);
   (0x10D3, [0x1C93]); (0x10D4, [0x1C94]); (0x10D5, [0x1C95]);
   (0x10D6, [0x1C96]); (0x10D7, [0x1C97]); (0x10D8, [0x1C98]);
   (0x10D9, [0x1C99]); (0x10DA, [0x1C9A]); (0x10DB, [0x1C9B]);
   (0x10DC, [0x1C9C]); (0x10DD, [0x1C9D]); (0x10DE, [0x1C9E]);
   (0x10DF, [0x1C9F]); (0x10E0, [0x1CA0]); (0x10E1, [0x1CA1]);
   (0x10E2, [0x1CA2]); (0x10E3, [0x1CA3]); (0x10E4, [0x1CA4]);
   (0x10E5, [0x1CA5]); (0x10E6, [0x1CA6]); (0x10E7, [0x1CA7]);
   (0x10E8, [0x1CA8]); (0x10E9, [0x1CA9]); (0x10EA, [0x1CAA]);
   (0x10EB, [0x1CAB]); (0x10EC, [0x1CAC]); (0x10ED, [0x1CAD]);
   (0x10EE, [0x1CAE]); (0x10EF, [0x1CAF]); (0x10F0, [0x1CB0]);
   (0x10F1, [0x1CB1]); (0x10F2, [0x1CB2]); (0x10F3, [0x1CB3]);
   (0x10F4, [0x1CB4]); (0x10F5, [0x1CB5]); (0x10F6, [0x1CB6]);
   (0x10F7, [0x1CB7]); (0x10F8, [0x1CB8]); (0x10F9, [0x1CB9]);
   (0x10FA, [0x1CBA]); (0x10FD, [0x1CBD]); (0x10FE, [0x1CBE]);
   (0x10FF, [0x1CBF]); (0x13F8, [0x13F0]); (0x13F9, [0x13F1]);
   (0x13FA, [0x13F2]); (0x13FB, [0x13F3]); (0x13FC, [0x13F4]);
   (0x13FD, [0x13F5]); (0x1C80, [0x412]); (0x1C81, [0x414]);
   (0x1C82, [0x41E]); (0x1C83, [0x421]); (0x1C84, [0x422]); (0x1C85, [0x422]);
   (0x1C86, [0x42A]); (0x1C87, [0x462]); (0x1C88, [0xA64A]);
   (0x1D79, [0xA77D]); (0x1D7D, [0x2C63]); (0x1D8E, [0xA7C6]);
   (0x1E01, [0x1E00]); (0x1E03, [0x1E02]); (0x1E05, [0x1E04]);
   (0x1E07, [0x1E06]); (0x1E09, [0x1E08]); (0x1E0B, [0x1E0A]);
   (0x1E0D, [0x1E0C]); (0x1E0F, [0x1E0E]); (0x1E11, [0x1E10]);
   (0x1E13, [0x1E12]); (0x1E15, [0x1E14]); (0x1E17, [0x1E16]);
   (0x1E19, [0x1E18]); (0x1E1B, [0x1E1A]); (0x1E1D, [0x1E1C]);
   (0x1E1F, [0x1E1E]); (0x1E21, [0x1E20]); (0x1E23, [0x1E22]);
   (0x1E25, [0x1E24]); (0x1E27, [0x1E26]); (0x1E29, [0x1E28]);
   (0x1E2B, [0x1E2A]); (0x1E2D, [0x1E2C]); (0x1E2F, [0x1E2E]);
   (0x1E31, [0x1E30]); (0x1E33, [0x1E32]); (0x1E35, [0x1E34]);
   (0x1E37, [0x1E36]); (0x1E39, [0x1E38]); (0x1E3B, [0x1E3A]);
   (0x1E3D, [0x1E3C]); (0x1E3F, [0x1E3E]); (0x1E41, [0x1E40]);
   (0x1E43, [0x1E42]); (0x1E45, [0x1E44]); (0x1E47, [0x1E46]);
   (0x1E49, [0x1E48]); (0x1E4B, [0x1E4A]); (0x1E4D, [0x1E4C]);
   (0x1E4F, [0x1E4E]); (0x1E51, [0x1E50]); (0x1E53, [0x1E52]);
   (0x1E55, [0x1E54]); (0x1E57, [0x1E56]); (0x1E59, [0x1E58]);
   (0x1E5B, [0x1E5A]); (0x1E5D, [0x1E5C]); (0x1E5F, [0x1E5E]);
   (0x1E61, [0x1E60]); (0x1E63, [0x1E62]); (0x1E65, [0x1E64]);
   (0x1E67, [0x1E66]); (0x1E69, [0x1E68]); (0x1E6B, [0x1E6A]);
   (0x1E6D, [0x1E6C]); (0x1E6F, [0x1E6E]); (0x1E71, [0x1E70]);
   (0x1E73, [0x1E72]); (0x1E75, [0x1E74]); (0x1E77, [0x1E76]);
   (0x1E79, [0x1E78]); (0x1E7B, [0x1E7A]); (0x1E7D, [0x1E7C]);
   (0x1E7F, [0x1E7E]); (0x1E81, [0x1E80]); (0x1E83, [0x1E82]);
   (0x1E85, [0x1E84]); (0x1E87, [0x1E86]); (0x1E89, [0x1E88]);
   (0x1E8B, [0x1E8A]); (0x1E8D, [0x1E8C]); (0x1E8F, [0x1E8E]);
   (0x1E91, [0x1E90]); (0x1E93, [0x1E92]); (0x1E95, [0x1E94]);
   (0x1E96, [0x48; 0x331]); (0x1E97, [0x54; 0x308]); (0x1E98, [0x57; 0x30A]);
   (0x1E99, [0x59; 0x30A]); (0x1E9A, [0x41; 0x2BE]); (0x1E9B, [0x1E60]);
   (0x1EA1, [0x1EA0]); (0x1EA3, [0x1EA2]); (0x1EA5, [0x1EA4]);
   (0x1EA7, [0x1EA6]); (0x1EA9, [0x1EA8]); (0x1EAB, [0x1EAA]);
   (0x1EAD, [0x1EAC]); (0x1EAF, [0x1EAE]); (0x1EB1, [0x1EB0]);
   (0x1EB3, [0x1EB2]); (0x1EB5, [0x1EB4]); (0x1EB7, [0x1EB6]);
   (0x1EB9, [0x1EB8]); (0x1EBB, [0x1EBA]); (0x1EBD, [0x1EBC]);
   (0x1EBF, [0x1EBE]); (0x1EC1, [0x1EC0]); (0x1EC3, [0x1EC2]);
   (0x1EC5, [0x1EC4]); (0x1EC7, [0x1EC6]); (0x1EC9, [0x1EC8]);
   (0x1ECB, [0x1ECA]); (0x1ECD, [0x1ECC]); (0x1ECF, [0x1ECE]);
   (0x1ED1, [0x1ED0]); (0x1ED3, [0x1ED2]); (0x1ED5, [0x1ED4]);
   (0x1ED7, [0x1ED6]); (0x1ED9, [0x1ED8]); (0x1EDB, [0x1EDA]);
   (0x1EDD, [0x1EDC]); (0x1EDF, [0x1EDE]); (0x1EE1, [0x1EE0]);
   (0x1EE3, [0x1EE2]); (0x1EE5, [0x1EE4]); (0x1EE7, [0x1EE6]);
   (0x1EE9, [0x1EE8]); (0x1EEB, [0x1EEA]); (0x1EED, [0x1EEC]);
   (0x1EEF, [0x1EEE]); (0x1EF1, [0x1EF0]); (0x1EF3, [0x1EF2]);
   (0x1EF5, [0x1EF4]); (0x1EF7, [0x1EF6]); (0x1EF9, [0x1EF8]);
   (0x1EFB, [0x1EFA]); (0x1EFD, [0x1EFC]); (0x1EFF, [0x1EFE]);
   (0x1F00, [0x1F08]); (0x1F01, [0x1F09]); (0x1F02, [0x1F0A]);
   (0x1F03, [0x1F0B]); (0x1F04, [0x1F0C]); (0x1F05, [0x1F0D]);
   (0x1F06, [0x1F0E]); (0x1F07, [0x1F0F]); (0x1F10, [0x1F18]);
   (0x1F11, [0x1F19]); (0x1F12, [0x1F1A]); (0x1F13, [0x1F1B]);
   (0x1F14, [0x1F1C]); (0x1F15, [0x1F1D]); (0x1F20, [0x1F28]);
   (0x1F21, [0x1F29]); (0x1F22, [0x1F2A]); (0x1F23, [0x1F2B]);
   (0x1F24, [0x1F2C]); (0x1F25, [0x1F2D]); (0x1F26, [0x1F2E]);
   (0x1F27, [0x1F2F]); (0x1F30, [0x1F38]); (0x1F31, [0x1F39]);
   (0x1F32, [0x1F3A]); (0x1F33, [0x1F3B]); (0x1F34, [0x1F3C]);
   (0x1F35, [0x1F3D]); (0x1F36, [0x1F3E]); (0x1F37, [0x1F3F]);
   (0x1F40, [0x1F48]); (0x1F41, [0x1F49]); (0x1F42, [0x1F4A]);
   (0x1F43, [0x1F4B]); (0x1F44, [0x1F4C]); (0x1F45, [0x1F4D]);
   (0x1F50, [0x3A5; 0x313]); (0x1F51, [0x1F59]);
   (0x1F52, [0x3A5; 0x313; 0x300]); (0x1F53, [0x1F5B]);
   (0x1F54, [0x3A5; 0x313; 0x301]); (0x1F55, [0x1F5D]);
   (0x1F56, [0x3A5; 0x313; 0x342]); (0x1F57, [0x1F5F]); (0x1F60, [0x1F68]);
   (0x1F61, [0x1F69]); (0x1F62, [0x1F6A]); (0x1F63, [0x1F6B]);
   (0x1F64, [0x1F6C]); (0x1F65, [0x1F6D]); (0x1F66, [0x1F6E]);
   (0x1F67, [0x1F6F]); (0x1F70, [0x1FBA]); (0x1F71, [0x1FBB]);
   (0x1F72, [0x1FC8]); (0x1F73, [0x1FC9]); (0x1F74, [0x1FCA]);
   (0x1F75, [0x1FCB]); (0x1F76, [0x1FDA]); (0x1F77, [0x1FDB]);
   (0x1F78, [0x1FF8]); (0x1F79, [0x1FF9]); (0x1F7A, [0x1FEA]);
   (0x1F7B, [0x1FEB]); (0x1F7C, [0x1FFA]); (0x1F7D, [0x1FFB]);
   (0x1F80, [0x1F08; 0x399]); (0x1F81, [0x1F09; 0x399]);
   (0x1F82, [0x1F0A; 0x399]); (0x1F83, [0x1F0B; 0x399]);
   (0x1F84, [0x1F0C; 0x399]); (0x1F85, [0x1F0D; 0x399]);
   (0x1F86, [0x1F0E; 0x399]); (0x1F87, [0x1F0F; 0x399]);
   (0x1F88, [0x1F08; 0x399]); (0x1F89, [0x1F09; 0x399]);
   (0x1F8A, [0x1F0A; 0x399]); (0x1F8B, [0x1F0B; 0x399]);
   (0x1F8C, [0x1F0C; 0x399]); (0x1F8D, [0x1F0D; 0x399]);
   (0x1F8E, [0x1F0E; 0x399]); (0x1F8F, [0x1F0F; 0x399]);
   (0x1F90, [0x1F28; 0x399]); (0x1F91, [0x1F29; 0x399]);
   (0x1F92, [0x1F2A; 0x399]); (0x1F93, [0x1F2B; 0x399]);
   (0x1F94, [0x1F2C; 0x399]); (0x1F95, [0x1F2D; 0x399]);
   (0x1F96, [0x1F2E; 0x399]); (0x1F97, [0x1F2F; 0x399]);
   (0x1F98, [0x1F28; 0x399]); (0x1F99, [0x1F29; 0x399]);
   (0x1F9A, [0x1F2A; 0x399]); (0x1F9B, [0x1F2B; 0x399]);
   (0x1F9C, [0x1F2C; 0x399]); (0x1F9D, [0x1F2D; 0x399]);
   (0x1F9E, [0x1F2E; 0x399]); (0x1F9F, [0x1F2F; 0x399]);
   (0x1FA0, [0x1F68; 0x399]); (0x1FA1, [0x1F69; 0x399]);
   (0x1FA2, [0x1F6A; 0x399]); (0x1FA3, [0x1F6B; 0x399]);
   (0x1FA4, [0x1F6C; 0x399]); (0x1FA5, [0x1F6D; 0x399]);
   (0x1FA6, [0x1F6E; 0x399]); (0x1FA7, [0x1F6F; 0x399]);
   (0x1FA8, [0x1F68; 0x399]); (0x1FA9, [0x1F69; 0x399]);
   (0x1FAA, [0x1F6A; 0x399]); (0x1FAB, [0x1F6B; 0x399]);
   (0x1FAC, [0x1F6C; 0x399]); (0x1FAD, [0x1F6D; 0x399]);
   (0x1FAE, [0x1F6E; 0x399]); (0x1FAF, [0x1F6F; 0x399]); (0x1FB0, [0x1FB8]);
   (0x1FB1, [0x1FB9]); (0x1FB2, [0x1FBA; 0x399]); (0x1FB3, [0x391; 0x399]);
   (0x1FB4, [0x386; 0x399]); (0x1FB6, [0x391; 0x342]);
   (0x1FB7, [0x391; 0x342; 0x399]); (0x1FBC, [0x391; 0x399]);
   (0x1FBE, [0x399]); (0x1FC2, [0x1FCA; 0x399]); (0x1FC3, [0x397; 0x399]);
   (0x1FC4, [0x389; 0x399]); (0x1FC6, [0x397; 0x342]);
   (0x1FC7, [0x397; 0x342; 0x399]); (0x1FCC, [0x397; 0x399]);
   (0x1FD0, [0x1FD8]); (0x1FD1, [0x1FD9]); (0x1FD2, [0x399; 0x308; 0x300]);
   (0x1FD3, [0x399; 0x308; 0x301]); (0x1FD6, [0x399; 0x342]);
   (0x1FD7, [0x399; 0x308; 0x342]); (0x1FE0, [0x1FE8]); (0x1FE1, [0x1FE9]);
   (0x1FE2, [0x3A5; 0x308; 0x300]); (0x1FE3, [0x3A5; 0x308; 0x301]);
   (0x1FE4, [0x3A1; 0x313]); (0x1FE5, [0x1FEC]); (0x1FE6, [0x3A5; 0x342]);
   (0x1FE7, [0x3A5; 0x308; 0x342]); (0x1FF2, [0x1FFA; 0x399]);
   (0x1FF3, [0x3A9; 0x399]); (0x1FF4, [0x38F; 0x399]);
   (0x1FF6, [0x3A9; 0x342]); (0x1FF7, [0x3A9; 0x342; 0x399]);
   (0x1FFC, [0x3A9; 0x399]); (0x214E, [0x2132]); (0x2170, [0x2160]);
   (0x2171, [0x2161]); (0x2172, [0x2162]); (0x2173, [0x2163]);
   (0x2174, [0x2164]); (0x2175, [0x2165]); (0x2176, [0x2166]);
   (0x2177, [0x2167]); (0x2178, [0x2168]); (0x2179, [0x2169]);
   (0x217A, [0x216A]); (0x217B, [0x216B]); (0x217C, [0x216C]);
   (0x217D, [0x216D]); (0x217E, [0x216E]); (0x217F, [0x216F]);
   (0x2184, [0x2183]); (0x24D0, [0x24B6]); (0x24D1, [0x24B7]);
   (0x24D2, [0x24B8]); (0x24D3, [0x24B9]); (0x24D4, [0x24BA]);
   (0x24D5, [0x24BB]); (0x24D6, [0x24BC]); (0x24D7, [0x24BD]);
   (0x24D8, [0x24BE]); (0x24D9, [0x24BF]); (0x24DA, [0x24C0]);
   (0x24DB, [0x24C1]); (0x24DC, [0x24C2]); (0x24DD, [0x24C3]);
   (0x24DE, [0x24C4]); (0x24DF, [0x24C5]); (0x24E0, [0x24C6]);
   (0x24E1, [0x24C7]); (0x24E2, [0x24C8]); (0x24E3, [0x24C9]);
   (0x24E4, [0x24CA]); (0x24E5, [0x24CB]); (0x24E6, [0x24CC]);
   (0x24E7, [0x24CD]); (0x24E8, [0x24CE]); (0x24E9, [0x24CF]);
   (0x2C30, [0x2C00]); (0x2C31, [0x2C01]); (0x2C32, [0x2C02]);
   (0x2C33, [0x2C03]); (0x2C34, [0x2C04]); (0x2C35, [0x2C05]);
   (0x2C36, [0x2C06]); (0x2C37, [0x2C07]); (0x2C38, [0x2C08]);
   (0x2C39, [0x2C09]); (0x2C3A, [0x2C0A]); (0x2C3B, [0x2C0B]);
   (0x2C3C, [0x2C0C]); (0x2C3D, [0x2C0D]); (0x2C3E, [0x2C0E]);
   (0x2C3F, [0x2C0F]); (0x2C40, [0x2C10]); (0x2C41, [0x2C11]);
   (0x2C42, [0x2C12]); (0x2C43, [0x2C13]); (0x2C44, [0x2C14]);
   (0x2C45, [0x2C15]); (0x2C46, [0x2C16]); (0x2C47, [0x2C17]);
   (0x2C48, [0x2C18]); (0x2C49, [0x2C19]); (0x2C4A, [0x2C1A]);
   (0x2C4B, [0x2C1B]); (0x2C4C, [0x2C1C]); (0x2C4D, [0x2C1D]);
   (0x2C4E, [0x2C1E]); (0x2C4F, [0x2C1F]); (0x2C50, [0x2C20]);
   (0x2C51, [0x2C21]); (0x2C52, [0x2C22]); (0x2C53, [0x2C23]);
   (0x2C54, [0x2C24]); (0x2C55, [0x2C25]); (0x2C56, [0x2C26]);
   (0x2C57, [0x2C27]); (0x2C58, [0x2C28]); (0x2C59, [0x2C29]);
   (0x2C5A, [0x2C2A]); (0x2C5B, [0x2C2B]); (0x2C5C, [0x2C2C]);
   (0x2C5D, [0x2C2D]); (0x2C5E, [0x2C2E]); (0x2C5F, [0x2C2F]);
   (0x2C61, [0x2C60]); (0x2C65, [0x23A]); (0x2C66, [0x23E]);
   (0x2C68, [0x2C67]); (0x2C6A, [0x2C69]); (0x2C6C, [0x2C6B]);
   (0x2C73, [0x2C72]); (0x2C76, [0x2C75]); (0x2C81, [0x2C80]);
   (0x2C83, [0x2C82]); (0x2C85, [0x2C84]); (0x2C87, [0x2C86]);
   (0x2C89, [0x2C88]); (0x2C8B, [0x2C8A]); (0x2C8D, [0x2C8C]);
   (0x2C8F, [0x2C8E]); (0x2C91, [0x2C90]); (0x2C93, [0x2C92]);
   (0x2C95, [0x2C94]); (0x2C97, [0x2C96]); (0x2C99, [0x2C98]);
   (0x2C9B, [0x2C9A]); (0x2C9D, [0x2C9C]); (0x2C9F, [0x2C9E]);
   (0x2CA1, [0x2CA0]); (0x2CA3, [0x2CA2]); (0x2CA5, [0x2CA4]);
   (0x2CA7, [0x2CA6]); (0x2CA9, [0x2CA8]); (0x2CAB, [0x2CAA]);
   (0x2CAD, [0x2CAC]); (0x2CAF, [0x2CAE]); (0x2CB1, [0x2CB0]);
   (0x2CB3, [0x2CB2]); (0x2CB5, [0x2CB4]); (0x2CB7, [0x2CB6]);
   (0x2CB9, [0x2CB8]); (0x2CBB, [0x2CBA]); (0x2CBD, [0x2CBC]);
   (0x2CBF, [0x2CBE]); (0x2CC1, [0x2CC0]); (0x2CC3, [0x2CC2]);
   (0x2CC5, [0x2CC4]); (0x2CC7, [0x2CC6]); (0x2CC9, [0x2CC8]);
   (0x2CCB, [0x2CCA]); (0x2CCD, [0x2CCC]); (0x2CCF, [0x2CCE]);
   (0x2CD1, [0x2CD0]); (0x2CD3, [0x2CD2]); (0x2CD5, [0x2CD4]);
   (0x2CD7, [0x2CD6]); (0x2CD9, [0x2CD8]); (0x2CDB, [0x2CDA]);
   (0x2CDD, [0x2CDC]); (0x2CDF, [0x2CDE]); (0x2CE1, [0x2CE0]);
   (0x2CE3, [0x2CE2]); (0x2CEC, [0x2CEB]); (0x2CEE, [0x2CED]);
   (0x2CF3, [0x2CF2]); (0x2D00, [0x10A0]); (0x2D01, [0x10A1]);
   (0x2D02, [0x10A2]); (0x2D03, [0x10A3]); (0x2D04, [0x10A4]);
   (0x2D05, [0x10A5]); (0x2D06, [0x10A6]); (0x2D07, [0x10A7]);
   (0x2D08, [0x10A8]); (0x2D09, [0x10A9]); (0x2D0A, [0x10AA]);
   (0x2D0B, [0x10AB]); (0x2D0C, [0x10AC]); (0x2D0D, [0x10AD]);
   (0x2D0E, [0x10AE]); (0x2D0F, [0x10AF]); (0x2D10, [0x10B0]);
   (0x2D11, [0x10B1]); (0x2D12, [0x10B2]); (0x2D13, [0x10B3]);
   (0x2D14, [0x10B4]); (0x2D15, [0x10B5]); (0x2D16, [0x10B6]);
   (0x2D17, [0x10B7]); (0x2D18, [0x10B8]); (0x2D19, [0x10B9]);
   (0x2D1A, [0x10BA]); (0x2D1B, [0x10BB]); (0x2D1C, [0x10BC]);
   (0x2D1D, [0x10BD]); (0x2D1E, [0x10BE]); (0x2D1F, [0x10BF]);
   (0x2D20, [0x10C0]); (0x2D21, [0x10C1]); (0x2D22, [0x10C2]);
   (0x2D23, [0x10C3]); (0x2D24, [0x10C4]); (0x2D25, [0x10C5]);
   (0x2D27, [0x10C7]); (0x2D2D, [0x10CD]); (0xA641, [0xA640]);
   (0xA643, [0xA642]); (0xA645, [0xA644]); (0xA647, [0xA646]);
   (0xA649, [0xA648]); (0xA64B, [0xA64A]); (0xA64D, [0xA64C]);
   (0xA64F, [0xA64E]); (0xA651, [0xA650]); (0xA653, [0xA652]);
   (0xA655, [0xA654]); (0xA657, [0xA656]); (0xA659, [0xA658]);
   (0xA65B, [0xA65A]); (0xA65D, [0xA65C]); (0xA65F, [0xA65E]);
   (0xA661, [0xA660]); (0xA663, [0xA662]); (0xA665, [0xA664]);
   (0xA667, [0xA666]); (0xA669, [0xA668]); (0xA66B, [0xA66A]);
   (0xA66D, [0xA66C]); (0xA681, [0xA680]); (0xA683, [0xA682]);
   (0xA685, [0xA684]); (0xA687, [0xA686]); (0xA689, [0xA688]);
   (0xA68B, [0xA68A]); (0xA68D, [0xA68C]); (0xA68F, [0xA68E]);
   (0xA691, [0xA690]); (0xA693, [0xA692]); (0xA695, [0xA694]);
   (0xA697, [0xA696]); (0xA699, [0xA698]); (0xA69B, [0xA69A]);
   (0xA723, [0xA722]); (0xA725, [0xA724]); (0xA727, [0xA726]);
   (0xA729, [0xA728]); (0xA72B, [0xA72A]); (0xA72D, [0xA72C]);
   (0xA72F, [0xA72E]); (0xA733, [0xA732]); (0xA735, [0xA734]);
   (0xA737, [0xA736]); (0xA739, [0xA738]); (0xA73B, [0xA73A]);
   (0xA73D, [0xA73C]); (0xA73F, [0xA73E]); (0xA741, [0xA740]);
   (0xA743, [0xA742]); (0xA745, [0xA744]); (0xA747, [0xA746]);
   (0xA749, [0xA748]); (0xA74B, [0xA74A]); (0xA74D, [0xA74C]);
   (0xA74F, [0xA74E]); (0xA751, [0xA750]); (0xA753, [0xA752]);
   (0xA755, [0xA754]); (0xA757, [0xA756]); (0xA759, [0xA758]);
   (0xA75B, [0xA75A]); (0xA75D, [0xA75C]); (0xA75F, [0xA75E]);
   (0xA761, [0xA760]); (0xA763, [0xA762]); (0xA765, [0xA764]);
   (0xA767, [0xA766]); (0xA769, [0xA768]); (0xA76B, [0xA76A]);
   (0xA76D, [0xA76C]); (0xA76F, [0xA76E]); (0xA77A, [0xA779]);
   (0xA77C, [0xA77B]); (0xA77F, [0xA77E]); (0xA781, [0xA780]);
   (0xA783, [0xA782]); (0xA785, [0xA784]); (0xA787, [0xA786]);
   (0xA78C, [0xA78B]); (0xA791, [0xA790]); (0xA793, [0xA792]);
   (0xA794, [0xA7C4]); (0xA797, [0xA796]); (0xA799, [0xA798]);
   (0xA79B, [0xA79A]); (0xA79D, [0xA79C]); (0xA79F, [0xA79E]);
   (0xA7A1, [0xA7A0]); (0xA7A3, [0xA7A2]); (0xA7A5, [0xA7A4]);
   (0xA7A7, [0xA7A6]); (0xA7A9, [0xA7A8]); (0xA7B5, [0xA7B4]);
   (0xA7B7, [0xA7B6]); (0xA7B9, [0xA7B8]); (0xA7BB, [0xA7BA]);
   (0xA7BD, [0xA7BC]); (0xA7BF, [0xA7BE]); (0xA7C1, [0xA7C0]);
   (0xA7C3, [0xA7C2]); (0xA7C8, [0xA7C7]); (0xA7CA, [0xA7C9]);
   (0xA7D1, [0xA7D0]); (0xA7D7, [0xA7D6]); (0xA7D9, [0xA7D8]);
   (0xA7F6, [0xA7F5]); (0xAB53, [0xA7B3]); (0xAB70, [0x13A0]);
   (0xAB71, [0x13A1]); (0xAB72, [0x13A2]); (0xAB73, [0x13A3]);
   (0xAB74, [0x13A4]); (0xAB75, [0x13A5]); (0xAB76, [0x13A6]);
   (0xAB77, [0x13A7]); (0xAB78, [0x13A8]); (0xAB79, [0x13A9]);
   (0xAB7A, [0x13AA]); (0xAB7B, [0x13AB]); (0xAB7C, [0x13AC]);
   (0xAB7D, [0x13AD]); (0xAB7E, [0x13AE]); (0xAB7F, [0x13AF]);
   (0xAB80, [0x13B0]); (0xAB81, [0x13B1]); (0xAB82, [0x13B2]);
   (0xAB83, [0x13B3]); (0xAB84, [0x13B4]); (0xAB85, [0x13B5]);
   (0xAB86, [0x13B6]); (0xAB87, [0x13B7]); (0xAB88, [0x13B8]);
   (0xAB89, [0x13B9]); (0xAB8A, [0x13BA]); (0xAB8B, [0x13BB]);
   (0xAB8C, [0x13BC]); (0xAB8D, [0x13BD]); (0xAB8E, [0x13BE]);
   (0xAB8F, [0x13BF]); (0xAB90, [0x13C0]); (0xAB91, [0x13C1]);
   (0xAB92, [0x13C2]); (0xAB93, [0x13C3]); (0xAB94, [0x13C4]);
   (0xAB95, [0x13C5]); (0xAB96, [0x13C6]); (0xAB97, [0x13C7]);
   (0xAB98, [0x13C8]); (0xAB99, [0x13C9]); (0xAB9A, [0x13CA]);
   (0xAB9B, [0x13CB]); (0xAB9C, [0x13CC]); (0xAB9D, [0x13CD]);
   (0xAB9E, [0x13CE]); (0xAB9F, [0x13CF]); (0xABA0, [0x13D0]);
   (0xABA1, [0x13D1]); (0xABA2, [0x13D2]); (0xABA3, [0x13D3]);
   (0xABA4, [0x13D4]); (0xABA5, [0x13D5]); (0xABA6, [0x13D6]);
   (0xABA7, [0x13D7]); (0xABA8, [0x13D8]); (0xABA9, [0x13D9]);
   (0xABAA, [0x13DA]); (0xABAB, [0x13DB]); (0xABAC, [0x13DC]);
   (0xABAD, [0x13DD]); (0xABAE, [0x13DE]); (0xABAF, [0x13DF]);
   (0xABB0, [0x13E0]); (0xABB1, [0x13E1]); (0xABB2, [0x13E2]);
   (0xABB3, [0x13E3]); (0xABB4, [0x13E4]); (0xABB5, [0x13E5]);
   (0xABB6, [0x13E6]); (0xABB7, [0x13E7]); (0xABB8, [0x13E8]);
   (0xABB9, [0x13E9]); (0xABBA, [0x13EA]); (0xABBB, [0x13EB]);
   (0xABBC, [0x13EC]); (0xABBD, [0x13ED]); (0xABBE, [0x13EE]);
   (0xABBF, [0x13EF]); (0xFB00, [0x46; 0x46]); (0xFB01, [0x46; 0x49]);
   (0xFB02, [0x46; 0x4C]); (0xFB03, [0x46; 0x46; 0x49]);
   (0xFB04, [0x46; 0x46; 0x4C]); (0xFB05, [0x53; 0x54]);
   (0xFB06, [0x53; 0x54]); (0xFB13, [0x544; 0x546]); (0xFB14, [0x544; 0x535]);
   (0xFB15, [0x544; 0x53B]); (0xFB16, [0x54E; 0x546]);
   (0xFB17, [0x544; 0x53D]); (0xFF41, [0xFF21]); (0xFF42, [0xFF22]);
   (0xFF43, [0xFF23]); (0xFF44, [0xFF24]); (0xFF45, [0xFF25]);
   (0xFF46, [0xFF26]); (0xFF47, [0xFF27]); (0xFF48, [0xFF28]);
   (0xFF49, [0xFF29]); (0xFF4A, [0xFF2A]); (0xFF4B, [0xFF2B]);
   (0xFF4C, [0xFF2C]); (0xFF4D, [0xFF2D]); (0xFF4E, [0xFF2E]);
   (0xFF4F, [0xFF2F]); (0xFF50, [0xFF30]); (0xFF51, [0xFF31]);
   (0xFF52, [0xFF32]); (0xFF53, [0xFF33]); (0xFF54, [0xFF34]);
   (0xFF55, [0xFF35]); (0xFF56, [0xFF36]); (0xFF57, [0xFF37]);
   (0xFF58, [0xFF38]); (0xFF59, [0xFF39]); (0xFF5A, [0xFF3A])
  ]%N.

(** The same for the code points above U+FFFF, each mapped to one code
    point. *)
Definition supplementaryUpperCaseMappings : list (N * N) :=
  [
   (0x10428, 0x10400); (0x10429, 0x10401); (0x1042A, 0x10402);
   (0x1042B, 0x10403); (0x1042C, 0x10404); (0x1042D, 0x10405);
   (0x1042E, 0x10406); (0x1042F, 0x10407); (0x10430, 0x10408);
   (0x10431, 0x10409); (0x10432, 0x1040A); (0x10433, 0x1040B);
   (0x10434, 0x1040C); (0x10435, 0x1040D); (0x10436, 0x1040E);
   (0x10437, 0x1040F); (0x10438, 0x10410); (0x10439, 0x10411);
   (0x1043A, 0x10412); (0x1043B, 0x10413); (0x1043C, 0x10414);
   (0x1043D, 0x10415); (0x1043E, 0x10416); (0x1043F, 0x10417);
   (0x10440, 0x10418); (0x10441, 0x10419); (0x10442, 0x1041A);
   (0x10443, 0x1041B); (0x10444, 0x1041C); (0x10445, 0x1041D);
   (0x10446, 0x1041E); (0x10447, 0x1041F); (0x10448, 0x10420);
   (0x10449, 0x10421); (0x1044A, 0x10422); (0x1044B, 0x10423);
   (0x1044C, 0x10424); (0x1044D, 0x10425); (0x1044E, 0x10426);
   (0x1044F, 0x10427); (0x104D8, 0x104B0); (0x104D9, 0x104B1);
   (0x104DA, 0x104B2); (0x104DB, 0x104B3); (0x104DC, 0x104B4);
   (0x104DD, 0x104B5); (0x104DE, 0x104B6); (0x104DF, 0x104B7);
   (0x104E0, 0x104B8); (0x104E1, 0x104B9); (0x104E2, 0x104BA);
   (0x104E3, 0x104BB); (0x104E4, 0x104BC); (0x104E5, 0x104BD);
   (0x104E6, 0x104BE); (0x104E7, 0x104BF); (0x104E8, 0x104C0);
   (0x104E9, 0x104C1); (0x104EA, 0x104C2); (0x104EB, 0x104C3);
   (0x104EC, 0x104C4); (0x104ED, 0x104C5); (0x104EE, 0x104C6);
   (0x104EF, 0x104C7); (0x104F0, 0x104C8); (0x104F1, 0x104C9);
   (0x104F2, 0x104CA); (0x104F3, 0x104CB); (0x104F4, 0x104CC);
   (0x104F5, 0x104CD); (0x104F6, 0x104CE); (0x104F7, 0x104CF);
   (0x104F8, 0x104D0); (0x104F9, 0x104D1); (0x104FA, 0x104D2);
   (0x104FB, 0x104D3); (0x10597, 0x10570); (0x10598, 0x10571);
   (0x10599, 0x10572); (0x1059A, 0x10573); (0x1059B, 0x10574);
   (0x1059C, 0x10575); (0x1059D, 0x10576); (0x1059E, 0x10577);
   (0x1059F, 0x10578); (0x105A0, 0x10579); (0x105A1, 0x1057A);
   (0x105A3, 0x1057C); (0x105A4, 0x1057D); (0x105A5, 0x1057E);
   (0x105A6, 0x1057F); (0x105A7, 0x10580); (0x105A8, 0x10581);
   (0x105A9, 0x10582); (0x105AA, 0x10583); (0x105AB, 0x10584);
   (0x105AC, 0x10585); (0x105AD, 0x10586); (0x105AE, 0x10587);
   (0x105AF, 0x10588); (0x105B0, 0x10589); (0x105B1, 0x1058A);
   (0x105B3, 0x1058C); (0x105B4, 0x1058D); (0x105B5, 0x1058E);
   (0x105B6, 0x1058F); (0x105B7, 0x10590); (0x105B8, 0x10591);
   (0x105B9, 0x10592); (0x105BB, 0x10594); (0x105BC, 0x10595);
   (0x10CC0, 0x10C80); (0x10CC1, 0x10C81); (0x10CC2, 0x10C82);
   (0x10CC3, 0x10C83); (0x10CC4, 0x10C84); (0x10CC5, 0x10C85);
   (0x10CC6, 0x10C86); (0x10CC7, 0x10C87); (0x10CC8, 0x10C88);
   (0x10CC9, 0x10C89); (0x10CCA, 0x10C8A); (0x10CCB, 0x10C8B);
   (0x10CCC, 0x10C8C); (0x10CCD, 0x10C8D); (0x10CCE, 0x10C8E);
   (0x10CCF, 0x10C8F); (0x10CD0, 0x10C90); (0x10CD1, 0x10C91);
   (0x10CD2, 0x10C92); (0x10CD3, 0x10C93); (0x10CD4, 0x10C94);
   (0x10CD5, 0x10C95); (0x10CD6, 0x10C96); (0x10CD7, 0x10C97);
   (0x10CD8, 0x10C98); (0x10CD9, 0x10C99); (0x10CDA, 0x10C9A);
   (0x10CDB, 0x10C9B); (0x10CDC, 0x10C9C); (0x10CDD, 0x10C9D);
   (0x10CDE, 0x10C9E); (0x10CDF, 0x10C9F); (0x10CE0, 0x10CA0);
   (0x10CE1, 0x10CA1); (0x10CE2, 0x10CA2); (0x10CE3, 0x10CA3);
   (0x10CE4, 0x10CA4); (0x10CE5, 0x10CA5); (0x10CE6, 0x10CA6);
   (0x10CE7, 0x10CA7); (0x10CE8, 0x10CA8); (0x10CE9, 0x10CA9);
   (0x10CEA, 0x10CAA); (0x10CEB, 0x10CAB); (0x10CEC, 0x10CAC);
   (0x10CED, 0x10CAD); (0x10CEE, 0x10CAE); (0x10CEF, 0x10CAF);
   (0x10CF0, 0x10CB0); (0x10CF1, 0x10CB1); (0x10CF2, 0x10CB2);
   (0x118C0, 0x118A0); (0x118C1, 0x118A1); (0x118C2, 0x118A2);
   (0x118C3, 0x118A3); (0x118C4, 0x118A4); (0x118C5, 0x118A5);
   (0x118C6, 0x118A6); (0x118C7, 0x118A7); (0x118C8, 0x118A8);
   (0x118C9, 0x118A9); (0x118CA, 0x118AA); (0x118CB, 0x118AB);
   (0x118CC, 0x118AC); (0x118CD, 0x118AD); (0x118CE, 0x118AE);
   (0x118CF, 0x118AF); (0x118D0, 0x118B0); (0x118D1, 0x118B1);
   (0x118D2, 0x118B2); (0x118D3, 0x118B3); (0x118D4, 0x118B4);
   (0x118D5, 0x118B5); (0x118D6, 0x118B6); (0x118D7, 0x118B7);
   (0x118D8, 0x118B8); (0x118D9, 0x118B9); (0x118DA, 0x118BA);
   (0x118DB, 0x118BB); (0x118DC, 0x118BC); (0x118DD, 0x118BD);
   (0x118DE, 0x118BE); (0x118DF, 0x118BF); (0x16E60, 0x16E40);
   (0x16E61, 0x16E41); (0x16E62, 0x16E42); (0x16E63, 0x16E43);
   (0x16E64, 0x16E44); (0x16E65, 0x16E45); (0x16E66, 0x16E46);
   (0x16E67, 0x16E47); (0x16E68, 0x16E48); (0x16E69, 0x16E49);
   (0x16E6A, 0x16E4A); (0x16E6B, 0x16E4B); (0x16E6C, 0x16E4C);
   (0x16E6D, 0x16E4D); (0x16E6E, 0x16E4E); (0x16E6F, 0x16E4F);
   (0x16E70, 0x16E50); (0x16E71, 0x16E51); (0x16E72, 0x16E52);
   (0x16E73, 0x16E53); (0x16E74, 0x16E54); (0x16E75, 0x16E55);
   (0x16E76, 0x16E56); (0x16E77, 0x16E57); (0x16E78, 0x16E58);
   (0x16E79, 0x16E59); (0x16E7A, 0x16E5A); (0x16E7B, 0x16E5B);
   (0x16E7C, 0x16E5C); (0x16E7D, 0x16E5D); (0x16E7E, 0x16E5E);
   (0x16E7F, 0x16E5F); (0x1E922, 0x1E900); (0x1E923, 0x1E901);
   (0x1E924, 0x1E902); (0x1E925, 0x1E903); (0x1E926, 0x1E904);
   (0x1E927, 0x1E905); (0x1E928, 0x1E906); (0x1E929, 0x1E907);
   (0x1E92A, 0x1E908); (0x1E92B, 0x1E909); (0x1E92C, 0x1E90A);
   (0x1E92D, 0x1E90B); (0x1E92E, 0x1E90C); (0x1E92F, 0x1E90D);
   (0x1E930, 0x1E90E); (0x1E931, 0x1E90F); (0x1E932, 0x1E910);
   (0x1E933, 0x1E911); (0x1E934, 0x1E912); (0x1E935, 0x1E913);
   (0x1E936, 0x1E914); (0x1E937, 0x1E915); (0x1E938, 0x1E916);
   (0x1E939, 0x1E917); (0x1E93A, 0x1E918); (0x1E93B, 0x1E919);
   (0x1E93C, 0x1E91A); (0x1E93D, 0x1E91B); (0x1E93E, 0x1E91C);
   (0x1E93F, 0x1E91D); (0x1E940, 0x1E91E); (0x1E941, 0x1E91F);
   (0x1E942, 0x1E920); (0x1E943, 0x1E921)
  ]%N.

(** The code points of general category Ll (Letter, lowercase) of the
    Unicode Character Database, version 14.0, as closed ranges. *)
Definition lowercaseLetters : list (N * N) :=
  [
   (0x61, 0x7A); (0xB5, 0xB5); (0xDF, 0xF6); (0xF8, 0xFF); (0x101, 0x101);
   (0x103, 0x103); (0x105, 0x105); (0x107, 0x107); (0x109, 0x109);
   (0x10B, 0x10B); (0x10D, 0x10D); (0x10F, 0x10F); (0x111, 0x111);
   (0x113, 0x113); (0x115, 0x115); (0x117, 0x117); (0x119, 0x119);
   (0x11B, 0x11B); (0x11D, 0x11D); (0x11F, 0x11F); (0x121, 0x121);
   (0x123, 0x123); (0x125, 0x125); (0x127, 0x127); (0x129, 0x129);
   (0x12B, 0x12B); (0x12D, 0x12D); (0x12F, 0x12F); (0x131, 0x131);
   (0x133, 0x133); (0x135, 0x135); (0x137, 0x138); (0x13A, 0x13A);
   (0x13C, 0x13C); (0x13E, 0x13E); (0x140, 0x140); (0x142, 0x142);
   (0x144, 0x144); (0x146, 0x146); (0x148, 0x149); (0x14B, 0x14B);
   (0x14D, 0x14D); (0x14F, 0x14F); (0x151, 0x151); (0x153, 0x153);
   (0x155, 0x155); (0x157, 0x157); (0x159, 0x159); (0x15B, 0x15B);
   (0x15D, 0x15D); (0x15F, 0x15F); (0x161, 0x161); (0x163, 0x163);
   (0x165, 0x165); (0x167, 0x167); (0x169, 0x169); (0x16B, 0x16B);
   (0x16D, 0x16D); (0x16F, 0x16F); (0x171, 0x171); (0x173, 0x173);
   (0x175, 0x175); (0x177, 0x177); (0x17A, 0x17A); (0x17C, 0x17C);
   (0x17E, 0x180); (0x183, 0x183); (0x185, 0x185); (0x188, 0x188);
   (0x18C, 0x18D); (0x192, 0x192); (0x195, 0x195); (0x199, 0x19B);
   (0x19E, 0x19E); (0x1A1, 0x1A1); (0x1A3, 0x1A3); (0x1A5, 0x1A5);
   (0x1A8, 0x1A8); (0x1AA, 0x1AB); (0x1AD, 0x1AD); (0x1B0, 0x1B0);
   (0x1B4, 0x1B4); (0x1B6, 0x1B6); (0x1B9, 0x1BA); (0x1BD, 0x1BF);
   (0x1C6, 0x1C6); (0x1C9, 0x1C9); (0x1CC, 0x1CC); (0x1CE, 0x1CE);
   (0x1D0, 0x1D0); (0x1D2, 0x1D2); (0x1D4, 0x1D4); (0x1D6, 0x1D6);
   (0x1D8, 0x1D8); (0x1DA, 0x1DA); (0x1DC, 0x1DD); (0x1DF, 0x1DF);
   (0x1E1, 0x1E1); (0x1E3, 0x1E3); (0x1E5, 0x1E5); (0x1E7, 0x1E7);
   (0x1E9, 0x1E9); (0x1EB, 0x1EB); (0x1ED, 0x1ED); (0x1EF, 0x1F0);
   (0x1F3, 0x1F3); (0x1F5, 0x1F5); (0x1F9, 0x1F9); (0x1FB, 0x1FB);
   (0x1FD, 0x1FD); (0x1FF, 0x1FF); (0x201, 0x201); (0x203, 0x203);
   (0x205, 0x205); (0x207, 0x207); (0x209, 0x209); (0x20B, 0x20B);
   (0x20D, 0x20D); (0x20F, 0x20F); (0x211, 0x211); (0x213, 0x213);
   (0x215, 0x215); (0x217, 0x217); (0x219, 0x219); (0x21B, 0x21B);
   (0x21D, 0x21D); (0x21F, 0x21F); (0x221, 0x221); (0x223, 0x223);
   (0x225, 0x225); (0x227, 0x227); (0x229, 0x229); (0x22B, 0x22B);
   (0x22D, 0x22D); (0x22F, 0x22F); (0x231, 0x231); (0x233, 0x239);
   (0x23C, 0x23C); (0x23F, 0x240); (0x242, 0x242); (0x247, 0x247);
   (0x249, 0x249); (0x24B, 0x24B); (0x24D, 0x24D); (0x24F, 0x293);
   (0x295, 0x2AF); (0x371, 0x371); (0x373, 0x373); (0x377, 0x377);
   (0x37B, 0x37D); (0x390, 0x390); (0x3AC, 0x3CE); (0x3D0, 0x3D1);
   (0x3D5, 0x3D7); (0x3D9, 0x3D9); (0x3DB, 0x3DB); (0x3DD, 0x3DD);
   (0x3DF, 0x3DF); (0x3E1, 0x3E1); (0x3E3, 0x3E3); (0x3E5, 0x3E5);
   (0x3E7, 0x3E7); (0x3E9, 0x3E9); (0x3EB, 0x3EB); (0x3ED, 0x3ED);
   (0x3EF, 0x3F3); (0x3F5, 0x3F5); (0x3F8, 0x3F8); (0x3FB, 0x3FC);
   (0x430, 0x45F); (0x461, 0x461); (0x463, 0x463); (0x465, 0x465);
   (0x467, 0x467); (0x469, 0x469); (0x46B, 0x46B); (0x46D, 0x46D);
   (0x46F, 0x46F); (0x471, 0x471); (0x473, 0x473); (0x475, 0x475);
   (0x477, 0x477); (0x479, 0x479); (0x47B, 0x47B); (0x47D, 0x47D);
   (0x47F, 0x47F); (0x481, 0x481); (0x48B, 0x48B); (0x48D, 0x48D);
   (0x48F, 0x48F); (0x491, 0x491); (0x493, 0x493); (0x495, 0x495);
   (0x497, 0x497); (0x499, 0x499); (0x49B, 0x49B); (0x49D, 0x49D);
   (0x49F, 0x49F); (0x4A1, 0x4A1); (0x4A3, 0x4A3); (0x4A5, 0x4A5);
   (0x4A7, 0x4A7); (0x4A9, 0x4A9); (0x4AB, 0x4AB); (0x4AD, 0x4AD);
   (0x4AF, 0x4AF); (0x4B1, 0x4B1); (0x4B3, 0x4B3); (0x4B5, 0x4B5);
   (0x4B7, 0x4B7); (0x4B9, 0x4B9); (0x4BB, 0x4BB); (0x4BD, 0x4BD);
   (0x4BF, 0x4BF); (0x4C2, 0x4C2); (0x4C4, 0x4C4); (0x4C6, 0x4C6);
   (0x4C8, 0x4C8); (0x4CA, 0x4CA); (0x4CC, 0x4CC); (0x4CE, 0x4CF);
   (0x4D1, 0x4D1); (0x4D3, 0x4D3); (0x4D5, 0x4D5); (0x4D7, 0x4D7);
   (0x4D9, 0x4D9); (0x4DB, 0x4DB); (0x4DD, 0x4DD); (0x4DF, 0x4DF);
   (0x4E1, 0x4E1); (0x4E3, 0x4E3); (0x4E5, 0x4E5); (0x4E7, 0x4E7);
   (0x4E9, 0x4E9); (0x4EB, 0x4EB); (0x4ED, 0x4ED); (0x4EF, 0x4EF);
   (0x4F1, 0x4F1); (0x4F3, 0x4F3); (0x4F5, 0x4F5); (0x4F7, 0x4F7);
   (0x4F9, 0x4F9); (0x4FB, 0x4FB); (0x4FD, 0x4FD); (0x4FF, 0x4FF);
   (0x501, 0x501); (0x503, 0x503); (0x505, 0x505); (0x507, 0x507);
   (0x509, 0x509); (0x50B, 0x50B); (0x50D, 0x50D); (0x50F, 0x50F);
   (0x511, 0x511); (0x513, 0x513); (0x515, 0x515); (0x517, 0x517);
   (0x519, 0x519); (0x51B, 0x51B); (0x51D, 0x51D); (0x51F, 0x51F);
   (0x521, 0x521); (0x523, 0x523); (0x525, 0x525); (0x527, 0x527);
   (0x529, 0x529); (0x52B, 0x52B); (0x52D, 0x52D); (0x52F, 0x52F);
   (0x560, 0x588); (0x10D0, 0x10FA); (0x10FD, 0x10FF); (0x13F8, 0x13FD);
   (0x1C80, 0x1C88); (0x1D00, 0x1D2B); (0x1D6B, 0x1D77); (0x1D79, 0x1D9A);
   (0x1E01, 0x1E01); (0x1E03, 0x1E03); (0x1E05, 0x1E05); (0x1E07, 0x1E07);
   (0x1E09, 0x1E09); (0x1E0B, 0x1E0B); (0x1E0D, 0x1E0D); (0x1E0F, 0x1E0F);
   (0x1E11, 0x1E11); (0x1E13, 0x1E13); (0x1E15, 0x1E15); (0x1E17, 0x1E17);
   (0x1E19, 0x1E19); (0x1E1B, 0x1E1B); (0x1E1D, 0x1E1D); (0x1E1F, 0x1E1F);
   (0x1E21, 0x1E21); (0x1E23, 0x1E23); (0x1E25, 0x1E25); (0x1E27, 0x1E27);
   (0x1E29, 0x1E29); (0x1E2B, 0x1E2B); (0x1E2D, 0x1E2D); (0x1E2F, 0x1E2F);
   (0x1E31, 0x1E31); (0x1E33, 0x1E33); (0x1E35, 0x1E35); (0x1E37, 0x1E37);
   (0x1E39, 0x1E39); (0x1E3B, 0x1E3B); (0x1E3D, 0x1E3D); (0x1E3F, 0x1E3F);
   (0x1E41, 0x1E41); (0x1E43, 0x1E43); (0x1E45, 0x1E45); (0x1E47, 0x1E47);
   (0x1E49, 0x1E49); (0x1E4B, 0x1E4B); (0x1E4D, 0x1E4D); (0x1E4F, 0x1E4F);
   (0x1E51, 0x1E51); (0x1E53, 0x1E53); (0x1E55, 0x1E55); (0x1E57, 0x1E57);
   (0x1E59, 0x1E59); (0x1E5B, 0x1E5B); (0x1E5D, 0x1E5D); (0x1E5F, 0x1E5F);
   (0x1E61, 0x1E61); (0x1E63, 0x1E63); (0x1E65, 0x1E65); (0x1E67, 0x1E67);
   (0x1E69, 0x1E69); (0x1E6B, 0x1E6B); (0x1E6D, 0x1E6D); (0x1E6F, 0x1E6F);
   (0x1E71, 0x1E71); (0x1E73, 0x1E73); (0x1E75, 0x1E75); (0x1E77, 0x1E77);
   (0x1E79, 0x1E79); (0x1E7B, 0x1E7B); (0x1E7D, 0x1E7D); (0x1E7F, 0x1E7F);
   (0x1E81, 0x1E81); (0x1E83, 0x1E83); (0x1E85, 0x1E85); (0x1E87, 0x1E87);
   (0x1E89, 0x1E89); (0x1E8B, 0x1E8B); (0x1E8D, 0x1E8D); (0x1E8F, 0x1E8F);
   (0x1E91, 0x1E91); (0x1E93, 0x1E93); (0x1E95, 0x1E9D); (0x1E9F, 0x1E9F);
   (0x1EA1, 0x1EA1); (0x1EA3, 0x1EA3); (0x1EA5, 0x1EA5); (0x1EA7, 0x1EA7);
   (0x1EA9, 0x1EA9); (0x1EAB, 0x1EAB); (0x1EAD, 0x1EAD); (0x1EAF, 0x1EAF);
   (0x1EB1, 0x1EB1); (0x1EB3, 0x1EB3); (0x1EB5, 0x1EB5); (0x1EB7, 0x1EB7);
   (0x1EB9, 0x1EB9); (0x1EBB, 0x1EBB); (0x1EBD, 0x1EBD); (0x1EBF, 0x1EBF);
   (0x1EC1, 0x1EC1); (0x1EC3, 0x1EC3); (0x1EC5, 0x1EC5); (0x1EC7, 0x1EC7);
   (0x1EC9, 0x1EC9); (0x1ECB, 0x1ECB); (0x1ECD, 0x1ECD); (0x1ECF, 0x1ECF);
   (0x1ED1, 0x1ED1); (0x1ED3, 0x1ED3); (0x1ED5, 0x1ED5); (0x1ED7, 0x1ED7);
   (0x1ED9, 0x1ED9); (0x1EDB, 0x1EDB); (0x1EDD, 0x1EDD); (0x1EDF, 0x1EDF);
   (0x1EE1, 0x1EE1); (0x1EE3, 0x1EE3); (0x1EE5, 0x1EE5); (0x1EE7, 0x1EE7);
   (0x1EE9, 0x1EE9); (0x1EEB, 0x1EEB); (0x1EED, 0x1EED); (0x1EEF, 0x1EEF);
   (0x1EF1, 0x1EF1); (0x1EF3, 0x1EF3); (0x1EF5, 0x1EF5); (0x1EF7, 0x1EF7);
   (0x1EF9, 0x1EF9); (0x1EFB, 0x1EFB); (0x1EFD, 0x1EFD); (0x1EFF, 0x1F07);
   (0x1F10, 0x1F15); (0x1F20, 0x1F27); (0x1F30, 0x1F37); (0x1F40, 0x1F45);
   (0x1F50, 0x1F57); (0x1F60, 0x1F67); (0x1F70, 0x1F7D); (0x1F80, 0x1F87);
   (0x1F90, 0x1F97); (0x1FA0, 0x1FA7); (0x1FB0, 0x1FB4); (0x1FB6, 0x1FB7);
   (0x1FBE, 0x1FBE); (0x1FC2, 0x1FC4); (0x1FC6, 0x1FC7); (0x1FD0, 0x1FD3);
   (0x1FD6, 0x1FD7); (0x1FE0, 0x1FE7); (0x1FF2, 0x1FF4); (0x1FF6, 0x1FF7);
   (0x210A, 0x210A); (0x210E, 0x210F); (0x2113, 0x2113); (0x212F, 0x212F);
   (0x2134, 0x2134); (0x2139, 0x2139); (0x213C, 0x213D); (0x2146, 0x2149);
   (0x214E, 0x214E); (0x2184, 0x2184); (0x2C30, 0x2C5F); (0x2C61, 0x2C61);
   (0x2C65, 0x2C66); (0x2C68, 0x2C68); (0x2C6A, 0x2C6A); (0x2C6C, 0x2C6C);
   (0x2C71, 0x2C71); (0x2C73, 0x2C74); (0x2C76, 0x2C7B); (0x2C81, 0x2C81);
   (0x2C83, 0x2C83); (0x2C85, 0x2C85); (0x2C87, 0x2C87); (0x2C89, 0x2C89);
   (0x2C8B, 0x2C8B); (0x2C8D, 0x2C8D); (0x2C8F, 0x2C8F); (0x2C91, 0x2C91);
   (0x2C93, 0x2C93); (0x2C95, 0x2C95); (0x2C97, 0x2C97); (0x2C99, 0x2C99);
   (0x2C9B, 0x2C9B); (0x2C9D, 0x2C9D); (0x2C9F, 0x2C9F); (0x2CA1, 0x2CA1);
   (0x2CA3, 0x2CA3); (0x2CA5, 0x2CA5); (0x2CA7, 0x2CA7); (0x2CA9, 0x2CA9);
   (0x2CAB, 0x2CAB); (0x2CAD, 0x2CAD); (0x2CAF, 0x2CAF); (0x2CB1, 0x2CB1);
   (0x2CB3, 0x2CB3); (0x2CB5, 0x2CB5); (0x2CB7, 0x2CB7); (0x2CB9, 0x2CB9);
   (0x2CBB, 0x2CBB); (0x2CBD, 0x2CBD); (0x2CBF, 0x2CBF); (0x2CC1, 0x2CC1);
   (0x2CC3, 0x2CC3); (0x2CC5, 0x2CC5); (0x2CC7, 0x2CC7); (0x2CC9, 0x2CC9);
   (0x2CCB, 0x2CCB); (0x2CCD, 0x2CCD); (0x2CCF, 0x2CCF); (0x2CD1, 0x2CD1);
   (0x2CD3, 0x2CD3); (0x2CD5, 0x2CD5); (0x2CD7, 0x2CD7); (0x2CD9, 0x2CD9);
   (0x2CDB, 0x2CDB); (0x2CDD, 0x2CDD); (0x2CDF, 0x2CDF); (0x2CE1, 0x2CE1);
   (0x2CE3, 0x2CE4); (0x2CEC, 0x2CEC); (0x2CEE, 0x2CEE); (0x2CF3, 0x2CF3);
   (0x2D00, 0x2D25); (0x2D27, 0x2D27); (0x2D2D, 0x2D2D); (0xA641, 0xA641);
   (0xA643, 0xA643); (0xA645, 0xA645); (0xA647, 0xA647); (0xA649, 0xA649);
   (0xA64B, 0xA64B); (0xA64D, 0xA64D); (0xA64F, 0xA64F); (0xA651, 0xA651);
   (0xA653, 0xA653); (0xA655, 0xA655); (0xA657, 0xA657); (0xA659, 0xA659);
   (0xA65B, 0xA65B); (0xA65D, 0xA65D); (0xA65F, 0xA65F); (0xA661, 0xA661);
   (0xA663, 0xA663); (0xA665, 0xA665); (0xA667, 0xA667); (0xA669, 0xA669);
   (0xA66B, 0xA66B); (0xA66D, 0xA66D); (0xA681, 0xA681); (0xA683, 0xA683);
   (0xA685, 0xA685); (0xA687, 0xA687); (0xA689, 0xA689); (0xA68B, 0xA68B);
   (0xA68D, 0xA68D); (0xA68F, 0xA68F); (0xA691, 0xA691); (0xA693, 0xA693);
   (0xA695, 0xA695); (0xA697, 0xA697); (0xA699, 0xA699); (0xA69B, 0xA69B);
   (0xA723, 0xA723); (0xA725, 0xA725); (0xA727, 0xA727); (0xA729, 0xA729);
   (0xA72B, 0xA72B); (0xA72D, 0xA72D); (0xA72F, 0xA731); (0xA733, 0xA733);
   (0xA735, 0xA735); (0xA737, 0xA737); (0xA739, 0xA739); (0xA73B, 0xA73B);
   (0xA73D, 0xA73D); (0xA73F, 0xA73F); (0xA741, 0xA741); (0xA743, 0xA743);
   (0xA745, 0xA745); (0xA747, 0xA747); (0xA749, 0xA749); (0xA74B, 0xA74B);
   (0xA74D, 0xA74D); (0xA74F, 0xA74F); (0xA751, 0xA751); (0xA753, 0xA753);
   (0xA755, 0xA755); (0xA757, 0xA757); (0xA759, 0xA759); (0xA75B, 0xA75B);
   (0xA75D, 0xA75D); (0xA75F, 0xA75F); (0xA761, 0xA761); (0xA763, 0xA763);
   (0xA765, 0xA765); (0xA767, 0xA767); (0xA769, 0xA769); (0xA76B, 0xA76B);
   (0xA76D, 0xA76D); (0xA76F, 0xA76F); (0xA771, 0xA778); (0xA77A, 0xA77A);
   (0xA77C, 0xA77C); (0xA77F, 0xA77F); (0xA781, 0xA781); (0xA783, 0xA783);
   (0xA785, 0xA785); (0xA787, 0xA787); (0xA78C, 0xA78C); (0xA78E, 0xA78E);
   (0xA791, 0xA791); (0xA793, 0xA795); (0xA797, 0xA797); (0xA799, 0xA799);
   (0xA79B, 0xA79B); (0xA79D, 0xA79D); (0xA79F, 0xA79F); (0xA7A1, 0xA7A1);
   (0xA7A3, 0xA7A3); (0xA7A5, 0xA7A5); (0xA7A7, 0xA7A7); (0xA7A9, 0xA7A9);
   (0xA7AF, 0xA7AF); (0xA7B5, 0xA7B5); (0xA7B7, 0xA7B7); (0xA7B9, 0xA7B9);
   (0xA7BB, 0xA7BB); (0xA7BD, 0xA7BD); (0xA7BF, 0xA7BF); (0xA7C1, 0xA7C1);
   (0xA7C3, 0xA7C3); (0xA7C8, 0xA7C8); (0xA7CA, 0xA7CA); (0xA7D1, 0xA7D1);
   (0xA7D3, 0xA7D3); (0xA7D5, 0xA7D5); (0xA7D7, 0xA7D7); (0xA7D9, 0xA7D9);
   (0xA7F6, 0xA7F6); (0xA7FA, 0xA7FA); (0xAB30, 0xAB5A); (0xAB60, 0xAB68);
   (0xAB70, 0xABBF); (0xFB00, 0xFB06); (0xFB13, 0xFB17); (0xFF41, 0xFF5A);
   (0x10428, 0x1044F); (0x104D8, 0x104FB); (0x10597, 0x105A1);
   (0x105A3, 0x105B1); (0x105B3, 0x105B9); (0x105BB, 0x105BC);
   (0x10CC0, 0x10CF2); (0x118C0, 0x118DF); (0x16E60, 0x16E7F);
   (0x1D41A, 0x1D433); (0x1D44E, 0x1D454); (0x1D456, 0x1D467);
   (0x1D482, 0x1D49B); (0x1D4B6, 0x1D4B9); (0x1D4BB, 0x1D4BB);
   (0x1D4BD, 0x1D4C3); (0x1D4C5, 0x1D4CF); (0x1D4EA, 0x1D503);
   (0x1D51E, 0x1D537); (0x1D552, 0x1D56B); (0x1D586, 0x1D59F);
   (0x1D5BA, 0x1D5D3); (0x1D5EE, 0x1D607); (0x1D622, 0x1D63B);
   (0x1D656, 0x1D66F); (0x1D68A, 0x1D6A5); (0x1D6C2, 0x1D6DA);
   (0x1D6DC, 0x1D6E1); (0x1D6FC, 0x1D714); (0x1D716, 0x1D71B);
   (0x1D736, 0x1D74E); (0x1D750, 0x1D755); (0x1D770, 0x1D788);
   (0x1D78A, 0x1D78F); (0x1D7AA, 0x1D7C2); (0x1D7C4, 0x1D7C9);
   (0x1D7CB, 0x1D7CB); (0x1DF00, 0x1DF09); (0x1DF0B, 0x1DF1E);
   (0x1E922, 0x1E943)
  ]%N.

Definition isLowercaseLetter (cp : N) : bool :=
  existsb (fun range => (fst range <=? cp)%N && (cp <=? snd range)%N) lowercaseLetters.

(** Some code point of the string is a lowercase letter. *)
Definition hasLowercaseLetter (s : jsstring) : bool :=
  existsb isLowercaseLetter (codePoints s).

(** A letter of [a]-[z]. *)
Definition isLower (u : N) : bool := ((97 <=? u) && (u <=? 122))%N.

(** The upper case of a code unit that stands for itself. *)
Definition upperUnit (u : N) : jsstring :=
  match assoc u upperCaseMappings with
  | Some mapped => mapped
  | None => [u]
  end.

(** The upper case of a surrogate pair. *)
Definition upperPair (high low : N) : jsstring :=
  match assoc (codePoint high low) supplementaryUpperCaseMappings with
  | Some mapped => surrogates mapped
  | None => [high; low]
  end.

(** [s.toUpperCase()]: the string is read as code points, each is
    replaced by its upper-case mapping, and the result is written back as
    code units.  A surrogate without its partner stays. *)
Fixpoint toUpperCase (s : jsstring) : jsstring :=
  match s with
  | [] => []
  | u :: rest =>
      match rest with
      | l :: rest' =>
          if isHighSurrogate u && isLowSurrogate l
          then upperPair u l ++ toUpperCase rest'
          else upperUnit u ++ toUpperCase rest
      | [] => upperUnit u
      end
  end.

Definition isEmpty (s : jsstring) : bool :=
  match s with [] => true | _ :: _ => false end.

(** Truthiness of a string value: every string but [""] is truthy. *)
Definition truthy (s : jsstring) : bool := negb (isEmpty s).

Fixpoint trimStart (s : jsstring) : jsstring :=
  match s with
  | [] => []
  | u :: s' => if isWhiteSpace u then trimStart s' else s
  end.

Fixpoint trimEnd (s : jsstring) : jsstring :=
  match s with
  | [] => []
  | u :: s' =>
      let t := trimEnd s' in
      if isWhiteSpace u && isEmpty t then [] else u :: t
  end.

(** [s.trim()] *)
Definition trim (s : jsstring) : jsstring := trimEnd (trimStart s).

(** Only white space, possibly none at all. *)
Definition blank (s : jsstring) : bool := forallb isWhiteSpace s.

Fixpoint startsWith (s needle : jsstring) : bool :=
  match needle, s with
  | [], _ => true
  | x :: needle', y :: s' => (x =? y)%N && startsWith s' needle'
  | _ :: _, [] => false
  end.

(** [s.includes(needle)] *)
Fixpoint includes (s needle : jsstring) : bool :=
  startsWith s needle
  || match s with
     | [] => false
     | _ :: s' => includes s' needle
     end.

(** The code unit [u] in front of [rest] is not the first half of a
    surrogate pair. *)
Definition alone (u : N) (rest : jsstring) : Prop :=
  isHighSurrogate u = false
  \/ forall low, head rest = Some low -> isLowSurrogate low = false.

(** What is checked of the two tables of upper-case mappings, entry by
    entry. *)
Definition plain (u : N) : bool :=
  negb (isWhiteSpace u) && negb (isHighSurrogate u) && negb (isLowSurrogate u).

Definition unmapped {V} (k : N) (table : list (N * V)) : bool :=
  match assoc k table with Some _ => false | None => true end.

Definition mappingChecked (kv : N * list N) : bool :=
  plain (fst kv) && negb (isEmpty (snd kv))
  && forallb (fun o => plain o && negb (isLower o) && unmapped o upperCaseMappings)
             (snd kv).

Definition supplementaryChecked (kv : N * N) : bool :=
  match surrogates (snd kv) with
  | [high; low] =>
      isHighSurrogate high && isLowSurrogate low
      && unmapped (codePoint high low) supplementaryUpperCaseMappings
  | _ => false
  end.

End JsString.

Coercion JsString.utf16 : string >-> JsString.jsstring.
#[global] Arguments JsString.utf16 : simpl never.
#[global] Arguments JsString.includes : simpl never.
#[global] Arguments JsString.trim : simpl never.
#[global] Arguments JsString.concat : simpl never.
#[global] Arguments JsString.upperUnit : simpl never.
#[global] Arguments JsString.upperPair : simpl never.
#[global] Arguments JsString.toUpperCase : simpl never.
#[global] Arguments JsString.assoc : simpl never.
Infix "+++" := JsString.concat (at level 60, right associativity).

(** ** Handlers as programs over a state

    A handler reads and writes the [useState] cells of its component, may
    throw, and performs effects in order.  [Prog St Eff A] threads the
    state, collects the effects and carries the completion: a value, or an
    exception thrown.  The server-side engine is written in the same
    style over its store. *)

Module Run.

Inductive completion (A : Type) : Type :=
| Normal (a : A)
| Throw.
Arguments Normal {A} a.
Arguments Throw {A}.

Section Prog.
Context {St Eff : Type}.

Definition Prog (A : Type) : Type := St -> completion A * St * list Eff.

Definition ret {A} (a : A) : Prog A := fun s => (Normal a, s, []).

Definition bind {A B} (m : Prog A) (k : A -> Prog B) : Prog B :=
  fun s =>
    match m s with
    | (Normal a, s1, t1) =>
        match k a s1 with (r, s2, t2) => (r, s2, t1 ++ t2) end
    | (Throw, s1, t1) => (Throw, s1, t1)
    end.

Definition emit (e : Eff) : Prog unit := fun s => (Normal tt, s, [e]).

Definition get : Prog St := fun s => (Normal s, s, []).

Definition modify (f : St -> St) : Prog unit := fun s => (Normal tt, f s, []).

Definition throw {A} : Prog A := fun s => (Throw, s, []).

(** [try { body } catch (error) { handler } finally { cleanup }] *)
Definition try_catch_finally (body handler cleanup : Prog unit) : Prog unit :=
  fun s =>
    let '(r1, s1, t1) :=
      match body s with
      | (Normal _, s1, t1) => (Normal tt, s1, t1)
      | (Throw, s1, t1) =>
          match handler s1 with (r, s2, t2) => (r, s2, t1 ++ t2) end
      end in
    match cleanup s1 with
    | (Normal _, s2, t2) => (r1, s2, t1 ++ t2)
    | (Throw, s2, t2) => (Throw, s2, t1 ++ t2)
    end.

(** The state and the effects a run ends with. *)
Definition final {A} (p : completion A * St * list Eff) : St := snd (fst p).
Definition trace {A} (p : completion A * St * list Eff) : list Eff := snd p.
End Prog.

Arguments Prog : clear implicits.

End Run.

#[global] Instance prog_ret {St Eff} : MRet (Run.Prog St Eff) := @Run.ret St Eff.
#[global] Instance prog_bind {St Eff} : MBind (Run.Prog St Eff) :=
  fun A B k m => Run.bind m k.

(** ** HomePage.js: the batch-code form *)

Module HomePage.
Import JsString.

Record BatchInfo := {
  name : jsstring;
  manufacturer : jsstring;
  expiry_date : jsstring;
  scan_count : Z
}.

(** The object kept in [result]: the body of an answer of [/api/verify]
    whose [status] is a string, or the error object built by the [catch]
    block. *)
Record VerifyResult := {
  status : jsstring;
  reason : jsstring;
  confidence : Q;
  batch_info : option BatchInfo
}.

(** The three [useState] cells; [result] starts as [null]. *)
Record State := {
  batchCode : jsstring;
  loading : bool;
  result : option VerifyResult
}.

Definition initial : State :=
  {| batchCode := ""; loading := false; result := None |}.

Definition setBatchCode (v : jsstring) (s : State) : State :=
  {| batchCode := v; loading := loading s; result := result s |}.

Definition setLoading (b : bool) (s : State) : State :=
  {| batchCode := batchCode s; loading := b; result := result s |}.

Definition setResult (r : option VerifyResult) (s : State) : State :=
  {| batchCode := batchCode s; loading := loading s; result := r |}.

Inductive value :=
| VString (s : jsstring)
| VNumber (q : Q).

(** A JavaScript object literal: keys in insertion order. *)
Definition object := list (jsstring * value).

Definition keys (o : object) : list jsstring := map fst o.

Definition property (o : object) (k : jsstring) : option value :=
  snd <$> find (fun kv => eqb (fst kv) k) o.

Inductive effect :=
| PreventDefault
| ToastError (msg : jsstring)
| ToastSuccess (msg : jsstring)
| ToastWarning (msg : jsstring)
| GetCurrentPosition (timeout : Z)
| AxiosPost (url : jsstring) (body : object)
| ConsoleError (msg : jsstring).

Record Coordinates := { latitude : Q; longitude : Q }.
Record GeolocationPosition := { coords : Coordinates }.

Inductive GeolocationPositionError :=
| PERMISSION_DENIED
| POSITION_UNAVAILABLE
| TIMEOUT.

(** How [getCurrentPosition(resolve, reject, {timeout: 5000})] settles:
    a fix obtained in time, or one of the three errors of the API, the
    expiry of the timeout among them.  These are the outcomes of a call
    that settles.  While it has not settled, as when a permission prompt
    is left unanswered, [handleVerify] stays at its first [await], the
    page showing [loading] and no result; what is stated below of a
    submission is stated of one whose awaited calls have settled. *)
Inductive geo_outcome :=
| GeoSuccess (position : GeolocationPosition)
| GeoError (error : GeolocationPositionError).

(** How [axios.post] settles: resolved with a body whose [status] is a
    string; rejected, when no answer comes or the answer is not a 2xx one;
    or resolved with a body that cannot be read, one on which
    [response.data.status.includes] throws a TypeError because the body is
    [null] or a primitive, or because its [status] is missing or is a
    value without [includes].  (A [status] that is an array, on which
    [includes] is that of [Array], is not among these outcomes.)  A
    request that never settles leaves the handler at its [await], as
    above. *)
Inductive http_outcome :=
| Resolved (data : VerifyResult)
| Rejected
| Unreadable.

(** What surrounds the component: the configured back end, the browser's
    geolocation API ([None] when [navigator.geolocation] is missing) and
    the server reached through axios. *)
Record Environment := {
  REACT_APP_BACKEND_URL : jsstring;
  geolocation : option geo_outcome;
  post : jsstring -> object -> http_outcome
}.

Definition API (env : Environment) : jsstring :=
  REACT_APP_BACKEND_URL env +++ "/api".

Inductive icon := CheckCircle | AlertCircle | XCircle | HelpCircle | Shield.

Definition getStatusIcon (status : jsstring) : icon * jsstring :=
  if includes status "Valid" then (CheckCircle, "w-6 h-6 text-emerald-500" : jsstring)
  else if includes status "Expired" then (AlertCircle, "w-6 h-6 text-amber-500" : jsstring)
  else if includes status "Fake" then (XCircle, "w-6 h-6 text-red-500" : jsstring)
  else if includes status "Suspected" then (HelpCircle, "w-6 h-6 text-orange-500" : jsstring)
  else (Shield, "w-6 h-6 text-gray-500" : jsstring).

Definition getStatusColor (status : jsstring) : jsstring :=
  if includes status "Valid" then "bg-emerald-50 border-emerald-200 text-emerald-800"
  else if includes status "Expired" then "bg-amber-50 border-amber-200 text-amber-800"
  else if includes status "Fake" then "bg-red-50 border-red-200 text-red-800"
  else if includes status "Suspected" then "bg-orange-50 border-orange-200 text-orange-800"
  else "bg-gray-50 border-gray-200 text-gray-800".

Definition Handler := Run.Prog State effect.

(** [await new Promise(...getCurrentPosition...).catch(() => null)] *)
Definition awaitPosition (outcome : geo_outcome) : Handler (option GeolocationPosition) :=
  Run.emit (GetCurrentPosition 5000) ;;
  mret (match outcome with
        | GeoSuccess position => Some position
        | GeoError _ => None
        end).

(** [await axios.post(url, body)]: the request goes out, and the promise
    resolves with the response or rejects.  [None] is the response whose
    body cannot be read. *)
Definition axios_post (env : Environment) (url : jsstring) (body : object)
  : Handler (option VerifyResult) :=
  Run.emit (AxiosPost url body) ;;
  match post env url body with
  | Resolved data => mret (Some data)
  | Unreadable => mret None
  | Rejected => Run.throw
  end.

(** The object set by the [catch] block. *)
Definition errorResult : VerifyResult :=
  {| status := "Error ❌";
     reason := "Unable to connect to verification service";
     confidence := 0;
     batch_info := None |}.

(** On a response whose body cannot be read, [setResult(response.data)]
    is followed at once by the TypeError of [response.data.status.includes]
    and by the [catch] block, which sets the error object before the page
    is rendered again; the body is never shown and is not kept here. *)
Definition handleVerify (env : Environment) : Handler unit :=
  Run.emit PreventDefault ;;
  s ← Run.get;
  let batchCode := batchCode s in
  if negb (truthy (trim batchCode)) then
    Run.emit (ToastError "Please enter a batch code")
  else
    Run.modify (setLoading true) ;;
    Run.modify (setResult None) ;;
    Run.try_catch_finally
      (location ←
         match geolocation env with
         | Some outcome =>
             position ← awaitPosition outcome;
             mret (match position with
                   | Some position =>
                       [entry "lat" (VNumber (latitude (coords position)));
                        entry "lng" (VNumber (longitude (coords position)))]
                   | None => []
                   end)
         | None => mret []
         end;
       response ← axios_post env (API env +++ "/verify")
                     (entry "code" (VString (trim batchCode)) :: location);
       match response with
       | Some data =>
           Run.modify (setResult (Some data)) ;;
           if includes (status data) "Valid" then
             Run.emit (ToastSuccess "Medicine verified as authentic!")
           else if includes (status data) "Expired" then
             Run.emit (ToastWarning "Medicine is expired!")
           else
             Run.emit (ToastError "Medicine verification failed!")
       | None => Run.throw
       end)
      (Run.emit (ConsoleError "Verification error:") ;;
       Run.emit (ToastError "Failed to verify medicine. Please try again.") ;;
       Run.modify (setResult (Some errorResult)))
      (Run.modify (setLoading false)).

(** [onChange] of the input: [setBatchCode(e.target.value.toUpperCase())] *)
Definition onChange (target_value : jsstring) : Handler unit :=
  Run.modify (setBatchCode (toUpperCase target_value)).

(** The [disabled] attribute of the submit button. *)
Definition submitDisabled (s : State) : bool :=
  loading s || negb (truthy (trim (batchCode s))).

(** The toast that announces an answer of the server. *)
Definition announcement (data : VerifyResult) : effect :=
  if includes (status data) "Valid" then
    ToastSuccess "Medicine verified as authentic!"
  else if includes (status data) "Expired" then
    ToastWarning "Medicine is expired!"
  else
    ToastError "Medicine verification failed!".

(** The requests found in a trace, in order. *)
Definition posts (t : list effect) : list (jsstring * object) :=
  omap (fun e => match e with AxiosPost url body => Some (url, body) | _ => None end) t.

(** The position, when the geolocation API is there and succeeded. *)
Definition located (env : Environment) : option GeolocationPosition :=
  match geolocation env with
  | Some (GeoSuccess position) => Some position
  | _ => None
  end.

(** The body that [handleVerify] builds for its request. *)
Definition requestBody (env : Environment) (s : State) : object :=
  entry "code" (VString (trim (batchCode s)))
  :: match located env with
     | Some position =>
         [entry "lat" (VNumber (latitude (coords position)));
          entry "lng" (VNumber (longitude (coords position)))]
     | None => []
     end.

(** The state a completed verification leaves behind. *)
Definition settled (s : State) (r : VerifyResult) : State :=
  {| batchCode := batchCode s; loading := false; result := Some r |}.

(** What a settled request leaves in [result]. *)
Definition shown (outcome : http_outcome) : VerifyResult :=
  match outcome with
  | Resolved data => data
  | Rejected | Unreadable => errorResult
  end.

(** Two surroundings to try the page in: a browser whose position request
    times out in front of an unreachable server, and a browser with a fix
    in front of a server that finds every batch valid. *)
Definition offline : Environment :=
  {| REACT_APP_BACKEND_URL := "http://localhost:8001";
     geolocation := Some (GeoError TIMEOUT);
     post := fun _ _ => Rejected |}.

(** A server whose answer has no [status]. *)
Definition garbled : Environment :=
  {| REACT_APP_BACKEND_URL := "http://localhost:8001";
     geolocation := None;
     post := fun _ _ => Unreadable |}.

Definition online : Environment :=
  {| REACT_APP_BACKEND_URL := "http://localhost:8001";
     geolocation :=
       Some (GeoSuccess {| coords := {| latitude := 407128 # 10000;
                                        longitude := - 740060 # 10000 |} |});
     post := fun _ _ =>
       Resolved {| status := "Valid ✅";
                   reason := "Medicine is authentic and valid (expires in 45 days)";
                   confidence := 95 # 100;
                   batch_info := None |} |}.

Definition isToast (e : effect) : bool :=
  match e with
  | ToastError _ | ToastSuccess _ | ToastWarning _ => true
  | _ => false
  end.

Definition isConsoleError (e : effect) : bool :=
  match e with ConsoleError _ => true | _ => false end.

End HomePage.
(** ** AdminLogin.js: the sign-in form *)

Module AdminLogin.
Import JsString.

Record Credentials := { username : jsstring; password : jsstring }.

Record State := { credentials : Credentials; loading : bool }.

Definition initial : State :=
  {| credentials := {| username := ""; password := "" |}; loading := false |}.

Definition setLoading (b : bool) (s : State) : State :=
  {| credentials := credentials s; loading := b |}.

Definition setCredentials (f : Credentials -> Credentials) (s : State) : State :=
  {| credentials := f (credentials s); loading := loading s |}.

(** The body of the answer of [/api/admin/login]; [token] and [message]
    may be missing. *)
Record LoginData := {
  success : bool;
  token : option jsstring;
  message : option jsstring
}.

Inductive http_outcome :=
| Resolved (data : LoginData)
| Rejected.

Record Environment := {
  REACT_APP_BACKEND_URL : jsstring;
  post : jsstring -> Credentials -> http_outcome
}.

Definition API (env : Environment) : jsstring :=
  REACT_APP_BACKEND_URL env +++ "/api".

Inductive effect :=
| PreventDefault
| ToastError (msg : jsstring)
| ToastSuccess (msg : jsstring)
| AxiosPost (url : jsstring) (body : Credentials)
| ConsoleError (msg : jsstring)
| OnLogin (token : option jsstring).

Definition Handler := Run.Prog State effect.

Definition axios_post (env : Environment) (url : jsstring) (body : Credentials)
  : Handler LoginData :=
  Run.emit (AxiosPost url body) ;;
  match post env url body with
  | Resolved data => mret data
  | Rejected => Run.throw
  end.

(** [a || b] on an optional string *)
Definition or_else (a : option jsstring) (b : jsstring) : jsstring :=
  match a with
  | Some m => if truthy m then m else b
  | None => b
  end.

Definition handleSubmit (env : Environment) : Handler unit :=
  Run.emit PreventDefault ;;
  s ← Run.get;
  let credentials := credentials s in
  if negb (truthy (username credentials)) || negb (truthy (password credentials)) then
    Run.emit (ToastError "Please enter both username and password")
  else
    Run.modify (setLoading true) ;;
    Run.try_catch_finally
      (data ← axios_post env (API env +++ "/admin/login") credentials;
       if success data then
         Run.emit (ToastSuccess "Login successful!") ;;
         Run.emit (OnLogin (token data))
       else
         Run.emit (ToastError (or_else (message data) "Login failed")))
      (Run.emit (ConsoleError "Login error:") ;;
       Run.emit (ToastError "Login failed. Please check your credentials."))
      (Run.modify (setLoading false)).

Inductive field := Username | Password.

Definition handleChange (f : field) (target_value : jsstring) : Handler unit :=
  Run.modify (setCredentials (fun prev =>
    match f with
    | Username => {| username := target_value; password := password prev |}
    | Password => {| username := username prev; password := target_value |}
    end)).

(** The toasts found in a trace, in order. *)
Definition isToast (e : effect) : bool :=
  match e with
  | ToastError _ | ToastSuccess _ => true
  | _ => false
  end.

Definition isOnLogin (e : effect) : bool :=
  match e with OnLogin _ => true | _ => false end.

(** The requests found in a trace, in order. *)
Definition posts (t : list effect) : list (jsstring * Credentials) :=
  omap (fun e => match e with AxiosPost url body => Some (url, body) | _ => None end) t.

(** A server that refuses every sign-in, with and without a message. *)
Definition refusing (msg : option jsstring) : Environment :=
  {| REACT_APP_BACKEND_URL := "http://localhost:8001";
     post := fun _ _ =>
       Resolved {| success := false; token := None; message := msg |} |}.

End AdminLogin.

(** ** App.js: the admin flag and the three routes *)

Module App.
Import JsString.

Record State := {
  isAdminAuthenticated : bool;
  adminToken : option jsstring
}.

Definition initial : State :=
  {| isAdminAuthenticated := false; adminToken := None |}.

Definition handleAdminLogin (token : option jsstring) (_ : State) : State :=
  {| isAdminAuthenticated := true; adminToken := token |}.

Definition handleAdminLogout (_ : State) : State :=
  {| isAdminAuthenticated := false; adminToken := None |}.

Inductive path := Root | Admin | AdminLoginPath.

Definition pathname (p : path) : jsstring :=
  match p with
  | Root => "/"
  | Admin => "/admin"
  | AdminLoginPath => "/admin/login"
  end.

(** The [element] of each [Route]. *)
Inductive element :=
| HomePageElement
| AdminDashboardElement
| AdminLoginElement
| Navigate (to : path).

Definition route (s : State) (p : path) : element :=
  match p with
  | Root => HomePageElement
  | Admin =>
      if isAdminAuthenticated s then AdminDashboardElement
      else Navigate AdminLoginPath
  | AdminLoginPath =>
      if isAdminAuthenticated s then Navigate Admin
      else AdminLoginElement
  end.

(** What can reach the two handlers: the [onLogout] button of the
    dashboard, and a submission of the sign-in form, whose [onLogin]
    callback is [handleAdminLogin]. *)
Inductive event :=
| ClickLogout
| SubmitLogin (form : AdminLogin.State) (env : AdminLogin.Environment).

Definition callback (e : AdminLogin.effect) (s : State) : State :=
  match e with
  | AdminLogin.OnLogin token => handleAdminLogin token s
  | _ => s
  end.

Definition step (s : State) (ev : event) : State :=
  match ev with
  | ClickLogout => handleAdminLogout s
  | SubmitLogin form env =>
      fold_left (fun s e => callback e s)
                (Run.trace (AdminLogin.handleSubmit env form)) s
  end.

Definition run (evs : list event) : State := fold_left step evs initial.

(** The submission is answered by the server with [success: true]. *)
Definition successfulLogin (ev : event) : Prop :=
  match ev with
  | ClickLogout => False
  | SubmitLogin form env =>
      exists data,
        AdminLogin.post env (AdminLogin.API env +++ "/admin/login")
                        (AdminLogin.credentials form)
        = AdminLogin.Resolved data
        /\ AdminLogin.success data = true
  end.

(** The token that an event hands to [handleAdminLogin], if it calls it. *)
Definition granted (ev : event) : option (option jsstring) :=
  match ev with
  | ClickLogout => None
  | SubmitLogin form env =>
      last (omap (fun e => match e with
                           | AdminLogin.OnLogin token => Some token
                           | _ => None
                           end)
                 (Run.trace (AdminLogin.handleSubmit env form)))
  end.

End App.

(** ** The verification engine (server side) *)

Module Engine.

(** Modelled from the spec: the closed enumeration of the four outcomes
    (sections 4.4 and 9); the server that defines it is not among the
    sources. *)
Inductive Status := Fake | Expired | Suspected | Valid.

#[global] Instance Status_eq_dec : EqDecision Status.
Proof. solve_decision. Defined.

(** Modelled from the spec: BatchRecord of section 3.  The expiry date is
    a calendar date, kept as the number of its day. *)
Record BatchRecord := {
  name : string;
  manufacturer : string;
  reliability : Q;
  expiryDate : Z;
  scanCount : nat;
  scanLocations : list (Q * Q)
}.

(** Modelled from the spec: VerificationEvent of section 3. *)
Record VerificationEvent := {
  eventId : nat;
  batchCode : string;
  eventStatus : Status;
  eventConfidence : Q;
  eventReason : string;
  eventLocation : option (Q * Q);
  timestamp : Z
}.

(** Modelled from the spec: the two persisted collections of section 6,
    batch records keyed by code and the append-only event log. *)
Record Store := {
  registry : gmap string BatchRecord;
  events : list VerificationEvent
}.

(** Modelled from the spec: [lookup(code) -> BatchRecord | NotFound]
    (section 4.1). *)
Definition lookup (code : string) (reg : gmap string BatchRecord)
  : option BatchRecord := reg !! code.

Definition scanned (r : BatchRecord) : BatchRecord :=
  {| name := name r; manufacturer := manufacturer r;
     reliability := reliability r; expiryDate := expiryDate r;
     scanCount := S (scanCount r); scanLocations := scanLocations r |}.

(** Modelled from the spec: [recordScan(code)] adds one to the scan count
    of an existing record and does nothing for an unknown code
    (section 4.1). *)
Definition recordScan (code : string) (reg : gmap string BatchRecord)
  : gmap string BatchRecord := alter scanned code reg.

Record ExpiryInfo := { daysRemaining : Z; isExpired : bool }.

(** The calendar day of an instant given in seconds. *)
Definition calendarDay (t : Z) : Z := (t `div` 86400)%Z.

(** Modelled from the spec: [evaluateExpiry(expiryDate, now)] of section
    4.2; [isExpired] is [daysRemaining < 0], so that a record at its
    expiry date has zero days remaining and is not expired. *)
Definition evaluateExpiry (expiryDate now : Z) : ExpiryInfo :=
  let days := (expiryDate - calendarDay now)%Z in
  {| daysRemaining := days; isExpired := (days <? 0)%Z |}.

(** Modelled from the spec: a confidence, which is a number of [0,1]
    (sections 3 and 8). *)
Record Confidence := {
  level : Q;
  level_range : Qle_bool 0 level && Qle_bool level 1 = true
}.

(** Modelled from the spec: the configuration of the engine.  The
    suspicion threshold is the single tunable constant of section 4.4; the
    confidence of the Expired branch is a constant confidence that does
    not depend on the score; [scoreLow] and [scoreHigh] bound the expected
    output of the model for the min-max calibration of section 4.3;
    [dayLow] and [dayHigh] clamp the days-to-expiry feature. *)
Record Config := {
  threshold : Q;
  expiredConfidence : Confidence;
  scoreLow : Q;
  scoreHigh : Q;
  dayLow : Z;
  dayHigh : Z
}.

(** Modelled from the spec: the injected, frozen dependencies of sections
    4.3 and 9, the dispersion measure of the scan locations and the
    scaler followed by the one-class model. *)
Record Scorer := {
  dispersion : list (Q * Q) -> Q;
  score : list Q -> Q
}.

Definition clamp01 (x : Q) : Q := Qmax 0 (Qmin 1 x).

(** Modelled from the spec: the fixed monotonic map from the raw score to
    a confidence in [0,1], here the min-max clamp over the expected range
    that section 4.3 names. *)
Definition calibrate (cfg : Config) (raw : Q) : Q :=
  clamp01 ((raw - scoreLow cfg) / (scoreHigh cfg - scoreLow cfg)).

(** Modelled from the spec: the feature vector of section 4.3, in its
    fixed order. *)
Definition features (cfg : Config) (deps : Scorer) (r : BatchRecord)
  (e : ExpiryInfo) : list Q :=
  [ reliability r;
    inject_Z (Z.max (dayLow cfg) (Z.min (dayHigh cfg) (daysRemaining e)));
    inject_Z (Z.of_nat (scanCount r));
    dispersion deps (scanLocations r) ].

(** Modelled from the spec: the certainty that a code is absent from the
    registry. *)
Definition fakeConfidence : Q := 1.

Definition exceeds (a t : Q) : bool := negb (Qle_bool a t).

(** Modelled from the spec: the Classification Aggregator of section 4.4,
    an ordered decision whose branches short-circuit: not found, then
    expired, then score above the threshold, then valid. *)
Definition classify (cfg : Config) (deps : Scorer) (now : Z)
  (found : option BatchRecord) : Status * Q * string :=
  match found with
  | None =>
      (Fake, fakeConfidence, "batch code not found in official database.")
  | Some r =>
      let e := evaluateExpiry (expiryDate r) now in
      if isExpired e then
        (Expired, level (expiredConfidence cfg),
         "expired " +:+ pretty (- daysRemaining e)%Z +:+ " days ago")
      else
        let raw := score deps (features cfg deps r e) in
        let anomalyConfidence := calibrate cfg raw in
        if exceeds raw (threshold cfg) then
          (Suspected, anomalyConfidence, "unusual scan pattern detected")
        else
          (Valid, clamp01 (1 - anomalyConfidence),
           "valid, expires in " +:+ pretty (daysRemaining e) +:+ " days")
  end.

Record Request := {
  code : string;
  location : option (Q * Q)
}.

Record BatchInfo := {
  info_name : string;
  info_manufacturer : string;
  info_expiry_date : Z;
  info_scan_count : nat
}.

Record Response := {
  status : Status;
  reason : string;
  confidence : Q;
  batch_info : option BatchInfo
}.

(** The calls the engine makes on its collaborators, in order. *)
Inductive effect :=
| Lookup (code : string)
| RecordScan (code : string)
| LogRecord (event : VerificationEvent).

Definition setRegistry (f : gmap string BatchRecord -> gmap string BatchRecord)
  (st : Store) : Store :=
  {| registry := f (registry st); events := events st |}.

Definition append (ev : VerificationEvent) (st : Store) : Store :=
  {| registry := registry st; events := events st ++ [ev] |}.

Definition isRecordScan (e : effect) : bool :=
  match e with RecordScan _ => true | _ => false end.

(** Modelled from the spec: one verification (section 2): registry
    lookup, the scan recorded once when a record is found, classification,
    one event appended to the log, response. *)
Definition verify (cfg : Config) (deps : Scorer) (now : Z) (req : Request)
  : Run.Prog Store effect Response :=
  st ← Run.get;
  Run.emit (Lookup (code req)) ;;
  let found := lookup (code req) (registry st) in
  match found with
  | Some _ =>
      Run.emit (RecordScan (code req)) ;;
      Run.modify (setRegistry (recordScan (code req)))
  | None => mret tt
  end ;;
  let '(status, confidence, reason) := classify cfg deps now found in
  st ← Run.get;
  let event :=
    {| eventId := List.length (events st); batchCode := code req;
       eventStatus := status; eventConfidence := confidence;
       eventReason := reason; eventLocation := location req;
       timestamp := now |} in
  Run.emit (LogRecord event) ;;
  Run.modify (append event) ;;
  mret {| status := status; reason := reason; confidence := confidence;
          batch_info :=
            (fun r => {| info_name := name r;
                         info_manufacturer := manufacturer r;
                         info_expiry_date := expiryDate r;
                         info_scan_count := scanCount r |}) <$> found |}.

(** Modelled from the spec: the boundary [POST /api/verify] of sections 6
    and 7; a request with a missing or empty code is rejected as an input
    error and never reaches the engine. *)
Inductive Error := InputError.

Definition postVerify (cfg : Config) (deps : Scorer) (now : Z)
  (code : option string) (location : option (Q * Q))
  : Run.Prog Store effect (Error + Response) :=
  match code with
  | None => mret (inl InputError)
  | Some c =>
      if String.eqb c "" then mret (inl InputError)
      else r ← verify cfg deps now {| code := c; location := location |};
           mret (inr r)
  end.

(** The four branches of section 4.4, as the specification lists them:
    what decides each outcome. *)
Inductive decision (cfg : Config) (deps : Scorer) (now : Z)
  : option BatchRecord -> Status -> Prop :=
| decide_fake :
    decision cfg deps now None Fake
| decide_expired r :
    isExpired (evaluateExpiry (expiryDate r) now) = true ->
    decision cfg deps now (Some r) Expired
| decide_suspected r :
    isExpired (evaluateExpiry (expiryDate r) now) = false ->
    (threshold cfg
     < score deps (features cfg deps r (evaluateExpiry (expiryDate r) now)))%Q ->
    decision cfg deps now (Some r) Suspected
| decide_valid r :
    isExpired (evaluateExpiry (expiryDate r) now) = false ->
    (score deps (features cfg deps r (evaluateExpiry (expiryDate r) now))
     <= threshold cfg)%Q ->
    decision cfg deps now (Some r) Valid.

(** The event that a verification appends to the log. *)
Definition loggedEvent (cfg : Config) (deps : Scorer) (now : Z) (req : Request)
  (st : Store) : VerificationEvent :=
  let found := lookup (code req) (registry st) in
  {| eventId := List.length (events st); batchCode := code req;
     eventStatus := (classify cfg deps now found).1.1;
     eventConfidence := (classify cfg deps now found).1.2;
     eventReason := (classify cfg deps now found).2;
     eventLocation := location req; timestamp := now |}.

(** A configuration, a scorer and a registry of one batch to try the
    engine on. *)
Definition sampleConfig : Config :=
  {| threshold := 1 # 2;
     expiredConfidence := {| level := 99 # 100; level_range := eq_refl |};
     scoreLow := 0; scoreHigh := 1; dayLow := -365; dayHigh := 3650 |}.

Definition sampleScorer : Scorer :=
  {| dispersion := fun locations => inject_Z (Z.of_nat (List.length locations));
     score := fun fs => (nth 2 fs 0 / 100)%Q |}.

Definition sampleBatch : BatchRecord :=
  {| name := "Paracetamol 500mg"; manufacturer := "PharmaCorp";
     reliability := 9 # 10; expiryDate := 20000; scanCount := 3;
     scanLocations := [] |}.

Definition sampleStore : Store :=
  {| registry := {[ "MED597233X" := sampleBatch ]}; events := [] |}.

End Engine.

(** ** JSON documents and the reads JavaScript makes on them *)

Module Json.
Import JsString.

#[local] Set Warnings "-register-all".

(** A JSON document as it is written.  The numbers met here are whole
    numbers: counts, and the numbers that stand for days.  An object is
    the list of its members in the order of the text; [parsed] and [own]
    give the properties of the object that [JSON.parse] makes of it. *)
Inductive json :=
| JNull
| JBool (b : bool)
| JNumber (n : Z)
| JString (s : jsstring)
| JArray (items : list json)
| JObject (fields : list (jsstring * json)).

(** A JavaScript value read out of a document: [None] is [undefined]. *)
Definition value := option json.

#[global] Instance completion_ret : MRet Run.completion := @Run.Normal.
#[global] Instance completion_bind : MBind Run.completion :=
  fun A B k m => match m with Run.Normal a => k a | Run.Throw => Run.Throw end.

Definition truthy (v : value) : bool :=
  match v with
  | None | Some JNull => false
  | Some (JBool b) => b
  | Some (JNumber n) => negb (n =? 0)%Z
  | Some (JString s) => JsString.truthy s
  | Some (JArray _) | Some (JObject _) => true
  end.

(** [JSON.parse] defines the members of an object one after the other: a
    name written twice keeps its first place and takes its last value. *)
Fixpoint define (k : jsstring) (v : json) (props : list (jsstring * json))
  : list (jsstring * json) :=
  match props with
  | [] => [(k, v)]
  | (k', v') :: rest =>
      if eqb k' k then (k', v) :: rest else (k', v') :: define k v rest
  end.

Definition parsed (fields : list (jsstring * json)) : list (jsstring * json) :=
  fold_left (fun props kv => define (fst kv) (snd kv) props) fields [].

Definition field (fields : list (jsstring * json)) (k : jsstring) : value :=
  snd <$> find (fun kv => eqb (fst kv) k) (parsed fields).

Definition digit (u : N) : option N :=
  if ((48 <=? u) && (u <=? 57))%N then Some (u - 48)%N else None.

Fixpoint numeral (acc : N) (s : jsstring) : option N :=
  match s with
  | [] => Some acc
  | u :: s' =>
      match digit u with
      | Some d => numeral (acc * 10 + d) s'
      | None => None
      end
  end.

(** The array index that a property name spells: a decimal numeral
    without a leading zero, below 2^32 - 1. *)
Definition arrayIndex (k : jsstring) : option N :=
  match k with
  | [] => None
  | [u] => digit u
  | u :: _ =>
      if (u =? 48)%N then None
      else match numeral 0 k with
           | Some n => if (n <? 4294967295)%N then Some n else None
           | None => None
           end
  end.

Fixpoint insertIndex (n : N) (kv : jsstring * json)
  (sorted : list (N * (jsstring * json))) : list (N * (jsstring * json)) :=
  match sorted with
  | [] => [(n, kv)]
  | (m, kv') :: rest =>
      if (n <? m)%N then (n, kv) :: sorted else (m, kv') :: insertIndex n kv rest
  end.

(** The own properties of the parsed object in the order in which
    JavaScript enumerates them: the array indices in ascending order, then
    the other names in the order of their definition. *)
Definition own (fields : list (jsstring * json)) : list (jsstring * json) :=
  let props := parsed fields in
  (snd <$> foldr (fun kv sorted =>
                    match arrayIndex (fst kv) with
                    | Some n => insertIndex n kv sorted
                    | None => sorted
                    end) [] props)
  ++ List.filter (fun kv => match arrayIndex (fst kv) with
                            | Some _ => false
                            | None => true
                            end) props.


(** [v.k] for a key [k] that is no built-in property: a TypeError on
    [undefined] and [null], the field of an object, [undefined]
    elsewhere. *)
Definition get (v : value) (k : jsstring) : Run.completion value :=
  match v with
  | None | Some JNull => Run.Throw
  | Some (JObject fields) => Run.Normal (field fields k)
  | Some _ => Run.Normal None
  end.

Definition indices (n : nat) : list jsstring :=
  (fun i => utf16 (pretty i)) <$> seq 0 n.

Definition chars (s : jsstring) : list json :=
  (fun u => JString [u]) <$> s.

(** [Object.keys(v)] *)
Definition keys (v : value) : Run.completion (list jsstring) :=
  match v with
  | None | Some JNull => Run.Throw
  | Some (JObject fields) => Run.Normal (fst <$> own fields)
  | Some (JArray items) => Run.Normal (indices (List.length items))
  | Some (JString s) => Run.Normal (indices (List.length s))
  | Some (JBool _) | Some (JNumber _) => Run.Normal []
  end.

(** [Object.values(v)] *)
Definition values (v : value) : Run.completion (list json) :=
  match v with
  | None | Some JNull => Run.Throw
  | Some (JObject fields) => Run.Normal (snd <$> own fields)
  | Some (JArray items) => Run.Normal items
  | Some (JString s) => Run.Normal (chars s)
  | Some (JBool _) | Some (JNumber _) => Run.Normal []
  end.

(** [v || 0] *)
Definition or_zero (v : value) : json :=
  match v with
  | Some j => if truthy v then j else JNumber 0
  | None => JNumber 0
  end.

(** [a + b]: the sum of two numbers; on other operands JavaScript
    concatenates or yields NaN, and the operands are kept as they are. *)
Inductive addition :=
| Sum (n : Z)
| NotNumbers (a b : json).

Definition plus (a b : json) : addition :=
  match a, b with
  | JNumber x, JNumber y => Sum (x + y)
  | _, _ => NotNumbers a b
  end.

(** [items.map(f)] for a callback that may throw. *)
Fixpoint traverse {A B} (f : A -> Run.completion B) (items : list A)
  : Run.completion (list B) :=
  match items with
  | [] => Run.Normal []
  | x :: rest => y ← f x; ys ← traverse f rest; Run.Normal (y :: ys)
  end.

(** [v.map(f)]: a TypeError unless [v] is an array. *)
Definition array_map {B} (v : value) (f : json -> Run.completion B)
  : Run.completion (list B) :=
  match v with
  | Some (JArray items) => traverse f items
  | _ => Run.Throw
  end.

End Json.

(** ** The statistics summary (server side) *)

Module Stats.
Import JsString Engine Json.



(** Modelled from the spec: the buckets by calendar day, kept in
    ascending order of day; [bump] counts one more event on day [d]. *)
Fixpoint bump (d : Z) (buckets : list (Z * nat)) : list (Z * nat) :=
  match buckets with
  | [] => [(d, 1)]
  | (d', n) :: rest =>
      if (d <? d')%Z then (d, 1) :: buckets
      else if (d =? d')%Z then (d', S n) :: rest
      else (d', n) :: bump d rest
  end.

Definition daily (evs : list VerificationEvent) : list (Z * nat) :=
  foldr (fun e acc => bump (calendarDay (timestamp e)) acc) [] evs.









End Stats.

(** ** AdminDashboard.js: what the dashboard reads from the statistics *)

Module AdminDashboard.
Import JsString.
Import Json.

(** The four [useState] cells; [stats] starts as [null]. *)
Record State := {
  logs : json;
  stats : json;
  loading : bool;
  refreshing : bool
}.

Definition initial : State :=
  {| logs := JArray []; stats := JNull; loading := true; refreshing := false |}.

(** How [axios.get] settles: resolved with the body of the answer, or
    rejected.  While a request has not settled [fetchData] stays at its
    [await] and the component keeps the state it had; what is stated
    below of a load is stated of one whose two requests have settled. *)
Inductive http_outcome :=
| Resolved (data : json)
| Rejected.

Record Environment := {
  REACT_APP_BACKEND_URL : jsstring;
  get_ : jsstring -> http_outcome
}.

Definition API (env : Environment) : jsstring :=
  REACT_APP_BACKEND_URL env +++ "/api".

Inductive effect :=
| AxiosGet (url : jsstring)
| ConsoleError (msg : jsstring)
| ToastError (msg : jsstring).

Definition Handler := Run.Prog State effect.

(** [await Promise.all([axios.get(a), axios.get(b)])]: both requests go
    out; the promise rejects as soon as one of them does. *)
Definition axios_get_both (env : Environment) (a b : jsstring)
  : Handler (json * json) :=
  Run.emit (AxiosGet a) ;;
  Run.emit (AxiosGet b) ;;
  match get_ env a, get_ env b with
  | Resolved x, Resolved y => mret (x, y)
  | _, _ => Run.throw
  end.

Definition fetchData (env : Environment) : Handler unit :=
  Run.try_catch_finally
    (responses ← axios_get_both env (API env +++ "/logs") (API env +++ "/stats");
     Run.modify (fun s => {| logs := fst responses; stats := stats s;
                            loading := loading s; refreshing := refreshing s |}) ;;
     Run.modify (fun s => {| logs := logs s; stats := snd responses;
                            loading := loading s; refreshing := refreshing s |}))
    (Run.emit (ConsoleError "Error fetching data:") ;;
     Run.emit (ToastError "Failed to load dashboard data"))
    (Run.modify (fun s => {| logs := logs s; stats := stats s;
                            loading := false; refreshing := refreshing s |}) ;;
     Run.modify (fun s => {| logs := logs s; stats := stats s;
                            loading := loading s; refreshing := false |})).

(** [key.charAt(0).toUpperCase() + key.slice(1)]: [charAt(0)] is the
    first code unit, so that the first half of a surrogate pair is
    upper-cased on its own, and stays. *)
Definition capitalize (key : jsstring) : jsstring :=
  match key with
  | [] => []
  | u :: rest => toUpperCase [u] +++ rest
  end.

(** A label of a chart: a text, or the short date that
    [new Date(id).toLocaleDateString('en-US', ...)] prints for [id]. *)
Inductive label :=
| Text (s : jsstring)
| ShortDate (id : value).

Record ChartData := {
  labels : list label;
  data : list value
}.

Definition pieChartData (stats : json) : Run.completion (option ChartData) :=
  if truthy (Some stats) then
    distribution ← get (Some stats) "status_distribution";
    ks ← keys distribution;
    distribution' ← get (Some stats) "status_distribution";
    vs ← values distribution';
    mret (Some {| labels := Text ∘ capitalize <$> ks; data := Some <$> vs |})
  else mret None.

Definition barChartData (stats : json) : Run.completion (option ChartData) :=
  if truthy (Some stats) then
    daily ← get (Some stats) "daily_verifications";
    ls ← array_map daily (fun item => id ← get (Some item) "_id"; mret (ShortDate id));
    daily' ← get (Some stats) "daily_verifications";
    ds ← array_map daily' (fun item => get (Some item) "count");
    mret (Some {| labels := ls; data := ds |})
  else mret None.

(** The figures of the four statistics cards. *)
Record Cards := {
  totalVerifications : json;
  validMedicines : json;
  flagged : addition;
  databaseSize : value
}.

Definition cards (stats : json) : Run.completion (option Cards) :=
  if truthy (Some stats) then
    total ← get (Some stats) "total_verifications";
    distribution ← get (Some stats) "status_distribution";
    valid ← get distribution "valid";
    fake ← get distribution "fake";
    suspected ← get distribution "suspected";
    medicines ← get (Some stats) "total_medicines";
    mret (Some {| totalVerifications := or_zero total;
                  validMedicines := or_zero valid;
                  flagged := plus (or_zero fake) (or_zero suspected);
                  databaseSize := medicines |})
  else mret None.

Inductive view :=
| LoadingView
| DashboardView (cards : option Cards) (pie bar : option ChartData).

(** One evaluation of the component body: the chart data first, then the
    loading screen or the dashboard. *)
Definition render (s : State) : Run.completion view :=
  pie ← pieChartData (stats s);
  bar ← barChartData (stats s);
  if loading s then mret LoadingView
  else c ← cards (stats s); mret (DashboardView c pie bar).



(** [useEffect(() => { fetchData(); }, [])]: the first load. *)
Definition mount (env : Environment) : Handler unit := fetchData env.

Definition handleRefresh (env : Environment) : Handler unit :=
  Run.modify (fun s => {| logs := logs s; stats := stats s;
                          loading := loading s; refreshing := true |}) ;;
  fetchData env.

(** [v === text] for a string literal [text] *)
Definition equals (v : value) (text : jsstring) : bool :=
  match v with
  | Some (JString s) => eqb s text
  | _ => false
  end.

Definition getStatusBadgeVariant (status : value) : jsstring :=
  if equals status "valid" then "default"
  else if equals status "expired" then "secondary"
  else if equals status "fake" then "destructive"
  else if equals status "suspected" then "outline"
  else "default".

(** The [span] of a status: its class and its sign, or [null]. *)
Definition getStatusIcon (status : value) : option (jsstring * jsstring) :=
  let iconClass : jsstring := "w-4 h-4" in
  if equals status "valid" then Some (iconClass +++ " text-green-500", "✅" : jsstring)
  else if equals status "expired" then Some (iconClass +++ " text-yellow-500", "⚠️" : jsstring)
  else if equals status "fake" then Some (iconClass +++ " text-red-500", "❌" : jsstring)
  else if equals status "suspected" then Some (iconClass +++ " text-orange-500", "🤔" : jsstring)
  else None.

(** One row of the list of logs, with the figures as read from the log:
    the percentage, the two decimals of the coordinates and the date are
    formatted by the browser from [confidence], [location] and
    [timestamp]. *)
Record LogRow := {
  row_key : value;
  row_icon : option (jsstring * jsstring);
  row_batch_code : value;
  row_reason : value;
  row_variant : jsstring;
  row_confidence : value;
  row_location : option (value * value);
  row_timestamp : value
}.

(** [v?.toFixed(2)]: [undefined] when [v] is [undefined] or [null], the
    number to print when [v] is a number, and a TypeError elsewhere, a
    string, a boolean, an array or an object having no [toFixed] to
    call. *)
Definition toFixed (v : value) : Run.completion value :=
  match v with
  | None | Some JNull => Run.Normal None
  | Some (JNumber n) => Run.Normal (Some (JNumber n))
  | Some _ => Run.Throw
  end.

Definition logRow (log : json) : Run.completion LogRow :=
  id ← get (Some log) "id";
  status ← get (Some log) "status";
  batch ← get (Some log) "batch_code";
  reason ← get (Some log) "reason";
  confidence ← get (Some log) "confidence";
  place ← get (Some log) "location";
  position ←
    (if truthy place then
       lat ← get place "lat";
       lat' ← toFixed lat;
       lng ← get place "lng";
       lng' ← toFixed lng;
       mret (Some (lat', lng'))
     else mret None);
  time ← get (Some log) "timestamp";
  mret {| row_key := id; row_icon := getStatusIcon status; row_batch_code := batch;
          row_reason := reason; row_variant := getStatusBadgeVariant status;
          row_confidence := confidence; row_location := position; row_timestamp := time |}.

Inductive logsView :=
| NoLogs
| LogRows (rows : list LogRow).

(** [logs.length === 0 ? <p>No verification logs found</p>
                        : logs.slice(0, 20).map(...)] *)
Definition renderLogs (logs : json) : Run.completion logsView :=
  match logs with
  | JNull => Run.Throw
  | JArray [] | JString [] => mret NoLogs
  | JArray items => rows ← traverse logRow (take 20 items); mret (LogRows rows)
  | JObject fields =>
      match field fields "length" with
      | Some (JNumber 0) => mret NoLogs
      | _ => Run.Throw
      end
  | JString _ | JBool _ | JNumber _ => Run.Throw
  end.

(** What React takes as a child of an element: a text, a number, a
    boolean, [null], [undefined], or an array of these; an object is
    refused with an error. *)
Fixpoint validChild (j : json) : bool :=
  match j with
  | JObject _ => false
  | JArray items => forallb validChild items
  | _ => true
  end.

Definition validValue (v : value) : bool :=
  match v with
  | Some j => validChild j
  | None => true
  end.

(** The values that a row hands to React as they were read: [batch_code]
    and [reason]. *)
Definition accepted (row : LogRow) : bool :=
  validValue (row_batch_code row) && validValue (row_reason row).

(** The list of logs on the page: the elements are made, then React
    takes them or throws. *)
Definition showLogs (logs : json) : Run.completion logsView :=
  view ← renderLogs logs;
  match view with
  | NoLogs => mret NoLogs
  | LogRows rows => if forallb accepted rows then mret view else Run.Throw
  end.




(** A server that cannot be reached. *)
Definition unreachable : Environment :=
  {| REACT_APP_BACKEND_URL := "http://localhost:8001";
     get_ := fun _ => Rejected |}.

End AdminDashboard.

(** * Properties *)

(** ** Strings *)

Section StringFacts.
Import JsString.

Lemma isWhiteSpace_letter (u : N) : (65 <= u <= 122)%N -> isWhiteSpace u = false.
Proof.
  intros H. unfold isWhiteSpace.
  repeat match goal with
         | |- context [(?a =? ?b)%N] =>
             replace (a =? b)%N with false by (symmetry; apply N.eqb_neq; lia)
         end.
  replace (u <=? 13)%N with false by (symmetry; apply N.leb_gt; lia).
  replace (0x2000 <=? u)%N with false by (symmetry; apply N.leb_gt; lia).
  now rewrite andb_false_r.
Qed.

Lemma isLower_range (u : N) : isLower u = true <-> (97 <= u <= 122)%N.
Proof.
  unfold isLower. rewrite andb_true_iff, !N.leb_le. reflexivity.
Qed.

Lemma isHighSurrogate_range (u : N) :
  isHighSurrogate u = true <-> (0xD800 <= u <= 0xDBFF)%N.
Proof.
  unfold isHighSurrogate. rewrite andb_true_iff, !N.leb_le. reflexivity.
Qed.

Lemma isLowSurrogate_range (u : N) :
  isLowSurrogate u = true <-> (0xDC00 <= u <= 0xDFFF)%N.
Proof.
  unfold isLowSurrogate. rewrite andb_true_iff, !N.leb_le. reflexivity.
Qed.

(** A surrogate is neither white space nor a letter of [a]-[z]. *)
Lemma surrogate_plain (u : N) :
  isHighSurrogate u = true \/ isLowSurrogate u = true ->
  isWhiteSpace u = false /\ isLower u = false.
Proof.
  rewrite isHighSurrogate_range, isLowSurrogate_range. intros H. split.
  - unfold isWhiteSpace.
    repeat match goal with
           | |- context [(?a =? ?b)%N] =>
               replace (a =? b)%N with false by (symmetry; apply N.eqb_neq; lia)
           end.
    replace (u <=? 13)%N with false by (symmetry; apply N.leb_gt; lia).
    replace (u <=? 0x200A)%N with false by (symmetry; apply N.leb_gt; lia).
    now rewrite !andb_false_r.
  - apply not_true_is_false. rewrite isLower_range. lia.
Qed.

Lemma high_not_low (u : N) : isHighSurrogate u = true -> isLowSurrogate u = false.
Proof.
  rewrite isHighSurrogate_range. intros H. apply not_true_is_false.
  rewrite isLowSurrogate_range. lia.
Qed.

(** What a table gives for a code point is one of its entries. *)
Lemma assoc_listed {V} (k : N) (table : list (N * V)) (v : V) :
  assoc k table = Some v -> In (k, v) table.
Proof.
  unfold assoc.
  destruct (find (fun kv => (fst kv =? k)%N) table) as [[k' v']|] eqn:E;
    [|discriminate].
  apply find_some in E as [Hin Hk]. apply N.eqb_eq in Hk.
  cbn [fst snd fmap option_fmap option_map] in *. intros [= <-]. now subst k'.
Qed.

(** Every entry of the table of upper-case mappings: the code point is
    neither white space nor a surrogate; what it is mapped to is not empty
    and is made of code units that are neither white space, nor
    surrogates, nor letters of [a]-[z], and that map to themselves. *)
Lemma upperCaseMappings_checked :
  forallb mappingChecked upperCaseMappings = true.
Proof. vm_compute. reflexivity. Qed.

(** Every entry of the table above U+FFFF: the code point it is mapped to
    is written as a surrogate pair, and maps to itself. *)
Lemma supplementaryUpperCaseMappings_checked :
  forallb supplementaryChecked supplementaryUpperCaseMappings = true.
Proof. vm_compute. reflexivity. Qed.

(** The letters of [a]-[z] are mapped. *)
Lemma lower_mapped :
  forallb (fun n => negb (unmapped (N.of_nat n) upperCaseMappings)) (seq 97 26) = true.
Proof. vm_compute. reflexivity. Qed.

Lemma mapped_checked (u : N) (mapped : jsstring) :
  assoc u upperCaseMappings = Some mapped ->
  plain u = true /\ mapped <> []
  /\ Forall (fun o => plain o = true /\ isLower o = false
                      /\ assoc o upperCaseMappings = None) mapped.
Proof.
  intros H. apply assoc_listed in H.
  pose proof upperCaseMappings_checked as Hall.
  rewrite forallb_forall in Hall. specialize (Hall _ H).
  unfold mappingChecked in Hall. cbn [fst snd] in Hall.
  apply andb_true_iff in Hall as [Hall Hout].
  apply andb_true_iff in Hall as [Hu Hne].
  split; [exact Hu|]. split; [now destruct mapped|].
  rewrite forallb_forall in Hout. apply List.Forall_forall. intros o Ho.
  specialize (Hout o Ho).
  apply andb_true_iff in Hout as [Hout Hun].
  apply andb_true_iff in Hout as [Hp Hl].
  split; [exact Hp|]. split; [now apply negb_true_iff|].
  unfold unmapped in Hun. now destruct (assoc o upperCaseMappings).
Qed.

Lemma plain_spec (u : N) :
  plain u = true
  <-> isWhiteSpace u = false /\ isHighSurrogate u = false /\ isLowSurrogate u = false.
Proof.
  unfold plain. rewrite !andb_true_iff, !negb_true_iff. tauto.
Qed.

(** What [toUpperCase] does at the head of a string. *)
Lemma toUpperCase_pair (high low : N) (rest : jsstring) :
  isHighSurrogate high = true -> isLowSurrogate low = true ->
  toUpperCase (high :: low :: rest) = upperPair high low ++ toUpperCase rest.
Proof.
  intros Hh Hl.
  change (toUpperCase (high :: low :: rest))
    with (if isHighSurrogate high && isLowSurrogate low
          then upperPair high low ++ toUpperCase rest
          else upperUnit high ++ toUpperCase (low :: rest)).
  now rewrite Hh, Hl.
Qed.

Lemma toUpperCase_unit (u : N) (rest : jsstring) :
  alone u rest -> toUpperCase (u :: rest) = upperUnit u ++ toUpperCase rest.
Proof.
  intros H. destruct rest as [|low rest].
  - change (toUpperCase [u]) with (upperUnit u). now rewrite app_nil_r.
  - change (toUpperCase (u :: low :: rest))
      with (if isHighSurrogate u && isLowSurrogate low
            then upperPair u low ++ toUpperCase rest
            else upperUnit u ++ toUpperCase (low :: rest)).
    destruct H as [-> | H]; [reflexivity|].
    rewrite (H low eq_refl). now rewrite andb_false_r.
Qed.

(** Induction along the code points of a string. *)
Lemma codePoints_ind (P : jsstring -> Prop) :
  P [] ->
  (forall u rest, alone u rest -> P rest -> P (u :: rest)) ->
  (forall high low rest,
      isHighSurrogate high = true -> isLowSurrogate low = true ->
      P rest -> P (high :: low :: rest)) ->
  forall s, P s.
Proof.
  intros Hnil Hunit Hpair s.
  assert (H : P s /\ forall u, P (u :: s)); [|apply H].
  induction s as [|x s [IH1 IH2]].
  - split; [exact Hnil|]. intros u. apply Hunit; [right; discriminate | exact Hnil].
  - split; [apply IH2|]. intros u.
    destruct (isHighSurrogate u) eqn:Eh; [destruct (isLowSurrogate x) eqn:El|].
    + now apply Hpair.
    + apply Hunit; [|apply IH2]. right. now intros low [= <-].
    + apply Hunit; [|apply IH2]. now left.
Qed.

(** The upper case of a code unit: never empty; white space stays, and
    what is not white space gives no white space; a surrogate stays. *)
Lemma upperUnit_whitespace (u : N) : isWhiteSpace u = true -> upperUnit u = [u].
Proof.
  intros Hu. unfold upperUnit.
  destruct (assoc u upperCaseMappings) as [mapped|] eqn:E; [|reflexivity].
  apply mapped_checked in E as (Hp & _). apply plain_spec in Hp as (Hw & _).
  congruence.
Qed.

Lemma upperUnit_surrogate (u : N) :
  isHighSurrogate u = true \/ isLowSurrogate u = true -> upperUnit u = [u].
Proof.
  intros Hu. unfold upperUnit.
  destruct (assoc u upperCaseMappings) as [mapped|] eqn:E; [|reflexivity].
  apply mapped_checked in E as (Hp & _). apply plain_spec in Hp as (_ & Hh & Hl).
  destruct Hu; congruence.
Qed.

Lemma upperUnit_spec (u : N) :
  upperUnit u = [u] /\ isLower u = false
  \/ isWhiteSpace u = false /\ isHighSurrogate u = false /\ isLowSurrogate u = false
     /\ upperUnit u <> []
     /\ Forall (fun o => isWhiteSpace o = false /\ isHighSurrogate o = false
                         /\ isLowSurrogate o = false /\ isLower o = false
                         /\ upperUnit o = [o]) (upperUnit u).
Proof.
  remember (upperUnit u) as out eqn:Eout. unfold upperUnit in Eout.
  destruct (assoc u upperCaseMappings) as [mapped|] eqn:E; subst out.
  - right. apply mapped_checked in E as (Hp & Hne & Hall).
    apply plain_spec in Hp as (Hw & Hh & Hl).
    repeat split; try assumption.
    eapply Forall_impl; [exact Hall|]. intros o (Ho & Hlow & Hun).
    apply plain_spec in Ho as (? & ? & ?). repeat split; try assumption.
    unfold upperUnit. now rewrite Hun.
  - left. split; [reflexivity|].
    apply not_true_is_false. intros Hl. apply isLower_range in Hl.
    pose proof lower_mapped as Hall. rewrite forallb_forall in Hall.
    specialize (Hall (N.to_nat u)). rewrite N2Nat.id in Hall.
    unfold unmapped in Hall. rewrite E in Hall.
    assert (Hin : In (N.to_nat u) (seq 97 26)) by (apply in_seq; lia).
    specialize (Hall Hin). discriminate.
Qed.

(** The upper case of a surrogate pair is a surrogate pair, which upper
    case leaves as it is. *)
Lemma upperPair_spec (high low : N) :
  isHighSurrogate high = true -> isLowSurrogate low = true ->
  exists high' low',
    upperPair high low = [high'; low']
    /\ isHighSurrogate high' = true /\ isLowSurrogate low' = true
    /\ upperPair high' low' = [high'; low'].
Proof.
  intros Hh Hl. unfold upperPair at 1.
  destruct (assoc (codePoint high low) supplementaryUpperCaseMappings)
    as [mapped|] eqn:E.
  - apply assoc_listed in E.
    pose proof supplementaryUpperCaseMappings_checked as Hall.
    rewrite forallb_forall in Hall. specialize (Hall _ E).
    unfold supplementaryChecked in Hall. cbn [fst snd] in Hall.
    destruct (surrogates mapped) as [|high' [|low' [|]]]; try discriminate.
    apply andb_true_iff in Hall as [Hall Hun].
    apply andb_true_iff in Hall as [Hh' Hl'].
    exists high', low'. repeat split; try assumption.
    unfold upperPair, unmapped in *.
    now destruct (assoc (codePoint high' low') supplementaryUpperCaseMappings).
  - exists high, low. repeat split; try assumption.
    unfold upperPair. now rewrite E.
Qed.

(** The first code unit of an upper-cased string is white space, or a low
    surrogate, exactly when the first code unit of the string is. *)
Lemma toUpperCase_head (s : jsstring) (u : N) :
  head s = Some u ->
  exists o, head (toUpperCase s) = Some o
            /\ isWhiteSpace o = isWhiteSpace u
            /\ isLowSurrogate o = isLowSurrogate u.
Proof.
  induction s as [|x rest Hx _|high low rest Hh Hl _] using codePoints_ind;
    [discriminate| |].
  - intros [= ->]. rewrite (toUpperCase_unit _ _ Hx).
    destruct (upperUnit_spec u) as [[-> _]|(Hw & _ & Hl & Hne & Hall)].
    + exists u. auto.
    + destruct (upperUnit u) as [|o mapped]; [congruence|].
      inversion Hall as [|? ? (Ho1 & _ & Ho2 & _) _]; subst.
      exists o. split; [reflexivity|]. split; congruence.
  - intros [= ->]. rewrite (toUpperCase_pair _ _ _ Hh Hl).
    destruct (upperPair_spec u low Hh Hl) as (high' & low' & -> & Hh' & _).
    exists high'. split; [reflexivity|].
    destruct (surrogate_plain u (or_introl Hh)) as [-> _].
    destruct (surrogate_plain high' (or_introl Hh')) as [-> _].
    now rewrite !high_not_low.
Qed.

Lemma toUpperCase_isEmpty (s : jsstring) : isEmpty (toUpperCase s) = isEmpty s.
Proof.
  destruct s as [|x s]; [reflexivity|].
  destruct (toUpperCase_head (x :: s) x eq_refl) as (o & Ho & _).
  now destruct (toUpperCase (x :: s)).
Qed.

(** A code unit that is alone in front of a string is alone in front of
    its upper case. *)
Lemma alone_toUpperCase (u : N) (rest : jsstring) :
  alone u rest -> alone u (toUpperCase rest).
Proof.
  intros [H|H]; [now left|]. right. intros low Hlow.
  destruct rest as [|x rest]; [discriminate|].
  destruct (toUpperCase_head (x :: rest) x eq_refl) as (o & Ho & _ & Hl).
  rewrite Ho in Hlow. injection Hlow as <-. rewrite Hl. now apply H.
Qed.

Lemma toUpperCase_whitespace (u : N) (rest : jsstring) :
  isWhiteSpace u = true -> toUpperCase (u :: rest) = u :: toUpperCase rest.
Proof.
  intros Hu. rewrite toUpperCase_unit.
  - now rewrite (upperUnit_whitespace u Hu).
  - left. destruct (isHighSurrogate u) eqn:E; [|reflexivity].
    destruct (surrogate_plain u (or_introl E)). congruence.
Qed.

(** A string of white space is its own upper case. *)
Lemma toUpperCase_blank (s : jsstring) : blank s = true -> toUpperCase s = s.
Proof.
  induction s as [|u s IH]; [reflexivity|]. simpl.
  intros H. apply andb_true_iff in H as [Hu Hs].
  now rewrite (toUpperCase_whitespace u s Hu), IH.
Qed.

Lemma toUpperCase_trimStart (s : jsstring) :
  trimStart (toUpperCase s) = toUpperCase (trimStart s).
Proof.
  induction s as [|u s IH]; [reflexivity|].
  destruct (isWhiteSpace u) eqn:Hu.
  - rewrite (toUpperCase_whitespace u s Hu). simpl. now rewrite Hu.
  - simpl. rewrite Hu.
    destruct (toUpperCase_head (u :: s) u eq_refl) as (o & Ho & Hw & _).
    destruct (toUpperCase (u :: s)) as [|o' t]; [discriminate|].
    injection Ho as ->. simpl. now rewrite Hw, Hu.
Qed.

Lemma trimEnd_app (a s : jsstring) :
  Forall (fun o => isWhiteSpace o = false) a -> trimEnd (a ++ s) = a ++ trimEnd s.
Proof.
  induction 1 as [|o a Ho _ IH]; [reflexivity|].
  simpl. now rewrite Ho, IH.
Qed.

Lemma trimEnd_head_inv (s : jsstring) (u : N) :
  head (trimEnd s) = Some u -> head s = Some u.
Proof.
  destruct s as [|x s]; simpl; [easy|].
  now destruct (isWhiteSpace x && isEmpty (trimEnd s)).
Qed.

Lemma alone_trimEnd (u : N) (rest : jsstring) : alone u rest -> alone u (trimEnd rest).
Proof.
  intros [H|H]; [now left|]. right. intros low Hlow.
  apply H. now apply trimEnd_head_inv.
Qed.

Lemma upperUnit_no_whitespace (u : N) :
  isWhiteSpace u = false -> Forall (fun o => isWhiteSpace o = false) (upperUnit u).
Proof.
  intros Hu. destruct (upperUnit_spec u) as [[-> _]|(_ & _ & _ & _ & Hall)].
  - now constructor.
  - eapply Forall_impl; [exact Hall|]. now intros o (? & _).
Qed.

Lemma toUpperCase_trimEnd (s : jsstring) :
  trimEnd (toUpperCase s) = toUpperCase (trimEnd s).
Proof.
  induction s as [|u rest Hu IH|high low rest Hh Hl IH] using codePoints_ind;
    [reflexivity| |].
  - rewrite (toUpperCase_unit _ _ Hu).
    destruct (isWhiteSpace u) eqn:Hw.
    + rewrite (upperUnit_whitespace u Hw). simpl.
      rewrite Hw, IH, toUpperCase_isEmpty. simpl.
      destruct (isEmpty (trimEnd rest)); [reflexivity|].
      now rewrite (toUpperCase_whitespace u _ Hw).
    + rewrite (trimEnd_app _ _ (upperUnit_no_whitespace u Hw)), IH.
      simpl. rewrite Hw. simpl.
      now rewrite (toUpperCase_unit _ _ (alone_trimEnd _ _ Hu)).
  - rewrite (toUpperCase_pair _ _ _ Hh Hl).
    destruct (upperPair_spec high low Hh Hl) as (high' & low' & E & Hh' & Hl' & _).
    rewrite trimEnd_app, IH.
    + destruct (surrogate_plain high (or_introl Hh)) as [Wh _].
      destruct (surrogate_plain low (or_intror Hl)) as [Wl _].
      simpl. rewrite Wh, Wl. simpl.
      now rewrite (toUpperCase_pair _ _ _ Hh Hl).
    + rewrite E.
      destruct (surrogate_plain high' (or_introl Hh')) as [Wh _].
      destruct (surrogate_plain low' (or_intror Hl')) as [Wl _].
      now repeat constructor.
Qed.

(** Trimming and upper-casing can be done in either order. *)
Lemma toUpperCase_trim (s : jsstring) : trim (toUpperCase s) = toUpperCase (trim s).
Proof. unfold trim. now rewrite toUpperCase_trimStart, toUpperCase_trimEnd. Qed.

Lemma toUpperCase_app_fixed (a s : jsstring) :
  Forall (fun o => isHighSurrogate o = false /\ upperUnit o = [o]) a ->
  toUpperCase (a ++ s) = a ++ toUpperCase s.
Proof.
  induction 1 as [|o a [Ho Hfix] _ IH]; [reflexivity|].
  simpl. rewrite toUpperCase_unit by now left. now rewrite Hfix, IH.
Qed.

(** Upper-casing twice is upper-casing once. *)
Lemma toUpperCase_idempotent (s : jsstring) :
  toUpperCase (toUpperCase s) = toUpperCase s.
Proof.
  induction s as [|u rest Hu IH|high low rest Hh Hl IH] using codePoints_ind;
    [reflexivity| |].
  - rewrite (toUpperCase_unit _ _ Hu).
    destruct (upperUnit_spec u) as [[E _]|(_ & _ & _ & _ & Hall)].
    + rewrite E. simpl.
      rewrite (toUpperCase_unit _ _ (alone_toUpperCase _ _ Hu)), E, IH. reflexivity.
    + rewrite toUpperCase_app_fixed, IH; [reflexivity|].
      eapply Forall_impl; [exact Hall|]. now intros o (_ & ? & _ & _ & ?).
  - rewrite (toUpperCase_pair _ _ _ Hh Hl).
    destruct (upperPair_spec high low Hh Hl) as (high' & low' & -> & Hh' & Hl' & E).
    simpl. now rewrite (toUpperCase_pair _ _ _ Hh' Hl'), E, IH.
Qed.

(** An upper-cased string has no letter of [a]-[z]. *)
Lemma toUpperCase_no_lower (s : jsstring) :
  Forall (fun u => isLower u = false) (toUpperCase s).
Proof.
  induction s as [|u rest Hu IH|high low rest Hh Hl IH] using codePoints_ind;
    [constructor| |].
  - rewrite (toUpperCase_unit _ _ Hu). apply Forall_app. split; [|exact IH].
    destruct (upperUnit_spec u) as [[-> Hl]|(_ & _ & _ & _ & Hall)].
    + now constructor.
    + eapply Forall_impl; [exact Hall|]. now intros o (_ & _ & _ & ? & _).
  - rewrite (toUpperCase_pair _ _ _ Hh Hl).
    destruct (upperPair_spec high low Hh Hl) as (high' & low' & -> & Hh' & Hl' & _).
    destruct (surrogate_plain high' (or_introl Hh')) as [_ Lh].
    destruct (surrogate_plain low' (or_intror Hl')) as [_ Ll].
    simpl. now repeat constructor.
Qed.

Lemma trimStart_blank (s : jsstring) : blank (trimStart s) = blank s.
Proof.
  induction s as [|u s IH]; simpl; [reflexivity|].
  destruct (isWhiteSpace u) eqn:Hu; simpl; [assumption|]. now rewrite Hu.
Qed.

Lemma trimEnd_empty_blank (s : jsstring) : isEmpty (trimEnd s) = blank s.
Proof.
  induction s as [|u s IH]; simpl; [reflexivity|].
  rewrite IH. fold (blank s). now destruct (isWhiteSpace u), (blank s).
Qed.

(** [trim] leaves nothing exactly of the strings made of white space. *)
Lemma trim_truthy (s : jsstring) : truthy (trim s) = negb (blank s).
Proof.
  unfold truthy, trim. now rewrite trimEnd_empty_blank, trimStart_blank.
Qed.

Lemma trim_empty_iff (s : jsstring) : trim s = [] <-> blank s = true.
Proof.
  pose proof (trim_truthy s) as H. unfold truthy in H. split.
  - intros E. rewrite E in H. simpl in H. now destruct (blank s).
  - intros E. rewrite E in H. simpl in H. now destruct (trim s).
Qed.

End StringFacts.

(** ** HomePage *)

Section HomePageFacts.
Import JsString HomePage.

(** The guard at the head of [handleVerify] stops a blank code. *)
Lemma handleVerify_blank (env : Environment) (s : State) :
  blank (batchCode s) = true ->
  handleVerify env s
  = (Run.Normal (), s, [PreventDefault; ToastError "Please enter a batch code"]).
Proof.
  intros H. unfold handleVerify, mbind, prog_bind, Run.bind, Run.get, Run.emit.
  simpl. now rewrite trim_truthy, H.
Qed.

(** Past the guard: the position is asked for when the API is there, one
    request goes out whatever the geolocation did, and the handler ends
    with the answer or with the error object. *)
Lemma handleVerify_run (env : Environment) (s : State) :
  blank (batchCode s) = false ->
  let url := API env +++ "/verify" in
  let body := requestBody env s in
  handleVerify env s
  = (Run.Normal (),
     settled s (shown (post env url body)),
     PreventDefault
     :: match geolocation env with
        | Some _ => [GetCurrentPosition 5000]
        | None => []
        end
     ++ AxiosPost url body
     :: match post env url body with
        | Resolved data => [announcement data]
        | Rejected | Unreadable =>
            [ConsoleError "Verification error:";
             ToastError "Failed to verify medicine. Please try again."]
        end).
Proof.
  intros H url body. subst url body.
  unfold handleVerify, requestBody, located, announcement, shown, mbind, prog_bind,
    Run.bind, Run.get, Run.emit.
  simpl. rewrite trim_truthy, H. simpl.
  unfold Run.try_catch_finally, awaitPosition, axios_post, mbind, mret,
    prog_bind, prog_ret, Run.bind, Run.emit, Run.ret, Run.modify, Run.throw.
  destruct (geolocation env) as [[p|e]|]; simpl;
    match goal with |- context [post env ?u ?b] => destruct (post env u b) as [data| |] end;
    simpl; try (destruct (includes (status data) "Valid"); [|destruct (includes (status data) "Expired")]);
    reflexivity.
Qed.

Lemma handleVerify_sent (env : Environment) (s : State) :
  blank (batchCode s) = false ->
  let url := API env +++ "/verify" in
  let body := requestBody env s in
  posts (Run.trace (handleVerify env s)) = [(url, body)]
  /\ Run.final (handleVerify env s) = settled s (shown (post env url body)).
Proof.
  intros H url body. subst url body. rewrite (handleVerify_run env s H).
  unfold Run.trace, Run.final, announcement. simpl.
  destruct (geolocation env) as [[p|e]|], (post env _ _) as [data| |]; simpl;
    try (destruct (includes (status data) "Valid"); [|destruct (includes (status data) "Expired")]);
    split; reflexivity.
Qed.

(** C5: a batch-code input that is empty or made of white space only is
    not verified.  Whatever was typed, once the field holds such an input a
    submission stops at the guard: the handler performs the toast and
    nothing else, no request is sent, the state is the one before the
    submission, so a result that was [null] remains [null]; the submit
    button is disabled for such an input. *)
Theorem blank_code_is_not_verified (env : Environment) (v : jsstring) (s : State) :
  blank v = true ->
  let typed := Run.final (onChange v s) in
  let submitted := handleVerify env typed in
  Run.trace submitted = [PreventDefault; ToastError "Please enter a batch code"]
  /\ posts (Run.trace submitted) = []
  /\ Run.final submitted = typed
  /\ result (Run.final submitted) = result s
  /\ (result s = None -> result (Run.final submitted) = None)
  /\ submitDisabled typed = true.
Proof.
  intros Hv typed submitted.
  assert (Hb : blank (batchCode typed) = true).
  { subst typed. unfold onChange, Run.modify, Run.final. simpl.
    now rewrite (toUpperCase_blank v Hv). }
  subst submitted. rewrite (handleVerify_blank env typed Hb).
  unfold Run.trace, Run.final. simpl.
  repeat split; try reflexivity.
  - now intros ->.
  - unfold submitDisabled. rewrite trim_truthy, Hb. now destruct (loading typed).
Qed.

Lemma blank_code_is_not_verified_witness :
  blank "  " = true
  /\ posts (Run.trace (handleVerify online (Run.final (onChange "  " initial)))) = []
  /\ result (Run.final (handleVerify online (Run.final (onChange "  " initial)))) = None.
Proof.
  split; [reflexivity|].
  destruct (blank_code_is_not_verified online "  " initial eq_refl)
    as (_ & Hposts & _ & _ & Hnull & _).
  split; [exact Hposts | apply Hnull; reflexivity].
Defined.

(** C6: when the request to [/api/verify] fails, the result shown is the
    error object: status "Error ❌", confidence 0 and the reason "Unable to
    connect to verification service".  That status holds none of the four
    labels Fake, Expired, Suspected and Valid, and so it is drawn with the
    neutral icon and colour, not with those of a classification. *)
Theorem post_failure_shows_error (env : Environment) (s : State) :
  blank (batchCode s) = false ->
  post env (API env +++ "/verify") (requestBody env s) = Rejected ->
  posts (Run.trace (handleVerify env s)) = [(API env +++ "/verify", requestBody env s)]
  /\ result (Run.final (handleVerify env s))
     = Some {| status := "Error ❌";
               reason := "Unable to connect to verification service";
               confidence := 0;
               batch_info := None |}
  /\ Forall (fun label : string => includes "Error ❌" label = false)
            ["Fake"; "Expired"; "Suspected"; "Valid"]
  /\ getStatusIcon "Error ❌" = (Shield, "w-6 h-6 text-gray-500" : jsstring)
  /\ getStatusColor "Error ❌" = "bg-gray-50 border-gray-200 text-gray-800".
Proof.
  intros Hb Hpost.
  destruct (handleVerify_sent env s Hb) as [Hposts Hfinal].
  split; [exact Hposts|]. split.
  - rewrite Hfinal, Hpost. reflexivity.
  - split; [repeat constructor|]. split; reflexivity.
Qed.

Lemma post_failure_shows_error_witness :
  blank (batchCode (setBatchCode "MED597233X" initial)) = false
  /\ post offline (API offline +++ "/verify")
          (requestBody offline (setBatchCode "MED597233X" initial)) = Rejected
  /\ (status <$> result (Run.final (handleVerify offline (setBatchCode "MED597233X" initial))))
     = Some ("Error ❌" : jsstring).
Proof.
  split; [reflexivity|]. split; [reflexivity|].
  destruct (post_failure_shows_error offline (setBatchCode "MED597233X" initial)
              eq_refl eq_refl) as (_ & Hresult & _).
  rewrite Hresult. reflexivity.
Defined.

(** C7, as the claim has it, fails on a letter without an upper-case
    form: with the kra of Greenlandic typed into the field, a lowercase
    letter that [toUpperCase] leaves as it is, the field holds that letter
    and a submission sends it as the code. *)
Lemma lowercase_letter_is_submitted :
  let typed := Run.final (onChange "ĸ" initial) in
  batchCode typed = "ĸ"
  /\ posts (Run.trace (handleVerify offline typed))
     = [("http://localhost:8001/api/verify" : jsstring, [entry "code" (VString "ĸ")])]
  /\ codePoints "ĸ" = [0x138%N]
  /\ isLowercaseLetter 0x138 = true
  /\ hasLowercaseLetter "ĸ" = true.
Proof. repeat split; vm_compute; reflexivity. Qed.

(** C7, amended: typing [v] stores [v] upper-cased; a submission then
    sends, as [code], that text trimmed, which is also the trimmed input
    upper-cased.  The code sent is unchanged by upper-casing, so that it
    holds no letter that has an upper-case form, and in particular no
    letter of [a]-[z]; a lowercase letter without an upper-case form
    stays. *)
Theorem submitted_code_is_upper_case (env : Environment) (v : jsstring) (s : State) :
  let typed := Run.final (onChange v s) in
  batchCode typed = toUpperCase v
  /\ (forall url body,
        In (url, body) (posts (Run.trace (handleVerify env typed))) ->
        property body "code" = Some (VString (trim (toUpperCase v))))
  /\ trim (toUpperCase v) = toUpperCase (trim v)
  /\ toUpperCase (trim (toUpperCase v)) = trim (toUpperCase v)
  /\ Forall (fun u => isLower u = false) (trim (toUpperCase v)).
Proof.
  intros typed.
  split; [reflexivity|]. split; [|split; [|split]].
  - intros url body Hin. destruct (blank (batchCode typed)) eqn:Hb.
    + rewrite (handleVerify_blank env typed Hb) in Hin. destruct Hin.
    + destruct (handleVerify_sent env typed Hb) as [Hposts _].
      rewrite Hposts in Hin. destruct Hin as [[= <- <-]|[]]. reflexivity.
  - apply toUpperCase_trim.
  - rewrite toUpperCase_trim. apply toUpperCase_idempotent.
  - rewrite toUpperCase_trim. apply toUpperCase_no_lower.
Qed.

Lemma submitted_code_is_upper_case_witness :
  posts (Run.trace (handleVerify online (Run.final (onChange " straße 7b " initial))))
  = [("http://localhost:8001/api/verify" : jsstring,
      [entry "code" (VString "STRASSE 7B");
       entry "lat" (VNumber (407128 # 10000));
       entry "lng" (VNumber (- 740060 # 10000))])]
  /\ property [entry "code" (VString "STRASSE 7B");
               entry "lat" (VNumber (407128 # 10000));
               entry "lng" (VNumber (- 740060 # 10000))]
              "code"
     = Some (VString (trim (toUpperCase " straße 7b "))).
Proof.
  split; [reflexivity|].
  destruct (submitted_code_is_upper_case online " straße 7b " initial)
    as (_ & Hcode & _).
  apply (Hcode "http://localhost:8001/api/verify"). left. reflexivity.
Defined.

(** C8: a submission of a code that is not blank sends exactly one
    request, to [/api/verify]; its body has the key [code], bound to the
    trimmed batch code; it has [lat] and [lng], bound to the coordinates,
    exactly when the geolocation API is there and succeeded, and no other
    key.  The position is asked for with a timeout of 5000 ms, and a
    failed or missing geolocation leaves the request in place. *)
Theorem verify_request_body (env : Environment) (s : State) :
  blank (batchCode s) = false ->
  exists body,
    posts (Run.trace (handleVerify env s)) = [(API env +++ "/verify", body)]
    /\ property body "code" = Some (VString (trim (batchCode s)))
    /\ (In ("lat" : jsstring) (keys body) <-> exists p, geolocation env = Some (GeoSuccess p))
    /\ (In ("lng" : jsstring) (keys body) <-> exists p, geolocation env = Some (GeoSuccess p))
    /\ match geolocation env with
       | Some (GeoSuccess p) =>
           keys body = map utf16 ["code"; "lat"; "lng"]
           /\ property body "lat" = Some (VNumber (latitude (coords p)))
           /\ property body "lng" = Some (VNumber (longitude (coords p)))
       | Some (GeoError _) | None => keys body = map utf16 ["code"]
       end
    /\ (forall timeout, In (GetCurrentPosition timeout) (Run.trace (handleVerify env s)) ->
                        timeout = 5000%Z /\ geolocation env <> None).
Proof.
  intros Hb. exists (requestBody env s).
  destruct (handleVerify_sent env s Hb) as [Hposts _].
  split; [exact Hposts|]. split; [reflexivity|].
  assert (Htimeout : forall timeout,
             In (GetCurrentPosition timeout) (Run.trace (handleVerify env s)) ->
             timeout = 5000%Z /\ geolocation env <> None).
  { intros timeout. rewrite (handleVerify_run env s Hb). unfold Run.trace.
    cbn [snd]. intros [Hd|Hin]; [discriminate|].
    apply in_app_or in Hin as [Hin|Hin].
    - destruct (geolocation env) as [o|]; [|destruct Hin].
      destruct Hin as [[= <-]|[]]. split; [reflexivity | discriminate].
    - destruct Hin as [Hd|Hin]; [discriminate|]. exfalso.
      destruct (post env _ _) as [data| |].
      + unfold announcement in Hin.
        destruct (includes (status data) "Valid");
          [|destruct (includes (status data) "Expired")];
          destruct Hin as [Hd|[]]; discriminate.
      + destruct Hin as [Hd|[Hd|[]]]; discriminate.
      + destruct Hin as [Hd|[Hd|[]]]; discriminate. }
  unfold requestBody, located.
  destruct (geolocation env) as [[p|e]|]; simpl.
  - split; [split; eauto|]. split; [split; eauto|].
    split; [repeat split | exact Htimeout].
  - split; [split; [intros [[=]|[]] | intros [p [=]]]|].
    split; [split; [intros [[=]|[]] | intros [p [=]]]|].
    split; [reflexivity | exact Htimeout].
  - split; [split; [intros [[=]|[]] | intros [p [=]]]|].
    split; [split; [intros [[=]|[]] | intros [p [=]]]|].
    split; [reflexivity | exact Htimeout].
Qed.

Lemma verify_request_body_witness :
  blank (batchCode (setBatchCode "MED597233X" initial)) = false
  /\ exists body,
       posts (Run.trace (handleVerify offline (setBatchCode "MED597233X" initial)))
       = [("http://localhost:8001/api/verify" : jsstring, body)]
       /\ keys body = map utf16 ["code"].
Proof.
  split; [reflexivity|].
  destruct (verify_request_body offline (setBatchCode "MED597233X" initial) eq_refl)
    as (body & Hposts & _ & _ & _ & Hkeys & _).
  exists body. split; [exact Hposts | exact Hkeys].
Defined.

End HomePageFacts.

(** ** AdminLogin and App *)

Section AppFacts.
Import JsString App.

(** A submission of the sign-in form either leaves the flag of [App] as it
    is, or was answered with [success: true] and calls [handleAdminLogin]
    with the token of the answer. *)
Lemma step_submit (s : State) (form : AdminLogin.State) (env : AdminLogin.Environment) :
  step s (SubmitLogin form env) = s
  \/ exists data,
       AdminLogin.post env (AdminLogin.API env +++ "/admin/login")
                       (AdminLogin.credentials form) = AdminLogin.Resolved data
       /\ AdminLogin.success data = true
       /\ truthy (AdminLogin.username (AdminLogin.credentials form)) = true
       /\ truthy (AdminLogin.password (AdminLogin.credentials form)) = true
       /\ step s (SubmitLogin form env) = handleAdminLogin (AdminLogin.token data) s.
Proof.
  unfold step, AdminLogin.handleSubmit, Run.trace, mbind, prog_bind, Run.bind,
    Run.get, Run.emit. simpl.
  destruct (truthy (AdminLogin.username (AdminLogin.credentials form))) eqn:Hu;
    simpl; [|now left].
  destruct (truthy (AdminLogin.password (AdminLogin.credentials form))) eqn:Hp;
    simpl; [|now left].
  unfold Run.try_catch_finally, AdminLogin.axios_post, mbind, mret, prog_bind,
    prog_ret, Run.bind, Run.emit, Run.ret, Run.modify, Run.throw. simpl.
  destruct (AdminLogin.post env _ _) as [data|] eqn:Hpost; simpl; [|now left].
  destruct (AdminLogin.success data) eqn:Hs; simpl; [|now left].
  right. exists data. auto.
Qed.

Lemma run_snoc (evs : list event) (ev : event) : run (evs ++ [ev]) = step (run evs) ev.
Proof. unfold run. now rewrite fold_left_app. Qed.

(** C10: the dashboard is not rendered without a successful login.  [App]
    starts with the flag false and no token; the element of [/admin] is
    the dashboard when the flag is true and a redirection to
    [/admin/login] otherwise, and no other route renders the dashboard;
    the sign-in form calls [onLogin] only on an answer with
    [success: true]; and whenever the flag is true, the events so far
    contain a submission answered with [success: true] that no logout
    follows. *)
Theorem dashboard_requires_login :
  isAdminAuthenticated initial = false
  /\ adminToken initial = None
  /\ (forall s, route s Admin
                = if isAdminAuthenticated s then AdminDashboardElement
                  else Navigate AdminLoginPath)
  /\ (forall s p, route s p = AdminDashboardElement
                  <-> p = Admin /\ isAdminAuthenticated s = true)
  /\ (forall env form token,
        In (AdminLogin.OnLogin token) (Run.trace (AdminLogin.handleSubmit env form)) ->
        exists data,
          AdminLogin.post env (AdminLogin.API env +++ "/admin/login")
                          (AdminLogin.credentials form) = AdminLogin.Resolved data
          /\ AdminLogin.success data = true
          /\ AdminLogin.token data = token)
  /\ (forall evs,
        isAdminAuthenticated (run evs) = true ->
        exists before ev after,
          evs = before ++ ev :: after
          /\ successfulLogin ev
          /\ Forall (fun e => e <> ClickLogout) after).
Proof.
  split; [reflexivity|]. split; [reflexivity|]. split; [reflexivity|].
  split; [|split].
  - intros s p. destruct p; simpl; destruct (isAdminAuthenticated s);
      split; try discriminate; try (intros [? ?]; discriminate); auto.
  - intros env form token.
    unfold AdminLogin.handleSubmit, Run.trace, mbind, prog_bind, Run.bind,
      Run.get, Run.emit. simpl.
    destruct (truthy (AdminLogin.username (AdminLogin.credentials form))); simpl;
      [|intros [[=]|[[=]|[]]]].
    destruct (truthy (AdminLogin.password (AdminLogin.credentials form))); simpl;
      [|intros [[=]|[[=]|[]]]].
    unfold Run.try_catch_finally, AdminLogin.axios_post, mbind, mret, prog_bind,
      prog_ret, Run.bind, Run.emit, Run.ret, Run.modify, Run.throw. simpl.
    destruct (AdminLogin.post env _ _) as [data|] eqn:Hpost; simpl.
    + destruct (AdminLogin.success data) eqn:Hs; simpl.
      * intros [[=]|[[=]|[[=]|[[= <-]|[]]]]]. exists data. auto.
      * intros [[=]|[[=]|[[=]|[]]]].
    + intros [[=]|[[=]|[[=]|[[=]|[]]]]].
  - intros evs. induction evs as [|ev evs IH] using rev_ind; [discriminate|].
    rewrite run_snoc. destruct ev as [|form env].
    + discriminate.
    + destruct (step_submit (run evs) form env) as [Hsame|(data & Hpost & Hs & _ & _ & _)].
      * rewrite Hsame. intros Hauth.
        destruct (IH Hauth) as (before & ev & after & -> & Hev & Hafter).
        exists before, ev, (after ++ [SubmitLogin form env]).
        split; [now rewrite <- app_assoc|]. split; [assumption|].
        apply Forall_app. split; [assumption|]. now constructor.
      * intros _. exists evs, (SubmitLogin form env), [].
        split; [reflexivity|]. split; [|constructor].
        exists data. auto.
Qed.

End AppFacts.

(** ** The verification engine *)

Section EngineFacts.
Import Engine.

Lemma clamp01_bounds (x : Q) : (0 <= clamp01 x)%Q /\ (clamp01 x <= 1)%Q.
Proof.
  unfold clamp01. split.
  - apply Q.le_max_l.
  - apply Q.max_lub; [discriminate | apply Q.le_min_l].
Qed.

Lemma exceeds_true (a t : Q) : exceeds a t = true <-> (t < a)%Q.
Proof.
  unfold exceeds. rewrite negb_true_iff. split.
  - intros H. apply Qnot_le_lt. intros Hle.
    apply Qle_bool_iff in Hle. congruence.
  - intros H. destruct (Qle_bool a t) eqn:E; [|reflexivity].
    apply Qle_bool_iff in E. exfalso. exact (Qlt_not_le _ _ H E).
Qed.

Lemma exceeds_false (a t : Q) : exceeds a t = false <-> (a <= t)%Q.
Proof.
  unfold exceeds. rewrite negb_false_iff. apply Qle_bool_iff.
Qed.

(** One verification, spelled out: it always returns, with the outcome
    of [classify] on what the lookup found. *)
Lemma verify_spelled (cfg : Config) (deps : Scorer) (now : Z) (req : Request)
  (st : Store) :
  let found := lookup (code req) (registry st) in
  exists resp,
    verify cfg deps now req st
    = (Run.Normal resp,
       {| registry := match found with
                      | Some _ => recordScan (code req) (registry st)
                      | None => registry st
                      end;
          events := events st ++ [loggedEvent cfg deps now req st] |},
       Lookup (code req)
       :: match found with Some _ => [RecordScan (code req)] | None => [] end
       ++ [LogRecord (loggedEvent cfg deps now req st)])
    /\ (status resp, confidence resp, reason resp) = classify cfg deps now found.
Proof.
  intros found. subst found.
  unfold verify, loggedEvent, mbind, mret, prog_bind, prog_ret, Run.bind, Run.get,
    Run.emit, Run.modify, Run.ret.
  cbv zeta.
  destruct (lookup (code req) (registry st)) as [r|];
    match goal with |- context [classify ?c ?d ?n ?f] =>
      destruct (classify c d n f) as [[status confidence] reason] end;
    eexists; split; reflexivity.
Qed.

Lemma decision_classify (cfg : Config) (deps : Scorer) (now : Z)
  (found : option BatchRecord) (s : Status) :
  decision cfg deps now found s <-> (classify cfg deps now found).1.1 = s.
Proof.
  unfold classify. split.
  - intros H. destruct H as [|r He|r He Hs|r He Hs]; cbv zeta.
    + reflexivity.
    + now rewrite He.
    + rewrite He. apply exceeds_true in Hs. now rewrite Hs.
    + rewrite He. apply exceeds_false in Hs. now rewrite Hs.
  - destruct found as [r|]; cbv zeta.
    + destruct (isExpired (evaluateExpiry (expiryDate r) now)) eqn:He.
      * intros <-. now constructor.
      * destruct (exceeds _ _) eqn:Hs; intros <-; cbn [fst].
        -- apply decide_suspected; [assumption | now apply exceeds_true].
        -- apply decide_valid; [assumption | now apply exceeds_false].
    + intros <-. constructor.
Qed.

(** The status of a verification, as a nest of conditionals. *)
Lemma verify_status (cfg : Config) (deps : Scorer) (now : Z)
  (req : Request) (st : Store) :
  exists resp st' tr,
    verify cfg deps now req st = (Run.Normal resp, st', tr)
    /\ status resp
       = match lookup (code req) (registry st) with
         | None => Fake
         | Some r =>
             let e := evaluateExpiry (expiryDate r) now in
             if isExpired e then Expired
             else if exceeds (score deps (features cfg deps r e)) (threshold cfg)
                  then Suspected
                  else Valid
         end.
Proof.
  destruct (verify_spelled cfg deps now req st) as (resp & Hrun & Hclass).
  eexists resp, _, _. split; [exact Hrun|].
  assert (Hs : status resp = (classify cfg deps now (lookup (code req) (registry st))).1.1)
    by now rewrite <- Hclass.
  rewrite Hs. unfold classify.
  destruct (lookup (code req) (registry st)) as [r|]; [|reflexivity].
  cbv zeta. destruct (isExpired _); [reflexivity|]. now destruct (exceeds _ _).
Qed.

(** C1: every verification returns a status, and the status comes from
    the ordered decision: Fake when the lookup finds nothing; otherwise
    Expired when the record is expired, whatever the score; otherwise
    Suspected when the score exceeds the threshold; otherwise Valid.  The
    status is the one and only outcome that the four branches allow. *)
Theorem status_by_ordered_decision (cfg : Config) (deps : Scorer) (now : Z)
  (req : Request) (st : Store) :
  exists resp st' tr,
    verify cfg deps now req st = (Run.Normal resp, st', tr)
    /\ status resp
       = match lookup (code req) (registry st) with
         | None => Fake
         | Some r =>
             let e := evaluateExpiry (expiryDate r) now in
             if isExpired e then Expired
             else if exceeds (score deps (features cfg deps r e)) (threshold cfg)
                  then Suspected
                  else Valid
         end
    /\ (forall s, decision cfg deps now (lookup (code req) (registry st)) s
                  <-> status resp = s).
Proof.
  destruct (verify_spelled cfg deps now req st) as (resp & Hrun & Hclass).
  eexists resp, _, _. split; [exact Hrun|].
  assert (Hs : status resp = (classify cfg deps now (lookup (code req) (registry st))).1.1)
    by now rewrite <- Hclass.
  split.
  - rewrite Hs. unfold classify.
    destruct (lookup (code req) (registry st)) as [r|]; [|reflexivity].
    cbv zeta. destruct (isExpired _); [reflexivity|]. now destruct (exceeds _ _).
  - intros s. rewrite Hs. apply decision_classify.
Qed.

(** C2: [isExpired] holds exactly when [daysRemaining] is negative; a
    batch found with zero days remaining, its expiry date being today, is
    answered Valid or Suspected and not Expired. *)
Theorem expiry_boundary_is_exclusive :
  (forall expiryDate now,
      isExpired (evaluateExpiry expiryDate now) = true
      <-> (daysRemaining (evaluateExpiry expiryDate now) < 0)%Z)
  /\ (forall cfg deps now req st r,
        lookup (code req) (registry st) = Some r ->
        daysRemaining (evaluateExpiry (expiryDate r) now) = 0%Z ->
        exists resp st' tr,
          verify cfg deps now req st = (Run.Normal resp, st', tr)
          /\ (status resp = Valid \/ status resp = Suspected)
          /\ status resp <> Expired).
Proof.
  split.
  - intros expiryDate now. unfold evaluateExpiry. simpl. apply Z.ltb_lt.
  - intros cfg deps now req st r Hfound Hdays.
    destruct (verify_status cfg deps now req st)
      as (resp & st' & tr & Hrun & Hs).
    exists resp, st', tr. split; [exact Hrun|].
    rewrite Hs, Hfound. cbv zeta.
    assert (He : isExpired (evaluateExpiry (expiryDate r) now) = false).
    { unfold evaluateExpiry in *. simpl in *. rewrite Hdays. reflexivity. }
    rewrite He. destruct (exceeds _ _); split; auto; discriminate.
Qed.

Lemma expiry_boundary_is_exclusive_witness :
  lookup "MED597233X" (registry sampleStore) = Some sampleBatch
  /\ daysRemaining (evaluateExpiry (expiryDate sampleBatch) (20000 * 86400)) = 0%Z
  /\ exists resp st' tr,
       verify sampleConfig sampleScorer (20000 * 86400)
              {| code := "MED597233X"; location := None |} sampleStore
       = (Run.Normal resp, st', tr)
       /\ status resp <> Expired.
Proof.
  split; [vm_compute; reflexivity|]. split; [reflexivity|].
  destruct expiry_boundary_is_exclusive as [_ H].
  destruct (H sampleConfig sampleScorer (20000 * 86400)%Z
              {| code := "MED597233X"; location := None |} sampleStore sampleBatch)
    as (resp & st' & tr & Hrun & _ & Hne).
  - vm_compute; reflexivity.
  - reflexivity.
  - exists resp, st', tr. split; [exact Hrun | exact Hne].
Defined.

Lemma level_bounds (c : Confidence) : (0 <= level c)%Q /\ (level c <= 1)%Q.
Proof.
  pose proof (level_range c) as H. apply andb_true_iff in H as [Hlow Hhigh].
  split; now apply Qle_bool_iff.
Qed.

Lemma classify_confidence (cfg : Config) (deps : Scorer) (now : Z)
  (found : option BatchRecord) :
  (0 <= (classify cfg deps now found).1.2)%Q
  /\ ((classify cfg deps now found).1.2 <= 1)%Q.
Proof.
  unfold classify.
  destruct found as [r|]; cbv zeta.
  - destruct (isExpired _); [apply level_bounds|].
    destruct (exceeds _ _); cbn [fst snd]; apply clamp01_bounds.
  - cbn [fst snd]. unfold fakeConfidence. split; discriminate.
Qed.

(** C3: the confidence of every response lies in [0,1], whichever of the
    four branches produced it: 1 for Fake, the configured constant
    confidence for Expired, the clamped calibration for Suspected and its
    clamped complement for Valid. *)
Theorem confidence_in_unit_interval (cfg : Config) (deps : Scorer) (now : Z)
  (req : Request) (st : Store) :
  exists resp st' tr,
    verify cfg deps now req st = (Run.Normal resp, st', tr)
    /\ (0 <= confidence resp)%Q /\ (confidence resp <= 1)%Q
    /\ match status resp with
       | Fake => confidence resp = 1%Q
       | Expired => confidence resp = level (expiredConfidence cfg)
       | Suspected => exists raw, confidence resp = calibrate cfg raw
       | Valid => exists raw, confidence resp = clamp01 (1 - calibrate cfg raw)
       end.
Proof.
  destruct (verify_spelled cfg deps now req st) as (resp & Hrun & Hclass).
  eexists resp, _, _. split; [exact Hrun|].
  assert (Hc : confidence resp
               = (classify cfg deps now (lookup (code req) (registry st))).1.2)
    by now rewrite <- Hclass.
  assert (Hs : status resp
               = (classify cfg deps now (lookup (code req) (registry st))).1.1)
    by now rewrite <- Hclass.
  rewrite Hc, Hs. split; [|split]; try apply (classify_confidence cfg deps now _).
  unfold classify. destruct (lookup (code req) (registry st)) as [r|]; cbv zeta.
  - destruct (isExpired _); [reflexivity|].
    destruct (exceeds _ _); cbn [fst snd]; eexists; reflexivity.
  - reflexivity.
Qed.

(** The four branches on the sample registry: an unknown code, the sample
    batch the day after its expiry date, the same batch on that date, and
    with a scan count that the sample scorer finds unusual. *)
Lemma confidence_of_each_branch :
  let answer now req st :=
    match verify sampleConfig sampleScorer now req st with
    | (Run.Normal resp, _, _) => Some (status resp, Qred (confidence resp))
    | _ => None
    end in
  let busy :=
    {| registry := {[ "MED597233X" :=
                        {| name := "Paracetamol 500mg"; manufacturer := "PharmaCorp";
                           reliability := (9 # 10)%Q; expiryDate := 20000;
                           scanCount := 79; scanLocations := [] |} ]};
       events := [] |} in
  answer (20000 * 86400)%Z {| code := "FAKE999999Z"; location := None |} sampleStore
  = Some (Fake, 1%Q)
  /\ answer (20001 * 86400)%Z {| code := "MED597233X"; location := None |} sampleStore
     = Some (Expired, (99 # 100)%Q)
  /\ answer (20000 * 86400)%Z {| code := "MED597233X"; location := None |} sampleStore
     = Some (Valid, (97 # 100)%Q)
  /\ answer (20000 * 86400)%Z {| code := "MED597233X"; location := None |} busy
     = Some (Suspected, (79 # 100)%Q).
Proof. repeat split; vm_compute; reflexivity. Qed.

(** C4: a verification whose lookup finds a record calls [recordScan]
    once, for the code of the request: the scan count of that record goes
    up by one and no other record changes, whether the status is Expired,
    Suspected or Valid.  A verification of an unknown code is answered
    Fake, never calls [recordScan] and leaves the registry as it is. *)
Theorem scan_recorded_once (cfg : Config) (deps : Scorer) (now : Z)
  (req : Request) (st : Store) :
  exists resp st' tr,
    verify cfg deps now req st = (Run.Normal resp, st', tr)
    /\ match lookup (code req) (registry st) with
       | Some r =>
           List.filter isRecordScan tr = [RecordScan (code req)]
           /\ registry st' !! code req = Some (scanned r)
           /\ scanCount (scanned r) = S (scanCount r)
           /\ (forall other, other <> code req ->
                             registry st' !! other = registry st !! other)
           /\ (status resp = Expired \/ status resp = Suspected
               \/ status resp = Valid)
       | None =>
           List.filter isRecordScan tr = []
           /\ registry st' = registry st
           /\ status resp = Fake
       end.
Proof.
  destruct (verify_status cfg deps now req st)
    as (resp & st' & tr & Hrun & Hs).
  exists resp, st', tr. split; [exact Hrun|].
  destruct (verify_spelled cfg deps now req st) as (resp' & Hrun' & _).
  rewrite Hrun in Hrun'. injection Hrun' as _ -> ->.
  rewrite Hs. unfold lookup in *.
  destruct (registry st !! code req) as [r|] eqn:Hfound; cbn [registry].
  - split; [reflexivity|]. split.
    { unfold recordScan. rewrite lookup_alter_eq, Hfound. reflexivity. }
    split; [reflexivity|]. split.
    { intros other Hne. unfold recordScan. now rewrite lookup_alter_ne. }
    cbv zeta. destruct (isExpired _); [auto|]. destruct (exceeds _ _); auto.
  - auto.
Qed.

End EngineFacts.

(** ** Statistics and AdminDashboard *)

Section StatsFacts.
Import JsString Engine Json Stats AdminDashboard.
















(** When both requests resolve, [fetchData] stores the two bodies and ends
    the loading state. *)
Lemma fetchData_resolved (env : Environment) (s : State) (entries doc : json) :
  get_ env (API env +++ "/logs") = Resolved entries ->
  get_ env (API env +++ "/stats") = Resolved doc ->
  Run.final (fetchData env s)
  = {| logs := entries; stats := doc; loading := false; refreshing := false |}.
Proof.
  intros Hlogs Hstats.
  unfold fetchData, Run.try_catch_finally, axios_get_both, mbind, mret,
    prog_bind, prog_ret, Run.bind, Run.emit, Run.ret, Run.modify, Run.throw,
    Run.final.
  simpl. rewrite Hlogs, Hstats. reflexivity.
Qed.






End StatsFacts.

(** * Further properties of the components *)

(** ** Strings *)

Section MoreStringFacts.
Import JsString.

Lemma eqb_eq (a b : jsstring) : eqb a b = true <-> a = b.
Proof.
  revert b. induction a as [|x a IH]; intros [|y b]; simpl; try easy.
  rewrite andb_true_iff, N.eqb_eq, IH. split.
  - now intros [-> ->].
  - now intros [= -> ->].
Qed.

Lemma trimStart_head (s : jsstring) (u : N) :
  head (trimStart s) = Some u -> isWhiteSpace u = false.
Proof.
  induction s as [|x s IH]; simpl; [easy|].
  destruct (isWhiteSpace x) eqn:Hx; [assumption|].
  simpl. now intros [= <-].
Qed.

Lemma trimStart_fixed (s : jsstring) :
  (forall u, head s = Some u -> isWhiteSpace u = false) -> trimStart s = s.
Proof.
  destruct s as [|x s]; simpl; [reflexivity|].
  intros H. now rewrite (H x eq_refl).
Qed.

Lemma trimEnd_head (s : jsstring) (u : N) :
  isWhiteSpace u = false -> head s = Some u -> head (trimEnd s) = Some u.
Proof.
  destruct s as [|x s]; simpl; [easy|].
  intros Hu [= ->]. now rewrite Hu.
Qed.

Lemma trimEnd_last (s : jsstring) (u : N) :
  last (trimEnd s) = Some u -> isWhiteSpace u = false.
Proof.
  induction s as [|x s IH]; simpl; [easy|].
  destruct (isWhiteSpace x && isEmpty (trimEnd s)) eqn:E; [easy|].
  rewrite last_cons. destruct (last (trimEnd s)) as [y|] eqn:Hl.
  - intros [= <-]. now apply IH.
  - intros [= <-]. apply last_None in Hl. rewrite Hl in E.
    simpl in E. now rewrite andb_true_r in E.
Qed.

Lemma trimEnd_idempotent (s : jsstring) : trimEnd (trimEnd s) = trimEnd s.
Proof.
  induction s as [|x s IH]; simpl; [reflexivity|].
  destruct (isWhiteSpace x && isEmpty (trimEnd s)) eqn:E; [reflexivity|].
  simpl. now rewrite IH, E.
Qed.

(** What [trim] returns has no white space at either end, and [trim]
    leaves it as it is. *)
Lemma trim_ends (s : jsstring) :
  (forall u, head (trim s) = Some u -> isWhiteSpace u = false)
  /\ (forall u, last (trim s) = Some u -> isWhiteSpace u = false)
  /\ trim (trim s) = trim s.
Proof.
  unfold trim.
  assert (Hh : forall u, head (trimEnd (trimStart s)) = Some u -> isWhiteSpace u = false).
  { intros u H. apply trimEnd_head_inv in H. now apply trimStart_head in H. }
  split; [exact Hh|]. split; [intros u; apply trimEnd_last|].
  rewrite (trimStart_fixed _ Hh). apply trimEnd_idempotent.
Qed.

End MoreStringFacts.

(** ** HomePage *)

Section MoreHomePageFacts.
Import JsString HomePage.

(** X1: once the calls that a submission awaits have settled, the
    [finally] block has run whatever they gave: the page is no longer
    loading, the field keeps its text, and a result is shown, the answer or
    the error object; what was shown or loading before the submission
    plays no part in it. *)
Theorem settled_verification_stops_loading (env : Environment) (s : State) :
  blank (batchCode s) = false ->
  Run.final (handleVerify env s)
  = {| batchCode := batchCode s; loading := false;
       result := Some (shown (post env (API env +++ "/verify") (requestBody env s))) |}
  /\ (forall r b,
        Run.final (handleVerify env (setLoading b (setResult r s)))
        = Run.final (handleVerify env s)).
Proof.
  intros Hb. destruct (handleVerify_sent env s Hb) as [_ Hfinal].
  rewrite Hfinal. split; [reflexivity|].
  intros r b.
  destruct (handleVerify_sent env (setLoading b (setResult r s)) Hb) as [_ ->].
  reflexivity.
Qed.

Lemma settled_verification_stops_loading_witness :
  blank (batchCode (setLoading true (setBatchCode "MED597233X" initial))) = false
  /\ Run.final (handleVerify offline
                  (setLoading true (setBatchCode "MED597233X" initial)))
     = {| batchCode := "MED597233X"; loading := false; result := Some errorResult |}.
Proof.
  split; [reflexivity|].
  apply (settled_verification_stops_loading offline
           (setLoading true (setBatchCode "MED597233X" initial)) eq_refl).
Defined.

(** X2: every submission shows exactly one toast and sends at most one
    request; [console.error] is called exactly when a request went out
    and either was rejected or was answered with a body that cannot be
    read. *)
Theorem one_toast_per_submission (env : Environment) (s : State) :
  List.length (List.filter isToast (Run.trace (handleVerify env s))) = 1%nat
  /\ (List.length (posts (Run.trace (handleVerify env s))) <= 1)%nat
  /\ (List.filter isConsoleError (Run.trace (handleVerify env s)) <> []
      <-> blank (batchCode s) = false
          /\ (post env (API env +++ "/verify") (requestBody env s) = Rejected
              \/ post env (API env +++ "/verify") (requestBody env s) = Unreadable)).
Proof.
  destruct (blank (batchCode s)) eqn:Hb.
  - rewrite (handleVerify_blank env s Hb). unfold Run.trace. simpl.
    repeat split; try lia; try easy; try (now intros [? _]).
  - rewrite (handleVerify_run env s Hb). unfold Run.trace. cbn [snd].
    destruct (geolocation env) as [o|], (post env _ _) as [data| |]; simpl;
      unfold announcement;
      try (destruct (includes (status data) "Valid");
           [|destruct (includes (status data) "Expired")]);
      simpl; repeat split; try lia; try easy; auto;
      try (now intros [_ [?|?]]).
Qed.

(** X3: the icon and the colour of a status always belong together, and
    both follow the first label found in the order Valid, Expired, Fake,
    Suspected; a status with none of them gets the shield on gray. *)
Theorem status_icon_matches_colour (status : jsstring) :
  match fst (getStatusIcon status) with
  | CheckCircle =>
      includes status "Valid" = true
      /\ getStatusColor status
         = "bg-emerald-50 border-emerald-200 text-emerald-800"
  | AlertCircle =>
      includes status "Valid" = false /\ includes status "Expired" = true
      /\ getStatusColor status = "bg-amber-50 border-amber-200 text-amber-800"
  | XCircle =>
      includes status "Valid" = false /\ includes status "Expired" = false
      /\ includes status "Fake" = true
      /\ getStatusColor status = "bg-red-50 border-red-200 text-red-800"
  | HelpCircle =>
      includes status "Valid" = false /\ includes status "Expired" = false
      /\ includes status "Fake" = false /\ includes status "Suspected" = true
      /\ getStatusColor status
         = "bg-orange-50 border-orange-200 text-orange-800"
  | Shield =>
      includes status "Valid" = false /\ includes status "Expired" = false
      /\ includes status "Fake" = false /\ includes status "Suspected" = false
      /\ getStatusColor status = "bg-gray-50 border-gray-200 text-gray-800"
  end.
Proof.
  unfold getStatusIcon, getStatusColor.
  destruct (includes status "Valid"); [now split|].
  destruct (includes status "Expired"); [now repeat split|].
  destruct (includes status "Fake"); [now repeat split|].
  destruct (includes status "Suspected"); now repeat split.
Qed.

Lemma announcement_icon (data : VerifyResult) :
  announcement data
  = match fst (getStatusIcon (status data)) with
    | CheckCircle => ToastSuccess "Medicine verified as authentic!"
    | AlertCircle => ToastWarning "Medicine is expired!"
    | XCircle | HelpCircle | Shield => ToastError "Medicine verification failed!"
    end.
Proof.
  unfold announcement, getStatusIcon.
  destruct (includes (status data) "Valid"); [reflexivity|].
  destruct (includes (status data) "Expired"); [reflexivity|].
  destruct (includes (status data) "Fake"); [reflexivity|].
  now destruct (includes (status data) "Suspected").
Qed.

(** X4: an answer whose status is a string is stored as it comes, and
    the toast that announces it goes with the icon the answer is then
    drawn with: the success toast with the check mark, the warning with
    the alert sign, and the error toast with every other icon.  An answer
    that cannot be read is not stored: it ends as a rejected request
    does, with the error object and the toast of a failure. *)
Theorem answer_is_announced_by_its_icon (env : Environment) (s : State) :
  blank (batchCode s) = false ->
  match post env (API env +++ "/verify") (requestBody env s) with
  | Resolved data =>
      result (Run.final (handleVerify env s)) = Some data
      /\ List.filter isToast (Run.trace (handleVerify env s))
         = [match fst (getStatusIcon (status data)) with
            | CheckCircle => ToastSuccess "Medicine verified as authentic!"
            | AlertCircle => ToastWarning "Medicine is expired!"
            | XCircle | HelpCircle | Shield =>
                ToastError "Medicine verification failed!"
            end]
  | Rejected | Unreadable =>
      result (Run.final (handleVerify env s)) = Some errorResult
      /\ List.filter isToast (Run.trace (handleVerify env s))
         = [ToastError "Failed to verify medicine. Please try again."]
  end.
Proof.
  intros Hb. rewrite (handleVerify_run env s Hb).
  unfold Run.final, Run.trace. cbn [fst snd].
  destruct (post env _ _) as [data| |]; (split; [reflexivity|]).
  - rewrite <- announcement_icon. unfold announcement.
    destruct (geolocation env) as [o|]; simpl;
      (destruct (includes (status data) "Valid");
       [|destruct (includes (status data) "Expired")]); reflexivity.
  - now destruct (geolocation env).
  - now destruct (geolocation env).
Qed.

Lemma answer_is_announced_by_its_icon_witness :
  blank (batchCode (setBatchCode "MED597233X" initial)) = false
  /\ List.filter isToast
       (Run.trace (handleVerify online (setBatchCode "MED597233X" initial)))
     = [ToastSuccess "Medicine verified as authentic!"]
  /\ result (Run.final (handleVerify garbled (setBatchCode "MED597233X" initial)))
     = Some errorResult.
Proof.
  split; [reflexivity|]. split.
  - apply (answer_is_announced_by_its_icon online
             (setBatchCode "MED597233X" initial) eq_refl).
  - apply (answer_is_announced_by_its_icon garbled
             (setBatchCode "MED597233X" initial) eq_refl).
Defined.

(** X5: the code of every request sent is not empty, has no white space
    at its start or at its end, and trimming it again changes nothing. *)
Theorem submitted_code_is_trimmed (env : Environment) (s : State) (url : jsstring)
  (body : object) :
  In (url, body) (posts (Run.trace (handleVerify env s))) ->
  exists code,
    property body "code" = Some (VString code)
    /\ code <> []
    /\ (forall u, head code = Some u -> isWhiteSpace u = false)
    /\ (forall u, last code = Some u -> isWhiteSpace u = false)
    /\ trim code = code.
Proof.
  intros Hin. destruct (blank (batchCode s)) eqn:Hb.
  - rewrite (handleVerify_blank env s Hb) in Hin. destruct Hin.
  - destruct (handleVerify_sent env s Hb) as [Hposts _].
    rewrite Hposts in Hin. destruct Hin as [[= <- <-]|[]].
    exists (trim (batchCode s)). split; [reflexivity|].
    destruct (trim_ends (batchCode s)) as (Hh & Hl & Hi).
    split; [|auto].
    intros E. pose proof (trim_truthy (batchCode s)) as Ht.
    rewrite E, Hb in Ht. discriminate.
Qed.

Lemma submitted_code_is_trimmed_witness :
  In ("http://localhost:8001/api/verify" : jsstring,
      [entry "code" (VString "MED 1")])
     (posts (Run.trace (handleVerify offline (setBatchCode "  MED 1  " initial))))
  /\ exists code,
       property [entry "code" (VString "MED 1")] "code" = Some (VString code)
       /\ trim code = code.
Proof.
  assert (H : In ("http://localhost:8001/api/verify" : jsstring,
                  [entry "code" (VString "MED 1")])
                 (posts (Run.trace (handleVerify offline
                                      (setBatchCode "  MED 1  " initial)))))
    by (left; reflexivity).
  split; [exact H|].
  destruct (submitted_code_is_trimmed offline _ _ _ H) as (code & Hc & _ & _ & _ & Ht).
  exists code. split; [exact Hc | exact Ht].
Defined.

(** X7: the submit button and the guard agree.  When the button is
    enabled a submission sends its request; on a page that is not loading
    the button is disabled exactly for the codes whose submission sends
    nothing. *)
Theorem enabled_button_sends (env : Environment) (s : State) :
  (submitDisabled s = false ->
   posts (Run.trace (handleVerify env s))
   = [(API env +++ "/verify", requestBody env s)])
  /\ (loading s = false ->
      (submitDisabled s = true <-> posts (Run.trace (handleVerify env s)) = [])).
Proof.
  unfold submitDisabled. rewrite trim_truthy, negb_involutive.
  destruct (blank (batchCode s)) eqn:Hb.
  - rewrite (handleVerify_blank env s Hb). unfold Run.trace. simpl. split.
    + now rewrite orb_true_r.
    + intros ->. now split.
  - destruct (handleVerify_sent env s Hb) as [-> _]. split; [reflexivity|].
    intros ->. now split.
Qed.

End MoreHomePageFacts.

(** ** AdminLogin *)

Section MoreAdminLoginFacts.
Import JsString AdminLogin.

(** A submission with both fields filled, spelled out. *)
Lemma handleSubmit_run (env : Environment) (form : State) :
  truthy (username (credentials form)) = true ->
  truthy (password (credentials form)) = true ->
  handleSubmit env form
  = (Run.Normal (), setLoading false form,
     PreventDefault
     :: AxiosPost (API env +++ "/admin/login") (credentials form)
     :: match post env (API env +++ "/admin/login") (credentials form) with
        | Resolved data =>
            if success data then
              [ToastSuccess "Login successful!"; OnLogin (token data)]
            else [ToastError (or_else (message data) "Login failed")]
        | Rejected =>
            [ConsoleError "Login error:";
             ToastError "Login failed. Please check your credentials."]
        end).
Proof.
  intros Hu Hp.
  unfold handleSubmit, mbind, prog_bind, Run.bind, Run.get, Run.emit.
  simpl. rewrite Hu, Hp. simpl.
  unfold Run.try_catch_finally, axios_post, mbind, mret, prog_bind, prog_ret,
    Run.bind, Run.emit, Run.ret, Run.modify, Run.throw. simpl.
  destruct (post env _ _) as [data|]; simpl; [|reflexivity].
  now destruct (success data).
Qed.

(** A submission with a field left empty, spelled out. *)
Lemma handleSubmit_incomplete (env : Environment) (form : State) :
  truthy (username (credentials form)) = false
  \/ truthy (password (credentials form)) = false ->
  handleSubmit env form
  = (Run.Normal (), form,
     [PreventDefault; ToastError "Please enter both username and password"]).
Proof.
  intros H.
  unfold handleSubmit, mbind, prog_bind, Run.bind, Run.get, Run.emit. simpl.
  destruct H as [-> | ->]; simpl; [reflexivity|].
  now rewrite orb_true_r.
Qed.

(** X8: with the username or the password empty nothing is sent: the
    handler shows its toast and does nothing else, the form is left as it
    is, and [onLogin] is not called. *)
Theorem empty_credentials_are_not_sent (env : Environment) (form : State) :
  truthy (username (credentials form)) = false
  \/ truthy (password (credentials form)) = false ->
  Run.trace (handleSubmit env form)
  = [PreventDefault; ToastError "Please enter both username and password"]
  /\ posts (Run.trace (handleSubmit env form)) = []
  /\ List.filter isOnLogin (Run.trace (handleSubmit env form)) = []
  /\ Run.final (handleSubmit env form) = form.
Proof.
  intros H. rewrite (handleSubmit_incomplete env form H). now repeat split.
Qed.

Lemma empty_credentials_are_not_sent_witness :
  (truthy (username {| username := "admin"; password := "" |}) = false
   \/ truthy (password {| username := "admin"; password := "" |}) = false)
  /\ posts (Run.trace
       (handleSubmit (refusing None)
          {| credentials := {| username := "admin"; password := "" |};
             loading := false |})) = [].
Proof.
  split; [right; reflexivity|].
  apply (empty_credentials_are_not_sent (refusing None)
           {| credentials := {| username := "admin"; password := "" |};
              loading := false |} (or_intror eq_refl)).
Defined.

(** X9: with both fields filled exactly one request goes to
    [/api/admin/login], carrying the credentials as typed, white space
    included; whatever the answer, the form ends not loading and with the
    same credentials. *)
Theorem credentials_are_sent_as_typed (env : Environment) (form : State) :
  truthy (username (credentials form)) = true ->
  truthy (password (credentials form)) = true ->
  posts (Run.trace (handleSubmit env form))
  = [(API env +++ "/admin/login", credentials form)]
  /\ loading (Run.final (handleSubmit env form)) = false
  /\ credentials (Run.final (handleSubmit env form)) = credentials form.
Proof.
  intros Hu Hp. rewrite (handleSubmit_run env form Hu Hp).
  unfold Run.trace, Run.final. simpl.
  destruct (post env _ _) as [data|]; [destruct (success data)|]; now repeat split.
Qed.

Lemma credentials_are_sent_as_typed_witness :
  truthy (username {| username := " admin "; password := " " |}) = true
  /\ truthy (password {| username := " admin "; password := " " |}) = true
  /\ posts (Run.trace
       (handleSubmit (refusing None)
          {| credentials := {| username := " admin "; password := " " |};
             loading := false |}))
     = [("http://localhost:8001/api/admin/login" : jsstring,
         {| username := " admin "; password := " " |})].
Proof.
  split; [reflexivity|]. split; [reflexivity|].
  apply (credentials_are_sent_as_typed (refusing None)
           {| credentials := {| username := " admin "; password := " " |};
              loading := false |} eq_refl eq_refl).
Defined.

(** X10: every submission of the sign-in form shows exactly one toast;
    [onLogin] is called at most once, and when it is called it is the last
    thing the handler does, right after the success toast. *)
Theorem one_toast_per_login_attempt (env : Environment) (form : State) :
  List.length (List.filter isToast (Run.trace (handleSubmit env form))) = 1%nat
  /\ (List.length (List.filter isOnLogin (Run.trace (handleSubmit env form))) <= 1)%nat
  /\ (forall token,
        In (OnLogin token) (Run.trace (handleSubmit env form)) ->
        exists before,
          Run.trace (handleSubmit env form)
          = before ++ [ToastSuccess "Login successful!"; OnLogin token]).
Proof.
  destruct (truthy (username (credentials form))) eqn:Hu;
    [destruct (truthy (password (credentials form))) eqn:Hp|].
  - rewrite (handleSubmit_run env form Hu Hp). unfold Run.trace. cbn [snd].
    destruct (post env _ _) as [data|]; [destruct (success data)|]; simpl.
    + repeat split; try lia.
      intros token [[=]|[[=]|[[=]|[[= <-]|[]]]]].
      now exists [PreventDefault; AxiosPost (API env +++ "/admin/login") (credentials form)].
    + repeat split; try lia. intros token [[=]|[[=]|[[=]|[]]]].
    + repeat split; try lia. intros token [[=]|[[=]|[[=]|[[=]|[]]]]].
  - rewrite (handleSubmit_incomplete env form (or_intror Hp)).
    unfold Run.trace. simpl. repeat split; try lia.
    intros token [[=]|[[=]|[]]].
  - rewrite (handleSubmit_incomplete env form (or_introl Hu)).
    unfold Run.trace. simpl. repeat split; try lia.
    intros token [[=]|[[=]|[]]].
Qed.

(** X11: [handleChange] writes one field and leaves the other: the field
    written reads back as typed, a second write to the same field wins,
    and writes to the two fields can be made in either order. *)
Theorem handleChange_updates_one_field (s : State) (v w : jsstring) :
  let after f x st := Run.final (handleChange f x st) in
  username (credentials (after Username v s)) = v
  /\ password (credentials (after Username v s)) = password (credentials s)
  /\ password (credentials (after Password v s)) = v
  /\ username (credentials (after Password v s)) = username (credentials s)
  /\ after Username w (after Username v s) = after Username w s
  /\ after Password w (after Password v s) = after Password w s
  /\ after Username v (after Password w s) = after Password w (after Username v s)
  /\ loading (after Username v s) = loading s
  /\ loading (after Password v s) = loading s.
Proof. repeat split. Qed.

(** X12: a sign-in that the server refuses is reported with the message of
    the answer, or with "Login failed" when the message is missing or
    empty, so that the toast is never empty; [onLogin] is not called. *)
Theorem refused_login_is_reported (env : Environment) (form : State)
  (data : LoginData) :
  truthy (username (credentials form)) = true ->
  truthy (password (credentials form)) = true ->
  post env (API env +++ "/admin/login") (credentials form) = Resolved data ->
  success data = false ->
  exists text,
    Run.trace (handleSubmit env form)
    = [PreventDefault;
       AxiosPost (API env +++ "/admin/login") (credentials form);
       ToastError text]
    /\ text <> []
    /\ (forall m, message data = Some m -> m <> [] -> text = m)
    /\ (message data = None \/ message data = Some [] -> text = "Login failed").
Proof.
  intros Hu Hp Hpost Hs. exists (or_else (message data) "Login failed").
  rewrite (handleSubmit_run env form Hu Hp), Hpost, Hs. unfold Run.trace.
  split; [reflexivity|]. unfold or_else. split; [|split].
  - destruct (message data) as [[|u m]|]; simpl; discriminate.
  - intros m -> Hm. now destruct m.
  - now intros [-> | ->].
Qed.

Lemma refused_login_is_reported_witness :
  truthy (username {| username := "admin"; password := "guess" |}) = true
  /\ truthy (password {| username := "admin"; password := "guess" |}) = true
  /\ post (refusing (Some [])) (API (refusing (Some [])) +++ "/admin/login")
          {| username := "admin"; password := "guess" |}
     = Resolved {| success := false; token := None; message := Some [] |}
  /\ exists text,
       Run.trace (handleSubmit (refusing (Some []))
                    {| credentials := {| username := "admin"; password := "guess" |};
                       loading := false |})
       = [PreventDefault;
          AxiosPost (API (refusing (Some [])) +++ "/admin/login")
                    {| username := "admin"; password := "guess" |};
          ToastError text]
       /\ text = "Login failed".
Proof.
  split; [reflexivity|]. split; [reflexivity|]. split; [reflexivity|].
  destruct (refused_login_is_reported (refusing (Some []))
              {| credentials := {| username := "admin"; password := "guess" |};
                 loading := false |}
              {| success := false; token := None; message := Some [] |}
              eq_refl eq_refl eq_refl eq_refl)
    as (text & Htrace & _ & _ & Hdefault).
  exists text. split; [exact Htrace|]. apply Hdefault. now right.
Defined.

End MoreAdminLoginFacts.

(** ** App *)

Section MoreAppFacts.
Import JsString App.

(** What a submission of the sign-in form does to [App]. *)
Lemma step_granted (s : State) (form : AdminLogin.State) (env : AdminLogin.Environment) :
  match granted (SubmitLogin form env) with
  | Some token =>
      step s (SubmitLogin form env) = handleAdminLogin token s
      /\ exists data,
           AdminLogin.post env (AdminLogin.API env +++ "/admin/login")
                           (AdminLogin.credentials form) = AdminLogin.Resolved data
           /\ AdminLogin.success data = true
           /\ AdminLogin.token data = token
           /\ truthy (AdminLogin.username (AdminLogin.credentials form)) = true
           /\ truthy (AdminLogin.password (AdminLogin.credentials form)) = true
  | None => step s (SubmitLogin form env) = s
  end.
Proof.
  unfold granted, step.
  destruct (truthy (AdminLogin.username (AdminLogin.credentials form))) eqn:Hu;
    [destruct (truthy (AdminLogin.password (AdminLogin.credentials form))) eqn:Hp|].
  - rewrite (handleSubmit_run env form Hu Hp). unfold Run.trace. cbn [snd].
    destruct (AdminLogin.post env _ _) as [data|] eqn:Hpost;
      [destruct (AdminLogin.success data) eqn:Hs|]; simpl; try reflexivity.
    split; [reflexivity|]. exists data. auto.
  - now rewrite (handleSubmit_incomplete env form (or_intror Hp)).
  - now rewrite (handleSubmit_incomplete env form (or_introl Hu)).
Qed.

(** X13: the token is kept only while the admin is signed in, and it is
    the token of the sign-in that opened the session.  With the flag false
    the token is [null].  With the flag true the token is the one handed
    over by the last submission that called [onLogin], a submission with
    both fields filled and answered with [success: true], and no logout
    came after it. *)
Theorem token_belongs_to_session (evs : list event) :
  (isAdminAuthenticated (run evs) = false -> adminToken (run evs) = None)
  /\ (isAdminAuthenticated (run evs) = true ->
      exists before form env data after,
        evs = before ++ SubmitLogin form env :: after
        /\ AdminLogin.post env (AdminLogin.API env +++ "/admin/login")
                           (AdminLogin.credentials form) = AdminLogin.Resolved data
        /\ AdminLogin.success data = true
        /\ truthy (AdminLogin.username (AdminLogin.credentials form)) = true
        /\ truthy (AdminLogin.password (AdminLogin.credentials form)) = true
        /\ adminToken (run evs) = AdminLogin.token data
        /\ Forall (fun e => e <> ClickLogout /\ granted e = None) after).
Proof.
  induction evs as [|ev evs IH] using rev_ind; [split; [reflexivity | discriminate]|].
  rewrite run_snoc. destruct ev as [|form env].
  - split; [reflexivity | discriminate].
  - pose proof (step_granted (run evs) form env) as Hstep.
    destruct (granted (SubmitLogin form env)) as [token|] eqn:Hg.
    + destruct Hstep as (-> & data & Hpost & Hs & Htok & Hu & Hp).
      split; [discriminate|]. intros _.
      exists evs, form, env, data, []. repeat split; auto.
    + rewrite Hstep. destruct IH as [IHf IHt]. split; [exact IHf|].
      intros Hauth.
      destruct (IHt Hauth)
        as (before & f & e & d & after & -> & Hpost & Hs & Hu & Hp & Htok & Hafter).
      exists before, f, e, d, (after ++ [SubmitLogin form env]).
      split; [now rewrite <- app_assoc|]. repeat split; try assumption.
      apply Forall_app. split; [assumption|]. constructor; [|constructor].
      split; [discriminate | exact Hg].
Qed.

(** X14: the two admin routes never send the browser in a circle.  In
    every state exactly one of [/admin] and [/admin/login] renders its own
    component and the other redirects to it, so a redirection is followed
    by a component; [/] always renders the home page. *)
Theorem redirects_settle (s : State) :
  route s Root = HomePageElement
  /\ (forall p q, route s p = Navigate q ->
                  route s q <> HomePageElement
                  /\ forall q', route s q <> Navigate q')
  /\ (route s Admin = AdminDashboardElement
      /\ route s AdminLoginPath = Navigate Admin
      \/ route s AdminLoginPath = AdminLoginElement
         /\ route s Admin = Navigate AdminLoginPath).
Proof.
  split; [reflexivity|]. split.
  - intros p q. destruct p; simpl; destruct (isAdminAuthenticated s) eqn:Ha;
      try discriminate; intros [= <-]; simpl; rewrite Ha; split; discriminate.
  - simpl. destruct (isAdminAuthenticated s); auto.
Qed.

(** X15: only a sign-in that is granted changes what [App] holds.  A
    logout always gives back the first state; a submission that does not
    call [onLogin], be it refused, rejected or incomplete, changes
    nothing, so it neither opens a session nor closes one. *)
Theorem failed_login_changes_nothing (s : State) (ev : event) :
  granted ev = None ->
  match ev with
  | ClickLogout => step s ev = initial
  | SubmitLogin _ _ => step s ev = s
  end.
Proof.
  destruct ev as [|form env]; [reflexivity|]. intros Hg.
  pose proof (step_granted s form env) as Hstep. now rewrite Hg in Hstep.
Qed.

Lemma failed_login_changes_nothing_witness :
  granted (SubmitLogin
             {| AdminLogin.credentials :=
                  {| AdminLogin.username := "admin"; AdminLogin.password := "guess" |};
                AdminLogin.loading := false |}
             (AdminLogin.refusing None)) = None
  /\ step (handleAdminLogin (Some ("t" : jsstring)) initial)
          (SubmitLogin
             {| AdminLogin.credentials :=
                  {| AdminLogin.username := "admin"; AdminLogin.password := "guess" |};
                AdminLogin.loading := false |}
             (AdminLogin.refusing None))
     = handleAdminLogin (Some ("t" : jsstring)) initial.
Proof.
  split; [reflexivity|].
  apply (failed_login_changes_nothing
           (handleAdminLogin (Some ("t" : jsstring)) initial)
           (SubmitLogin
              {| AdminLogin.credentials :=
                   {| AdminLogin.username := "admin"; AdminLogin.password := "guess" |};
                 AdminLogin.loading := false |}
              (AdminLogin.refusing None)) eq_refl).
Defined.

End MoreAppFacts.

(** ** AdminDashboard *)

Section MoreAdminDashboardFacts.
Import JsString Json AdminDashboard.

(** One run of [fetchData], spelled out. *)
Lemma fetchData_run (env : Environment) (s : State) :
  fetchData env s
  = (Run.Normal (),
     match get_ env (API env +++ "/logs"), get_ env (API env +++ "/stats") with
     | Resolved entries, Resolved doc =>
         {| logs := entries; stats := doc; loading := false; refreshing := false |}
     | _, _ =>
         {| logs := logs s; stats := stats s; loading := false; refreshing := false |}
     end,
     AxiosGet (API env +++ "/logs")
     :: AxiosGet (API env +++ "/stats")
     :: match get_ env (API env +++ "/logs"), get_ env (API env +++ "/stats") with
        | Resolved _, Resolved _ => []
        | _, _ => [ConsoleError "Error fetching data:";
                   ToastError "Failed to load dashboard data"]
        end).
Proof.
  unfold fetchData, Run.try_catch_finally, axios_get_both, mbind, mret,
    prog_bind, prog_ret, Run.bind, Run.emit, Run.ret, Run.modify, Run.throw.
  simpl.
  destruct (get_ env (API env +++ "/logs")), (get_ env (API env +++ "/stats"));
    reflexivity.
Qed.

(** X16: the first load and every refresh send the two requests,
    [/api/logs] then [/api/stats], and no other; once both have settled,
    resolved or rejected, the [finally] block leaves the component neither
    loading nor refreshing, and a refresh ends in the state in which the
    first load ends. *)
Theorem settled_load_stops_loading (env : Environment) (s : State) :
  (exists rest,
      Run.trace (mount env s)
      = AxiosGet (API env +++ "/logs") :: AxiosGet (API env +++ "/stats") :: rest
      /\ Forall (fun e => match e with AxiosGet _ => False | _ => True end) rest)
  /\ loading (Run.final (mount env s)) = false
  /\ refreshing (Run.final (mount env s)) = false
  /\ Run.trace (handleRefresh env s) = Run.trace (mount env s)
  /\ Run.final (handleRefresh env s) = Run.final (mount env s).
Proof.
  unfold mount, handleRefresh, mbind, prog_bind, Run.bind, Run.modify.
  cbn iota beta. rewrite !fetchData_run. unfold Run.trace, Run.final. simpl.
  destruct (get_ env (API env +++ "/logs")), (get_ env (API env +++ "/stats"));
    simpl; (split; [eexists; split; [reflexivity | repeat constructor]|]);
    repeat split.
Qed.

(** X17: the logs and the statistics are replaced together or not at all.
    When both requests resolve the two bodies are stored and nothing is
    reported; when either is rejected both keep what they held and the
    failure is reported by one toast. *)
Theorem dashboard_load_is_all_or_nothing (env : Environment) (s : State) :
  match get_ env (API env +++ "/logs"), get_ env (API env +++ "/stats") with
  | Resolved entries, Resolved doc =>
      logs (Run.final (fetchData env s)) = entries
      /\ stats (Run.final (fetchData env s)) = doc
      /\ Run.trace (fetchData env s)
         = [AxiosGet (API env +++ "/logs"); AxiosGet (API env +++ "/stats")]
  | _, _ =>
      logs (Run.final (fetchData env s)) = logs s
      /\ stats (Run.final (fetchData env s)) = stats s
      /\ Run.trace (fetchData env s)
         = [AxiosGet (API env +++ "/logs"); AxiosGet (API env +++ "/stats");
            ConsoleError "Error fetching data:";
            ToastError "Failed to load dashboard data"]
  end.
Proof.
  rewrite fetchData_run. unfold Run.trace, Run.final. simpl.
  destruct (get_ env (API env +++ "/logs")), (get_ env (API env +++ "/stats"));
    repeat split.
Qed.

(** X18: a first load that fails does not break the dashboard.  Before the
    answer the loading screen is rendered; after a rejected request the
    dashboard is rendered without cards and without chart data, and the
    list of logs shows its placeholder. *)
Theorem failed_first_load_renders_empty (env : Environment) :
  get_ env (API env +++ "/logs") = Rejected
  \/ get_ env (API env +++ "/stats") = Rejected ->
  render initial = Run.Normal LoadingView
  /\ render (Run.final (mount env initial))
     = Run.Normal (DashboardView None None None)
  /\ renderLogs (logs (Run.final (mount env initial))) = Run.Normal NoLogs.
Proof.
  intros H. split; [reflexivity|].
  unfold mount. rewrite fetchData_run. unfold Run.final. cbn [fst snd].
  destruct H as [-> | ->]; [|destruct (get_ env (API env +++ "/logs"))];
    split; reflexivity.
Qed.

Lemma failed_first_load_renders_empty_witness :
  (get_ unreachable (API unreachable +++ "/logs") = Rejected
   \/ get_ unreachable (API unreachable +++ "/stats") = Rejected)
  /\ render (Run.final (mount unreachable initial))
     = Run.Normal (DashboardView None None None).
Proof.
  split; [left; reflexivity|].
  apply (failed_first_load_renders_empty unreachable (or_introl eq_refl)).
Defined.

Lemma equals_spec (v : value) (text : jsstring) :
  equals v text = true <-> v = Some (JString text).
Proof.
  unfold equals. destruct v as [[]|]; try (split; [discriminate | intros [=]]).
  rewrite eqb_eq. split; [now intros -> | now intros [= ->]].
Qed.

(** X19: the dashboard knows a status only by its exact lower-case name.
    A status gets a sign exactly when it is the string valid, expired,
    fake or suspected; every other value, a different spelling or case
    included, gets no sign and the variant of a valid one.  The four
    known statuses get four different signs, and all but valid their own
    variant. *)
Theorem dashboard_status_is_matched_exactly (status : value) :
  (getStatusIcon status <> None
   <-> exists name : string,
         In name ["valid"; "expired"; "fake"; "suspected"]
         /\ status = Some (JString name))
  /\ (getStatusIcon status = None -> getStatusBadgeVariant status = "default")
  /\ (getStatusBadgeVariant status = "default"
      <-> status = Some (JString "valid") \/ getStatusIcon status = None)
  /\ NoDup ((fun name : string => getStatusIcon (Some (JString name)))
              <$> ["valid"; "expired"; "fake"; "suspected"]).
Proof.
  unfold getStatusIcon, getStatusBadgeVariant.
  destruct (equals status "valid") eqn:E1.
  { apply equals_spec in E1. subst status. split; [|split; [|split]].
    - split; [intros _; exists "valid"; split; [now left | reflexivity] | discriminate].
    - discriminate.
    - split; [now left | reflexivity].
    - apply NoDup_ListNoDup. repeat constructor; simpl; intuition discriminate. }
  destruct (equals status "expired") eqn:E2.
  { apply equals_spec in E2. subst status. split; [|split; [|split]].
    - split; [intros _; exists "expired"; split; [now right; left | reflexivity] | discriminate].
    - discriminate.
    - split; [discriminate | intros [[=]|[=]]].
    - apply NoDup_ListNoDup. repeat constructor; simpl; intuition discriminate. }
  destruct (equals status "fake") eqn:E3.
  { apply equals_spec in E3. subst status. split; [|split; [|split]].
    - split; [intros _; exists "fake"; split; [now right; right; left | reflexivity] | discriminate].
    - discriminate.
    - split; [discriminate | intros [[=]|[=]]].
    - apply NoDup_ListNoDup. repeat constructor; simpl; intuition discriminate. }
  destruct (equals status "suspected") eqn:E4.
  { apply equals_spec in E4. subst status. split; [|split; [|split]].
    - split; [intros _; exists "suspected"; split; [now right; right; right; left | reflexivity] | discriminate].
    - discriminate.
    - split; [discriminate | intros [[=]|[=]]].
    - apply NoDup_ListNoDup. repeat constructor; simpl; intuition discriminate. }
  split; [|split; [|split]].
  - split; [congruence|]. intros (name & Hin & ->). exfalso.
    destruct Hin as [<-|[<-|[<-|[<-|[]]]]];
      [rewrite (proj2 (equals_spec _ _) eq_refl) in E1
      |rewrite (proj2 (equals_spec _ _) eq_refl) in E2
      |rewrite (proj2 (equals_spec _ _) eq_refl) in E3
      |rewrite (proj2 (equals_spec _ _) eq_refl) in E4]; discriminate.
  - reflexivity.
  - split; [now right | reflexivity].
  - apply NoDup_ListNoDup. repeat constructor; simpl; intuition discriminate.
Qed.








(** A list of logs as the server sends it, one with a coordinate written
    as a text, and one with an object as reason. *)
Lemma logs_list_examples :
  let log place reason :=
    JObject [entry "id" (JString "7"); entry "batch_code" (JString "MED597233X");
             entry "status" (JString "valid"); entry "reason" reason;
             entry "confidence" (JNumber 1); entry "location" place;
             entry "timestamp" (JString "2022-01-08T10:00:00")] in
  let at_ lat := JObject [entry "lat" lat; entry "lng" (JNumber 77)] in
  (exists rows, showLogs (JArray [log (at_ (JNumber 12)) (JString "valid");
                                  log JNull (JString "valid")])
                = Run.Normal (LogRows rows)
                /\ List.length rows = 2%nat)
  /\ renderLogs (JArray [log (at_ (JString "12.5")) (JString "valid")]) = Run.Throw
  /\ (exists rows, renderLogs (JArray [log JNull (JObject [])])
                   = Run.Normal (LogRows rows))
  /\ showLogs (JArray [log JNull (JObject [])]) = Run.Throw.
Proof.
  repeat split; try (eexists; split); try eexists; vm_compute; reflexivity.
Qed.

Lemma keys_values_length (v : value) (ks : list jsstring) (vs : list json) :
  keys v = Run.Normal ks -> values v = Run.Normal vs ->
  List.length ks = List.length vs.
Proof.
  destruct v as [[]|]; simpl; try discriminate; intros [= <-] [= <-];
    unfold indices, chars; rewrite ?length_fmap, ?length_seq; reflexivity.
Qed.

(** X21: the pie chart has one label per figure, whatever the server
    sends as [status_distribution].  With no statistics yet there is no
    chart data; with statistics, computing the chart throws exactly when
    [status_distribution] is missing or [null].  For an object the labels
    are its keys, in the order in which JavaScript enumerates them, each
    with its first code unit upper-cased, and the figures are the values
    in the same order. *)
Theorem pie_chart_labels_match_data :
  pieChartData JNull = Run.Normal None
  /\ (forall stats chart,
        pieChartData stats = Run.Normal (Some chart) ->
        List.length (labels chart) = List.length (data chart))
  /\ (forall fields,
        pieChartData (JObject fields) = Run.Throw
        <-> field fields "status_distribution" = None
            \/ field fields "status_distribution" = Some JNull)
  /\ (forall fields distribution,
        field fields "status_distribution" = Some (JObject distribution) ->
        pieChartData (JObject fields)
        = Run.Normal (Some {| labels := Text ∘ capitalize ∘ fst <$> own distribution;
                              data := Some ∘ snd <$> own distribution |}))
  /\ (forall u rest, capitalize (u :: rest) = toUpperCase [u] ++ rest)
  /\ capitalize "valid" = "Valid"
  /\ capitalize "ßeta" = "SSeta"
  /\ capitalize "𐐨a" = "𐐨a"
  /\ own [entry "b" (JNumber 1); entry "10" (JNumber 2); entry "2" (JNumber 3);
          entry "b" (JNumber 4); entry "01" (JNumber 5)]
     = [entry "2" (JNumber 3); entry "10" (JNumber 2); entry "b" (JNumber 4);
        entry "01" (JNumber 5)].
Proof.
  split; [reflexivity|]. split; [|split; [|split]].
  - intros stats chart. unfold pieChartData.
    destruct (truthy (Some stats)); [|discriminate].
    unfold mbind, completion_bind, mret, completion_ret.
    destruct (Json.get (Some stats) "status_distribution") as [d|]; [|discriminate].
    destruct (keys d) as [ks|] eqn:Hk; [|discriminate].
    destruct (values d) as [vs|] eqn:Hv; [|discriminate].
    intros [= <-]. simpl. rewrite !length_fmap.
    apply (keys_values_length d ks vs Hk Hv).
  - intros fields. unfold pieChartData.
    change (truthy (Some (JObject fields))) with true. cbn iota.
    cbn [Json.get]. unfold mbind, completion_bind, mret, completion_ret.
    destruct (field fields "status_distribution") as [[]|]; simpl;
      split; try discriminate; auto; intros [[=]|[=]].
  - intros fields distribution Hd. unfold pieChartData.
    change (truthy (Some (JObject fields))) with true. cbn iota.
    cbn [Json.get]. rewrite Hd. unfold mbind, completion_bind, mret, completion_ret.
    cbn [keys values]. rewrite <- !list_fmap_compose. reflexivity.
  - repeat split; vm_compute; reflexivity.
Qed.



End MoreAdminDashboardFacts.
